(** * Neuraxle AutoML metadata tree and repositories

    A shallow embedding of [neuraxle/metaopt/data/vanilla.py],
    [neuraxle/metaopt/data/json_repo.py] and the refit path of
    [neuraxle/metaopt/auto_ml.py].

    Python objects that are mutated in place are modelled with explicit
    state passing: a method that mutates [self] returns the new [self]
    next to its outcome, and the outcome of a method that can raise is a
    [result].  [copy.deepcopy] is the identity on the immutable values
    used here. *)

From Stdlib Require Import List String Ascii ZArith QArith Bool Lia Arith.
From Stdlib Require Import DecimalString DecimalZ Permutation.
Import ListNotations.
Close Scope Q_scope.
Open Scope string_scope.
Open Scope list_scope.

Set Implicit Arguments.
Set Warnings "-register-all".

(** ** Exceptions and outcomes *)

(** The exceptions the modelled code raises.  The [ValueError] of
    [_load_json_file] keeps the parts of its message apart, as
    [InvalidJSONFile]. *)
Inductive exn : Type :=
| KeyError (what : string)
| ValueError (what : string)
| InvalidJSONFile (file_content : string) (load_file : list string)
                  (surrounding_files : list string)
| TypeError (what : string)
| IndexError (what : string)
| AttributeError (attribute : string)
| NameError (name : string)
| UnboundLocalError (name : string)
| OSError (what : string).

Inductive result (A : Type) : Type :=
| Ok (a : A)
| Raise (e : exn).

Arguments Ok {A} a.
Arguments Raise {A} e.

Definition bind {A B} (r : result A) (k : A -> result B) : result B :=
  match r with
  | Ok a => k a
  | Raise e => Raise e
  end.

Declare Scope py_scope.
Delimit Scope py_scope with py.
Notation "x <- c ;; k" := (bind c (fun x => k))
  (at level 61, c at next level, right associativity) : py_scope.
Open Scope py_scope.

(** ** Scoped location attributes *)

(** [ScopedLocationAttr = Union[str, int]]. *)
Inductive ScopedLocationAttr : Type :=
| AStr (s : string)
| AInt (i : Z).

Definition attr_eqb (a b : ScopedLocationAttr) : bool :=
  match a, b with
  | AStr s, AStr t => String.eqb s t
  | AInt i, AInt j => Z.eqb i j
  | _, _ => false
  end.

(** A Python value that is an attribute or [None]; [==] on such values. *)
Definition py_eqb (a b : option ScopedLocationAttr) : bool :=
  match a, b with
  | Some x, Some y => attr_eqb x y
  | None, None => true
  | _, _ => false
  end.

Definition DEFAULT_PROJECT : string := "default_project".
Definition DEFAULT_CLIENT : string := "default_client".

(** ** Dataclass types and the tables indexed by them *)

(** The classes of the metadata tree, used as values ([self.__class__],
    keys of the tables below). *)
Inductive klass : Type :=
| RootDataclass
| ProjectDataclass
| ClientDataclass
| RoundDataclass
| TrialDataclass
| TrialSplitDataclass
| MetricResultsDataclass.

Definition klass_eqb (a b : klass) : bool :=
  match a, b with
  | RootDataclass, RootDataclass
  | ProjectDataclass, ProjectDataclass
  | ClientDataclass, ClientDataclass
  | RoundDataclass, RoundDataclass
  | TrialDataclass, TrialDataclass
  | TrialSplitDataclass, TrialSplitDataclass
  | MetricResultsDataclass, MetricResultsDataclass => true
  | _, _ => false
  end.

Definition dataclass_2_id_attr : list (klass * string) :=
  [ (ProjectDataclass, "project_name");
    (ClientDataclass, "client_name");
    (RoundDataclass, "round_number");
    (TrialDataclass, "trial_number");
    (TrialSplitDataclass, "split_number");
    (MetricResultsDataclass, "metric_name") ].

Definition dataclass_2_subloc_attr : list (klass * string) :=
  [ (RootDataclass, "projects");
    (ProjectDataclass, "clients");
    (ClientDataclass, "rounds");
    (RoundDataclass, "trials");
    (TrialDataclass, "validation_splits");
    (TrialSplitDataclass, "metric_results");
    (MetricResultsDataclass, "validation_values") ].

Definition dataclass_2_subdataclass : list (klass * option klass) :=
  [ (RootDataclass, Some ProjectDataclass);
    (ProjectDataclass, Some ClientDataclass);
    (ClientDataclass, Some RoundDataclass);
    (RoundDataclass, Some TrialDataclass);
    (TrialDataclass, Some TrialSplitDataclass);
    (TrialSplitDataclass, Some MetricResultsDataclass);
    (MetricResultsDataclass, None) ].

(** [d[key]] on one of the tables. *)
Fixpoint table_get {V} (d : list (klass * V)) (key : klass) : option V :=
  match d with
  | [] => None
  | (k, v) :: rest => if klass_eqb k key then Some v else table_get rest key
  end.

(** [list(d.keys()).index(key)]. *)
Fixpoint keys_index {V} (d : list (klass * V)) (key : klass) : option nat :=
  match d with
  | [] => None
  | (k, _) :: rest =>
      if klass_eqb k key then Some 0%nat
      else option_map S (keys_index rest key)
  end.

(** [dataclass_2_subdataclass[cls]]; every class is a key of that table. *)
Definition subdataclass (cls : klass) : option klass :=
  match table_get dataclass_2_subdataclass cls with
  | Some sub => sub
  | None => None
  end.

(** ** ScopedLocation *)

Record ScopedLocation : Type := mkScopedLocation {
  project_name : option ScopedLocationAttr;
  client_name : option ScopedLocationAttr;
  round_number : option ScopedLocationAttr;
  trial_number : option ScopedLocationAttr;
  split_number : option ScopedLocationAttr;
  metric_name : option ScopedLocationAttr
}.

(** [ScopedLocation()]: every field defaults to [None]. *)
Definition ScopedLocation_empty : ScopedLocation :=
  mkScopedLocation None None None None None None.

(** The constructor called with positional arguments: they fill the fields in
    order, missing ones default to [None], a seventh one is a
    [TypeError]. *)
Definition ScopedLocation_init (args : list (option ScopedLocationAttr))
  : result ScopedLocation :=
  match args with
  | [] => Ok (mkScopedLocation None None None None None None)
  | [a] => Ok (mkScopedLocation a None None None None None)
  | [a; b] => Ok (mkScopedLocation a b None None None None)
  | [a; b; c] => Ok (mkScopedLocation a b c None None None)
  | [a; b; c; d] => Ok (mkScopedLocation a b c d None None)
  | [a; b; c; d; e] => Ok (mkScopedLocation a b c d e None)
  | [a; b; c; d; e; f] => Ok (mkScopedLocation a b c d e f)
  | _ => Raise (TypeError "__init__() takes from 1 to 7 positional arguments")
  end.

(** [getattr(self, attr_name)] for the six field names. *)
Definition getattr (self : ScopedLocation) (attr_name : string)
  : option ScopedLocationAttr :=
  if attr_name =? "project_name" then project_name self
  else if attr_name =? "client_name" then client_name self
  else if attr_name =? "round_number" then round_number self
  else if attr_name =? "trial_number" then trial_number self
  else if attr_name =? "split_number" then split_number self
  else if attr_name =? "metric_name" then metric_name self
  else None.

(** [setattr(self, attr_name, value)]. *)
Definition setattr (self : ScopedLocation) (attr_name : string)
    (value : option ScopedLocationAttr) : ScopedLocation :=
  let '(mkScopedLocation a b c d e f) := self in
  if attr_name =? "project_name" then mkScopedLocation value b c d e f
  else if attr_name =? "client_name" then mkScopedLocation a value c d e f
  else if attr_name =? "round_number" then mkScopedLocation a b value d e f
  else if attr_name =? "trial_number" then mkScopedLocation a b c value e f
  else if attr_name =? "split_number" then mkScopedLocation a b c d value f
  else if attr_name =? "metric_name" then mkScopedLocation a b c d e value
  else self.

(** The loop of [as_list]: append the values up to the first [None]. *)
Fixpoint until_first_None (l : list (option ScopedLocationAttr))
  : list ScopedLocationAttr :=
  match l with
  | Some i :: rest => i :: until_first_None rest
  | _ => []
  end.

(** [as_list()] with [stringify=False]. *)
Definition as_list (self : ScopedLocation) : list ScopedLocationAttr :=
  let _list := map (fun attr_name => getattr self attr_name)
                   (map snd dataclass_2_id_attr) in
  until_first_None (_list ++ [None]).

(** [__len__]. *)
Definition ScopedLocation_len (self : ScopedLocation) : nat :=
  List.length (as_list self).

(** [copy()]. *)
Definition ScopedLocation_copy (self : ScopedLocation) : result ScopedLocation :=
  ScopedLocation_init (map Some (as_list self)).

(** [with_id(_id)]. *)
Definition with_id (self : ScopedLocation) (_id : ScopedLocationAttr)
  : result ScopedLocation :=
  ScopedLocation_init (map Some (as_list self ++ [_id])).

(** The loop of [pop] over the reversed attribute names: the first field
    that is not [None] is reset and its value returned; when every field
    is [None] the method falls off its end and returns [None]. *)
Fixpoint pop_loop (self : ScopedLocation) (names : list string)
  : option ScopedLocationAttr * ScopedLocation :=
  match names with
  | [] => (None, self)
  | attr_name :: rest =>
      match getattr self attr_name with
      | Some attr_value => (Some attr_value, setattr self attr_name None)
      | None => pop_loop self rest
      end
  end.

(** [pop()] mutates [self]: the popped value and the new [self]. *)
Definition pop (self : ScopedLocation)
  : option ScopedLocationAttr * ScopedLocation :=
  pop_loop self (rev (map snd dataclass_2_id_attr)).

(** [popped()]. *)
Definition popped (self : ScopedLocation) : result ScopedLocation :=
  ScopedLocation_init (map Some (removelast (as_list self))).

(** [peek()]. *)
Definition peek (self : ScopedLocation) : result ScopedLocationAttr :=
  match rev (as_list self) with
  | x :: _ => Ok x
  | [] => Raise (IndexError "list index out of range")
  end.

(** [self[key]] for a dataclass type [key]. *)
Definition loc_getitem (self : ScopedLocation) (key : klass)
  : option ScopedLocationAttr :=
  if klass_eqb key RootDataclass then None
  else match table_get dataclass_2_id_attr key with
       | Some attr_name => getattr self attr_name
       | None => None
       end.

(** [self[:key]] for a dataclass type [key]. *)
Definition loc_slice (self : ScopedLocation) (key : klass)
  : result ScopedLocation :=
  if klass_eqb key RootDataclass then Ok ScopedLocation_empty
  else match keys_index dataclass_2_id_attr key with
       | Some i => ScopedLocation_init (map Some (firstn (i + 1) (as_list self)))
       | None => Raise (ValueError "is not in list")
       end.

(** [self[key] = value].  The message of the intended [ValueError]
    subscripts [dataclass_2_id_attr.keys()], which is itself a
    [TypeError]. *)
Definition loc_setitem (self : ScopedLocation) (key : klass)
    (value : option ScopedLocationAttr) : result ScopedLocation :=
  let curr_attr_to_set_idx := ScopedLocation_len self in
  match keys_index dataclass_2_id_attr key with
  | None => Raise (ValueError "is not in list")
  | Some key_idx =>
      if negb (Nat.eqb curr_attr_to_set_idx key_idx)
      then Raise (TypeError "'odict_keys' object is not subscriptable")
      else match table_get dataclass_2_id_attr key with
           | Some key_attr_name => Ok (setattr self key_attr_name value)
           | None => Raise (KeyError "dataclass_2_id_attr")
           end
  end.

(** The prefix invariant of the data model: no field is set after an
    unset one. *)
Fixpoint no_gap (l : list (option ScopedLocationAttr)) : bool :=
  match l with
  | [] => true
  | Some _ :: rest => no_gap rest
  | None :: rest => forallb (fun o => match o with None => true | Some _ => false end) rest
  end.

Definition fields_of (self : ScopedLocation) : list (option ScopedLocationAttr) :=
  [ project_name self; client_name self; round_number self;
    trial_number self; split_number self; metric_name self ].

Definition prefix_invariant (self : ScopedLocation) : bool :=
  no_gap (fields_of self).

(** ** Metadata nodes *)

(** [TrialStatus] of [neuraxle.base]. *)
Inductive TrialStatus : Type := PLANNED | RUNNING | SUCCESS | FAILED | ABORTED.

(** Time stamps ([datetime.datetime]) as a number of ticks. *)
Definition datetime : Type := Z.

(** Metric values.  No arithmetic is done on them by the modelled code;
    the rationals stand for the decimal literals of the scores. *)
Definition float : Type := Q.

(** What the [hyperparams] field can hold: the dataclasses do not check
    the type of what their constructor receives. *)
Inductive pyobj : Type :=
| HyperparameterSamples (flat : list (string * float))
| PyAttr (a : ScopedLocationAttr).

(** The fields of [BaseTrialDataclassMixin], in declaration order. *)
Record BaseTrialDataclassMixin : Type := mkTrialMixin {
  hyperparams : pyobj;
  status : TrialStatus;
  created_time : datetime;
  start_time : datetime;
  end_time : option datetime;
  log : string
}.

(** An element of a sublocation container: a placeholder [None], a
    dataclass, or (for [MetricResultsDataclass]) a float. *)
Inductive pyval (A : Type) : Type :=
| PyNone
| PyDC (dc : A)
| PyFloat (x : float).

Arguments PyNone {A}.
Arguments PyDC {A} dc.
Arguments PyFloat {A} x.

(** A sublocation container: an [OrderedDict] (insertion-ordered
    association list, keys are arbitrary ids) or a [list]. *)
Inductive sublocation (A : Type) : Type :=
| OrderedDict (items : list (option ScopedLocationAttr * pyval A))
| PyList (items : list (pyval A)).

Arguments OrderedDict {A} items.
Arguments PyList {A} items.

(** The fields of each dataclass other than its sublocation; the
    constructor records the class. *)
Inductive own_fields : Type :=
| RootFields
| ProjectFields (project_name : option ScopedLocationAttr)
| ClientFields (client_name : option ScopedLocationAttr)
               (main_metric_name : option string)
| RoundFields (round_number : option ScopedLocationAttr)
| TrialFields (base : BaseTrialDataclassMixin)
              (trial_number : option ScopedLocationAttr)
| TrialSplitFields (base : BaseTrialDataclassMixin)
                   (split_number : option ScopedLocationAttr)
| MetricResultsFields (metric_name : option ScopedLocationAttr)
                      (train_values : list float)
                      (higher_score_is_better : bool).

(** A node: its own fields and its sublocation ([projects], [clients],
    [rounds], [trials], [validation_splits], [metric_results] or
    [validation_values], by [dataclass_2_subloc_attr]). *)
Inductive BaseDataclass : Type :=
| DC (own : own_fields) (sub : sublocation BaseDataclass).

Definition klass_of (own : own_fields) : klass :=
  match own with
  | RootFields => RootDataclass
  | ProjectFields _ => ProjectDataclass
  | ClientFields _ _ => ClientDataclass
  | RoundFields _ => RoundDataclass
  | TrialFields _ _ => TrialDataclass
  | TrialSplitFields _ _ => TrialSplitDataclass
  | MetricResultsFields _ _ _ => MetricResultsDataclass
  end.

(** [self.__class__]. *)
Definition class_of (self : BaseDataclass) : klass :=
  let 'DC own _ := self in klass_of own.

(** [get_id()]. *)
Definition get_id (self : BaseDataclass) : option ScopedLocationAttr :=
  let 'DC own _ := self in
  match own with
  | RootFields => None
  | ProjectFields project_name => project_name
  | ClientFields client_name _ => client_name
  | RoundFields round_number => round_number
  | TrialFields _ trial_number => trial_number
  | TrialSplitFields _ split_number => split_number
  | MetricResultsFields metric_name _ _ => metric_name
  end.

(** [get_sublocation()]. *)
Definition get_sublocation (self : BaseDataclass) : sublocation BaseDataclass :=
  let 'DC _ sub := self in sub.

(** [isinstance(self, DataclassHasOrderedDictMixin)]; the other classes
    have [DataclassHasListMixin]. *)
Definition has_ordered_dict_mixin (cls : klass) : bool :=
  match cls with
  | RootDataclass | ProjectDataclass | TrialSplitDataclass => true
  | _ => false
  end.

(** [len(container)]. *)
Definition sublocation_len {A} (sub : sublocation A) : nat :=
  match sub with
  | OrderedDict items => List.length items
  | PyList items => List.length items
  end.

(** [__len__]. *)
Definition dc_len (self : BaseDataclass) : nat :=
  sublocation_len (get_sublocation self).

Definition is_str (key : option ScopedLocationAttr) : bool :=
  match key with Some (AStr _) => true | _ => false end.

(** [isinstance(s, subdataklass)] for a value that is not [None]. *)
Definition isinstance_or_None (subdataklass : option klass)
    (s : pyval BaseDataclass) : bool :=
  match s with
  | PyNone => true
  | PyDC dc => match subdataklass with
               | Some k => klass_eqb (class_of dc) k
               | None => false
               end
  | PyFloat _ => false
  end.

(** [_invariant()] of the two mixins. *)
Definition _invariant (self : BaseDataclass) : result unit :=
  let 'DC own sub := self in
  if has_ordered_dict_mixin (klass_of own) then
    match sub with
    | PyList _ => Raise (ValueError "must have an OrderedDict as sublocation")
    | OrderedDict items =>
        if negb (forallb (fun kv => is_str (fst kv)) items)
        then Raise (ValueError "must have all sublocation keys as strings")
        else
          let subdataklass := subdataclass (klass_of own) in
          if negb (forallb (fun kv => isinstance_or_None subdataklass (snd kv)) items)
          then Raise (ValueError "must have all sublocation values as subdataklass")
          else Ok tt
    end
  else
    match sub with
    | PyList _ => Ok tt
    | OrderedDict _ => Raise (ValueError "must have a List as sublocation")
    end.

(** [set_sublocation(sublocation)]: the attribute is assigned, then the
    invariant is checked. *)
Definition set_sublocation (self : BaseDataclass)
    (sublocation : sublocation BaseDataclass) : result unit * BaseDataclass :=
  let 'DC own _ := self in
  let self' := DC own sublocation in
  (_invariant self', self').

(** [d[key] = value] on an [OrderedDict]: an existing key keeps its
    position, a new one goes last. *)
Fixpoint dict_setitem {A} (items : list (option ScopedLocationAttr * A))
    (key : option ScopedLocationAttr) (value : A)
  : list (option ScopedLocationAttr * A) :=
  match items with
  | [] => [(key, value)]
  | (k, v) :: rest =>
      if py_eqb k key then (k, value) :: rest
      else (k, v) :: dict_setitem rest key value
  end.

(** [d[key]] on an [OrderedDict]. *)
Fixpoint dict_getitem {A} (items : list (option ScopedLocationAttr * A))
    (key : option ScopedLocationAttr) : option A :=
  match items with
  | [] => None
  | (k, v) :: rest => if py_eqb k key then Some v else dict_getitem rest key
  end.

(** Replace position [n] of a list known to be long enough. *)
Fixpoint list_set {A} (l : list A) (n : nat) (value : A) : list A :=
  match l, n with
  | [], _ => []
  | _ :: rest, O => value :: rest
  | x :: rest, S m => x :: list_set rest m value
  end.

(** The position a Python list index denotes: negative indices count
    from the end, anything out of range is an [IndexError]. *)
Definition list_position (len : nat) (i : Z) : option nat :=
  if (0 <=? i)%Z && (i <? Z.of_nat len)%Z then Some (Z.to_nat i)
  else if (i <? 0)%Z && (- Z.of_nat len <=? i)%Z then Some (Z.to_nat (Z.of_nat len + i))
  else None.

(** [l[key] = value] on a list. *)
Definition list_setitem {A} (l : list A) (key : option ScopedLocationAttr)
    (value : A) : result (list A) :=
  match key with
  | Some (AInt i) =>
      match list_position (List.length l) i with
      | Some n => Ok (list_set l n value)
      | None => Raise (IndexError "list assignment index out of range")
      end
  | _ => Raise (TypeError "list indices must be integers or slices")
  end.

(** [get_next_i()]. *)
Definition get_next_i (self : BaseDataclass) : nat := dc_len self.

(** [DataclassHasOrderedDictMixin.store]: the item is assigned first and
    the invariant is checked afterwards, on the mutated node. *)
Definition store_ordered_dict (self dc : BaseDataclass)
  : result (option ScopedLocationAttr) * BaseDataclass :=
  let 'DC own sub := self in
  match sub with
  | OrderedDict items =>
      let self' := DC own (OrderedDict (dict_setitem items (get_id dc) (PyDC dc))) in
      (_ <- _invariant self' ;; Ok (get_id dc), self')
  | PyList items =>
      match list_setitem items (get_id dc) (PyDC dc) with
      | Ok items' =>
          let self' := DC own (PyList items') in
          (_ <- _invariant self' ;; Ok (get_id dc), self')
      | Raise e => (Raise e, self)
      end
  end.

(** [DataclassHasListMixin.store]. *)
Definition store_list (self dc : BaseDataclass)
  : result (option ScopedLocationAttr) * BaseDataclass :=
  let 'DC own sub := self in
  let _id := get_id dc in
  match _id with
  | Some (AInt i) =>
      if (i =? Z.of_nat (get_next_i self))%Z then
        match sub with
        | PyList items =>
            let self' := DC own (PyList (items ++ [PyDC dc])) in
            (_ <- _invariant self' ;; Ok _id, self')
        | OrderedDict _ =>
            (Raise (AttributeError "append"), self)
        end
      else if (i <? Z.of_nat (get_next_i self))%Z then
        match sub with
        | PyList items =>
            match list_setitem items _id (PyDC dc) with
            | Ok items' =>
                let self' := DC own (PyList items') in
                (_ <- _invariant self' ;; Ok _id, self')
            | Raise e => (Raise e, self)
            end
        | OrderedDict items =>
            let self' := DC own (OrderedDict (dict_setitem items _id (PyDC dc))) in
            (_ <- _invariant self' ;; Ok _id, self')
        end
      else (Raise (ValueError "has id which is greater than the next id"), self)
  | _ =>
      (* [_id == n] is [False] and [_id < n] is not defined between
         [str] or [None] and [int]. *)
      (Raise (TypeError "'<' not supported"), self)
  end.

(** [store(dc)], dispatched on the mixin of [self]'s class. *)
Definition store (self dc : BaseDataclass)
  : result (option ScopedLocationAttr) * BaseDataclass :=
  if has_ordered_dict_mixin (class_of self) then store_ordered_dict self dc
  else store_list self dc.

(** [get_sublocation_keys()]. *)
Definition get_sublocation_keys (self : BaseDataclass)
  : result (list (option ScopedLocationAttr)) :=
  if has_ordered_dict_mixin (class_of self) then
    match get_sublocation self with
    | OrderedDict items => Ok (map fst items)
    | PyList _ => Raise (AttributeError "keys")
    end
  else Ok (map (fun n => Some (AInt (Z.of_nat n))) (seq 0 (dc_len self))).

(** [get_sublocation_values()]. *)
Definition get_sublocation_values (self : BaseDataclass)
  : result (list (pyval BaseDataclass)) :=
  match get_sublocation self with
  | OrderedDict items => Ok (map snd items)
  | PyList items =>
      if has_ordered_dict_mixin (class_of self)
      then Raise (AttributeError "values") else Ok items
  end.

(** [shallow()]. *)
Definition shallow (self : BaseDataclass) : result BaseDataclass :=
  if has_ordered_dict_mixin (class_of self) then
    match get_sublocation self with
    | OrderedDict items =>
        let new_sublocation := OrderedDict (map (fun kv => (fst kv, PyNone)) items) in
        let '(r, self_copy) := set_sublocation self new_sublocation in
        _ <- r ;; Ok self_copy
    | PyList _ => Raise (AttributeError "keys")
    end
  else
    let new_sublocation := PyList (repeat PyNone (dc_len self)) in
    let '(r, self_copy) := set_sublocation self new_sublocation in
    _ <- r ;; Ok self_copy.

(** [x in keys]. *)
Definition key_in (x : option ScopedLocationAttr)
    (keys : list (option ScopedLocationAttr)) : bool :=
  existsb (py_eqb x) keys.

(** *** Indexing a node by a location *)

Section Subscript.
Variables A B : Type.

(** What is done with the element found: [subloc[loc]] recurses on a
    dataclass, a placeholder or a float cannot be subscripted. *)
Variable descend : A -> result B.

Definition subscript_value (v : pyval A) : result B :=
  match v with
  | PyDC subloc => descend subloc
  | PyNone => Raise (TypeError "'NoneType' object is not subscriptable")
  | PyFloat _ => Raise (TypeError "'float' object is not subscriptable")
  end.

(** [d[key][loc]]. *)
Fixpoint dict_subscript (items : list (option ScopedLocationAttr * pyval A))
    (key : option ScopedLocationAttr) : result B :=
  match items with
  | [] => Raise (KeyError "key")
  | (k, v) :: rest =>
      if py_eqb k key then subscript_value v else dict_subscript rest key
  end.

(** [l[n][loc]] at a position. *)
Fixpoint list_subscript_at (items : list (pyval A)) (n : nat) : result B :=
  match items, n with
  | [], _ => Raise (IndexError "list index out of range")
  | v :: _, O => subscript_value v
  | _ :: rest, S m => list_subscript_at rest m
  end.

(** [container[key][loc]]. *)
Definition sublocation_subscript (sub : sublocation A)
    (key : option ScopedLocationAttr) : result B :=
  match sub with
  | OrderedDict items => dict_subscript items key
  | PyList items =>
      match key with
      | Some (AInt i) =>
          match list_position (List.length items) i with
          | Some n => list_subscript_at items n
          | None => Raise (IndexError "list index out of range")
          end
      | _ => Raise (TypeError "list indices must be integers or slices")
      end
  end.
End Subscript.

(** [raise KeyError(f"Item at loc={loc} is not in {self.shallow()}.")]:
    the message is built first, with [self.shallow()], which can
    raise. *)
Definition raise_KeyError_not_in {B} (self : BaseDataclass) : result B :=
  _ <- shallow self ;; Raise (KeyError "Item at loc is not in self").

Arguments raise_KeyError_not_in : simpl never.

(** [BaseDataclass.__getitem__(loc)]. *)
Fixpoint getitem (self : BaseDataclass) (loc : ScopedLocation) {struct self}
  : result BaseDataclass :=
  match subdataclass (class_of self) with
  | None => Ok self
  | Some subdataklass =>
      match loc_getitem loc subdataklass with
      | None => Ok self
      | Some located_sub_attr =>
          keys <- get_sublocation_keys self ;;
          if negb (key_in (Some located_sub_attr) keys)
          then raise_KeyError_not_in self
          else
            match self with
            | DC _ sub =>
                sublocation_subscript (fun subloc => getitem subloc loc)
                                      sub (Some located_sub_attr)
            end
      end
  end.

(** *** Mutating the node a location designates

    [self[loc].store(dc)] mutates, in place, the node that [self[loc]]
    returns.  The tree owns its nodes (every value that enters it has
    been deep-copied), so the effect on [self] is the tree in which that
    node has been replaced by the mutated one. *)

Section SubscriptUpdate.
Variables A R : Type.

(** The method run on the designated node: its outcome and the
    mutated node. *)
Variable method : A -> result R * A.

Definition update_value (v : pyval A) : result R * pyval A :=
  match v with
  | PyDC subloc => let '(r, subloc') := method subloc in (r, PyDC subloc')
  | PyNone => (Raise (TypeError "'NoneType' object is not subscriptable"), v)
  | PyFloat _ => (Raise (TypeError "'float' object is not subscriptable"), v)
  end.

Fixpoint dict_update (items : list (option ScopedLocationAttr * pyval A))
    (key : option ScopedLocationAttr)
  : result R * list (option ScopedLocationAttr * pyval A) :=
  match items with
  | [] => (Raise (KeyError "key"), [])
  | (k, v) :: rest =>
      if py_eqb k key
      then let '(r, v') := update_value v in (r, (k, v') :: rest)
      else let '(r, rest') := dict_update rest key in (r, (k, v) :: rest')
  end.

Fixpoint list_update_at (items : list (pyval A)) (n : nat)
  : result R * list (pyval A) :=
  match items, n with
  | [], _ => (Raise (IndexError "list index out of range"), [])
  | v :: rest, O => let '(r, v') := update_value v in (r, v' :: rest)
  | v :: rest, S m => let '(r, rest') := list_update_at rest m in (r, v :: rest')
  end.

Definition sublocation_update (sub : sublocation A)
    (key : option ScopedLocationAttr) : result R * sublocation A :=
  match sub with
  | OrderedDict items =>
      let '(r, items') := dict_update items key in (r, OrderedDict items')
  | PyList items =>
      match key with
      | Some (AInt i) =>
          match list_position (List.length items) i with
          | Some n => let '(r, items') := list_update_at items n in (r, PyList items')
          | None => (Raise (IndexError "list index out of range"), sub)
          end
      | _ => (Raise (TypeError "list indices must be integers or slices"), sub)
      end
  end.
End SubscriptUpdate.

(** [self[loc].store(dc)]: the outcome and the mutated [self]. *)
Fixpoint getitem_store (self : BaseDataclass) (loc : ScopedLocation)
    (dc : BaseDataclass) {struct self}
  : result (option ScopedLocationAttr) * BaseDataclass :=
  match subdataclass (class_of self) with
  | None => store self dc
  | Some subdataklass =>
      match loc_getitem loc subdataklass with
      | None => store self dc
      | Some located_sub_attr =>
          match get_sublocation_keys self with
          | Raise e => (Raise e, self)
          | Ok keys =>
              if negb (key_in (Some located_sub_attr) keys)
              then (raise_KeyError_not_in self, self)
              else
                match self with
                | DC own sub =>
                    let '(r, sub') :=
                      sublocation_update
                        (fun subloc => getitem_store subloc loc dc)
                        sub (Some located_sub_attr) in
                    (r, DC own sub')
                end
          end
      end
  end.

(** *** Constructors

    The [__init__] generated by [@dataclass] takes the fields in
    declaration order, base classes first: for [TrialDataclass] and
    [TrialSplitDataclass] the fields of [BaseTrialDataclassMixin]
    ([hyperparams], [status], ...) come before [trial_number] and
    [split_number].  Each definition below is the constructor called
    with its first positional argument only. *)

(** [ClientDataclass(client_name)]. *)
Definition ClientDataclass_init (client_name : option ScopedLocationAttr)
  : BaseDataclass :=
  DC (ClientFields client_name None) (PyList []).

(** [ProjectDataclass(project_name)]: [clients] defaults to one default
    client. *)
Definition ProjectDataclass_init (project_name : option ScopedLocationAttr)
  : BaseDataclass :=
  DC (ProjectFields project_name)
     (OrderedDict [ (Some (AStr DEFAULT_CLIENT),
                     PyDC (ClientDataclass_init (Some (AStr DEFAULT_CLIENT)))) ]).

(** [RootDataclass()]: [projects] defaults to one default project. *)
Definition RootDataclass_init : BaseDataclass :=
  DC RootFields
     (OrderedDict [ (Some (AStr DEFAULT_PROJECT),
                     PyDC (ProjectDataclass_init (Some (AStr DEFAULT_PROJECT)))) ]).

(** [RoundDataclass(round_number)]. *)
Definition RoundDataclass_init (round_number : option ScopedLocationAttr)
  : BaseDataclass :=
  DC (RoundFields round_number) (PyList []).

(** [TrialDataclass(hyperparams)]; [now] is what [datetime.now()]
    gives, taken as one value for the two fields it fills,
    [created_time] and [start_time], which the source reads one after
    the other. *)
Definition TrialDataclass_init (now : datetime) (hyperparams : pyobj)
  : BaseDataclass :=
  DC (TrialFields (mkTrialMixin hyperparams PLANNED now now None EmptyString)
                  (Some (AInt 0)))
     (PyList []).

(** [TrialSplitDataclass(hyperparams)]. *)
Definition TrialSplitDataclass_init (now : datetime) (hyperparams : pyobj)
  : BaseDataclass :=
  DC (TrialSplitFields (mkTrialMixin hyperparams PLANNED now now None EmptyString)
                       (Some (AInt 0)))
     (OrderedDict []).

(** [MetricResultsDataclass(metric_name)]. *)
Definition MetricResultsDataclass_init (metric_name : option ScopedLocationAttr)
  : BaseDataclass :=
  DC (MetricResultsFields metric_name [] true) (PyList []).

(** [dataklass(x)] for a class of [dataclass_2_id_attr]. *)
Definition dataklass_call (now : datetime) (dataklass : klass)
    (x : ScopedLocationAttr) : BaseDataclass :=
  match dataklass with
  | RootDataclass => RootDataclass_init
  | ProjectDataclass => ProjectDataclass_init (Some x)
  | ClientDataclass => ClientDataclass_init (Some x)
  | RoundDataclass => RoundDataclass_init (Some x)
  | TrialDataclass => TrialDataclass_init now (PyAttr x)
  | TrialSplitDataclass => TrialSplitDataclass_init now (PyAttr x)
  | MetricResultsDataclass => MetricResultsDataclass_init (Some x)
  end.

(** [l[i]] for a Python index that may be [-1]. *)
Definition keys_at (n : nat) : option klass :=
  nth_error (map fst dataclass_2_id_attr) n.

(** [new_dataclass_from_id()].  On an empty location the class index is
    [-1] (the last class) and [_list[-1]] is an [IndexError]. *)
Definition new_dataclass_from_id (now : datetime) (self : ScopedLocation)
  : result BaseDataclass :=
  let _list := as_list self in
  let dataklass :=
    match List.length _list with
    | O => keys_at (List.length dataclass_2_id_attr - 1)
    | S n => keys_at n
    end in
  match dataklass, rev _list with
  | Some dataklass, last :: _ => Ok (dataklass_call now dataklass last)
  | _, _ => Raise (IndexError "list index out of range")
  end.

(** [with_dc(dc)]. *)
Definition with_dc (self : ScopedLocation) (dc : BaseDataclass)
  : result ScopedLocation :=
  if klass_eqb (class_of dc) RootDataclass then Ok ScopedLocation_empty
  else
    self_copy <- ScopedLocation_copy self ;;
    loc_setitem self_copy (class_of dc) (get_id dc).

(** ** The in-memory repository *)

Record VanillaHyperparamsRepository : Type := mkVanilla {
  cache_folder : string;
  root : BaseDataclass
}.

Definition ends_with_separator (a : string) : bool :=
  match rev (list_ascii_of_string a) with
  | c :: _ => Ascii.eqb c "/"%char
  | [] => false
  end.

(** [os.path.join(a, b)] for a [b] that does not start with a
    separator: one is inserted unless [a] is empty or ends with one. *)
Definition os_path_join (a b : string) : string :=
  match a with
  | EmptyString => b
  | _ => if ends_with_separator a then (a ++ b)%string
         else (a ++ "/" ++ b)%string
  end.

(** [VanillaHyperparamsRepository(cache_folder)]. *)
Definition Vanilla_init (cache_folder : string) : VanillaHyperparamsRepository :=
  {| cache_folder := os_path_join cache_folder "VanillaHyperparamsRepository";
     root := RootDataclass_init |}.

(** [load(scope, deep)]: only a [KeyError] is caught. *)
Definition load (now : datetime) (self : VanillaHyperparamsRepository)
    (scope : ScopedLocation) (deep : bool) : result BaseDataclass :=
  let attempt :=
    ret <- getitem (root self) scope ;;
    if negb deep then shallow ret else Ok ret in
  match attempt with
  | Ok ret => Ok ret
  | Raise (KeyError _) => new_dataclass_from_id now scope
  | Raise e => Raise e
  end.

(** The first part of [save]: the scope is cut at the class of the
    dataclass and checked against its id.  Returns the scope of the
    parent. *)
Definition save_check_scope (_dataclass : BaseDataclass) (scope : ScopedLocation)
  : result ScopedLocation :=
  let cls := class_of _dataclass in
  let _id_from_scope := loc_getitem scope cls in
  scope <- loc_slice scope cls ;;
  match _id_from_scope with
  | Some _ =>
      if negb (py_eqb _id_from_scope (get_id _dataclass))
      then Raise (ValueError "The scope does not match the provided dataclass id")
      else Ok (snd (pop scope))
  | None =>
      match keys_index dataclass_2_subloc_attr cls with
      | Some idx =>
          if negb (Nat.eqb (ScopedLocation_len scope) idx)
          then Raise (ValueError "The scope is not of the good length for dataclass type")
          else Ok scope
      | None => Raise (ValueError "is not in list")
      end
  end.

(** The second part of [save], when [deep] is false: the sublocation
    stored at the address of the dataclass is loaded (deep) and
    reassigned to the dataclass. *)
Definition save_reassign_sublocation (now : datetime)
    (self : VanillaHyperparamsRepository) (_dataclass : BaseDataclass)
    (scope : ScopedLocation) : result BaseDataclass :=
  prev_dc <- (if klass_eqb (class_of _dataclass) RootDataclass
              then Ok (root self)
              else loc <- with_dc scope _dataclass ;; load now self loc true) ;;
  let '(r, _dataclass) := set_sublocation _dataclass (get_sublocation prev_dc) in
  _ <- r ;; Ok _dataclass.

(** [save(_dataclass, scope, deep)]: the outcome and the repository
    afterwards.  The repository is mutated by the last statement only. *)
Definition save (now : datetime) (self : VanillaHyperparamsRepository)
    (_dataclass : BaseDataclass) (scope : ScopedLocation) (deep : bool)
  : result unit * VanillaHyperparamsRepository :=
  match save_check_scope _dataclass scope with
  | Raise e => (Raise e, self)
  | Ok scope =>
      match (if negb deep
             then save_reassign_sublocation now self _dataclass scope
             else Ok _dataclass) with
      | Raise e => (Raise e, self)
      | Ok _dataclass =>
          if klass_eqb (class_of _dataclass) RootDataclass
          then (Ok tt, {| cache_folder := cache_folder self; root := _dataclass |})
          else
            let '(r, root') := getitem_store (root self) scope _dataclass in
            (_ <- r ;; Ok tt,
             {| cache_folder := cache_folder self; root := root' |})
      end
  end.

(** ** The cache folder of the on-disk repository *)

(** A path below the cache folder: its segments.  A segment holds no
    path separator: see [no_separator] for the scopes whose folder is
    made of one segment for each coordinate. *)
Definition path : Type := list string.

Definition path_eqb (p q : path) : bool :=
  if list_eq_dec string_dec p q then true else false.

(** The folders and the files (with their content) below the cache
    folder. *)
Record FileSystem : Type := mkFS {
  directories : list path;
  files : list (path * string)
}.

Definition is_dir (fs : FileSystem) (p : path) : bool :=
  existsb (path_eqb p) (directories fs).

Fixpoint file_content (l : list (path * string)) (p : path) : option string :=
  match l with
  | [] => None
  | (q, c) :: rest => if path_eqb q p then Some c else file_content rest p
  end.

Definition is_file (fs : FileSystem) (p : path) : bool :=
  match file_content (files fs) p with Some _ => true | None => false end.

(** [os.path.exists(p)]. *)
Definition path_exists (fs : FileSystem) (p : path) : bool :=
  is_file fs p || is_dir fs p.

(** [os.path.dirname(p)]. *)
Definition dirname (p : path) : path := removelast p.

(** The proper prefixes of a path and the path itself, shortest first. *)
Fixpoint prefixes (p : path) : list path :=
  match p with
  | [] => [[]]
  | x :: rest => [] :: map (cons x) (prefixes rest)
  end.

Definition add_dir (dirs : list path) (p : path) : list path :=
  if existsb (path_eqb p) dirs then dirs else dirs ++ [p].

(** [os.makedirs(p, exist_ok=True)]. *)
Definition makedirs (fs : FileSystem) (p : path) : result FileSystem :=
  if existsb (is_file fs) (prefixes p)
  then Raise (OSError "FileExistsError")
  else Ok {| directories := fold_left add_dir (prefixes p) (directories fs);
             files := files fs |}.

Fixpoint set_file (l : list (path * string)) (p : path) (content : string)
  : list (path * string) :=
  match l with
  | [] => [(p, content)]
  | (q, c) :: rest =>
      if path_eqb q p then (q, content) :: rest
      else (q, c) :: set_file rest p content
  end.

(** [open(p, 'w')] followed by writing [content] and closing. *)
Definition write_file (fs : FileSystem) (p : path) (content : string)
  : result FileSystem :=
  if is_dir fs p then Raise (OSError "IsADirectoryError")
  else if negb (is_dir fs (dirname p)) then Raise (OSError "FileNotFoundError")
  else Ok {| directories := directories fs;
             files := set_file (files fs) p content |}.

(** [open(p, 'r').read()]. *)
Definition read_file (fs : FileSystem) (p : path) : result string :=
  match file_content (files fs) p with
  | Some c => Ok c
  | None => Raise (OSError "cannot read")
  end.

(** The entry names directly below a folder. *)
Definition child_name (d p : path) : option string :=
  match rev p with
  | x :: _ => if path_eqb (dirname p) d then Some x else None
  | [] => None
  end.

Fixpoint child_names (d : path) (l : list path) : list string :=
  match l with
  | [] => []
  | p :: rest =>
      match child_name d p with
      | Some x => x :: child_names d rest
      | None => child_names d rest
      end
  end.

(** [os.listdir(d)] of an existing folder. *)
Definition listdir (fs : FileSystem) (d : path) : list string :=
  nodup string_dec
    (child_names d (directories fs) ++ child_names d (map fst (files fs))).

(** ** The on-disk repository *)

Definition ON_DISK_DELIM : string := "_".

(** [str(i)] of an attribute. *)
Definition str (a : ScopedLocationAttr) : string :=
  match a with
  | AStr s => s
  | AInt i => NilZero.string_of_int (Z.to_int i)
  end.

(** [int(s)] of a decimal literal: digits, after a minus sign or not.
    The other literals that Python reads (blanks around the digits, a
    plus sign, underscores between digits) are not names that
    [str] of an integer gives to a folder, and are refused here. *)
Definition int (s : string) : result Z :=
  match NilZero.int_of_string s with
  | Some d => Ok (Z.of_int d)
  | None => Raise (ValueError "invalid literal for int() with base 10")
  end.

(** [get_folder_at_scope(scope)], below the cache folder: the segments
    that [os.path.join] adds to it, one for each coordinate as long as
    no coordinate holds a path separator ([no_separator], below). *)
Definition get_folder_at_scope (scope : ScopedLocation) : path :=
  let _scope_attrs := map str (as_list scope) in
  map (fun s => ON_DISK_DELIM ++ s)%string _scope_attrs.

(** [get_scoped_logger_path(scope)]. *)
Definition get_scoped_logger_path (scope : ScopedLocation) : path :=
  get_folder_at_scope scope ++ ["log.txt"].

(** Python's [sorted] on strings: insertion into a list ordered by code
    points. *)
Fixpoint insert_sorted (x : string) (l : list string) : list string :=
  match l with
  | [] => [x]
  | y :: rest => if String.leb x y then x :: l else y :: insert_sorted x rest
  end.

Definition sorted (l : list string) : list string :=
  fold_right insert_sorted [] l.

(** [[int(i) for i in sublocs]]. *)
Fixpoint map_int (l : list string) : result (list Z) :=
  match l with
  | [] => Ok []
  | s :: rest => i <- int s ;; is' <- map_int rest ;; Ok (i :: is')
  end.

(** The keys computed by [_load_dc_sublocation_keys] from the listing of
    the folder: the names that start with the delimiter, stripped of it
    and sorted as strings; for a list dataclass they are converted to
    integers after the sort. *)
Definition sublocation_keys_of_listing (is_list : bool) (sublocs : list string)
  : result (list (option ScopedLocationAttr)) :=
  let sublocs :=
    sorted (map (fun s => substring (String.length ON_DISK_DELIM)
                                    (String.length s - String.length ON_DISK_DELIM) s)
                (filter (String.prefix ON_DISK_DELIM) sublocs)) in
  if is_list
  then ints <- map_int sublocs ;; Ok (map (fun i => Some (AInt i)) ints)
  else Ok (map (fun s => Some (AStr s)) sublocs).

(** The writes of [_save_dc]: the folder is created, the record file is
    opened for writing (created, or emptied), then the text to write is
    computed, which can raise, and written. *)
Definition write_record (fs : FileSystem) (save_folder save_file : path)
    (text : result string) : result unit * FileSystem :=
  match makedirs fs save_folder with
  | Raise e => (Raise e, fs)
  | Ok fs1 =>
      match write_file fs1 save_file EmptyString with
      | Raise e => (Raise e, fs1)
      | Ok fs2 =>
          match text with
          | Raise e => (Raise e, fs2)
          | Ok text =>
              match write_file fs2 save_file text with
              | Raise e => (Raise e, fs2)
              | Ok fs3 => (Ok tt, fs3)
              end
          end
      end
  end.

(** A loop over the values of a sublocation that threads a state and
    stops at the first exception. *)
Section ForEachValue.
Variables A S : Type.
Variable body : pyval A -> S -> result unit * S.

Fixpoint for_each_item (items : list (option ScopedLocationAttr * pyval A))
    (s : S) : result unit * S :=
  match items with
  | [] => (Ok tt, s)
  | (_, v) :: rest =>
      match body v s with
      | (Ok _, s') => for_each_item rest s'
      | (Raise e, s') => (Raise e, s')
      end
  end.

Fixpoint for_each_element (items : list (pyval A)) (s : S) : result unit * S :=
  match items with
  | [] => (Ok tt, s)
  | v :: rest =>
      match body v s with
      | (Ok _, s') => for_each_element rest s'
      | (Raise e, s') => (Raise e, s')
      end
  end.

Definition for_each_value (sub : sublocation A) (s : S) : result unit * S :=
  match sub with
  | OrderedDict items => for_each_item items s
  | PyList items => for_each_element items s
  end.
End ForEachValue.

Section OnDisk.

(** What [json.loads] returns, and [json.loads] itself. *)
Variable JSON : Type.
Variable json_loads : string -> option JSON.

(** [json_repo.py] calls three methods that [vanilla.py] does not
    define: [ScopedLocation.at_dc], [BaseDataclass.has_sublocation_dataclasses]
    and [BaseDataclass.set_sublocation_keys].  They are parameters of the
    repository; what the calls do in the source is given after the
    section ([ScopedLocation_at_dc], [BaseDataclass_empty]). *)
Variable at_dc : ScopedLocation -> BaseDataclass -> result ScopedLocation.
Variable has_sublocation_dataclasses : BaseDataclass -> bool.
Variable set_sublocation_keys :
  BaseDataclass -> list (option ScopedLocationAttr) -> result BaseDataclass.

(** The text that [json.dump(to_json(_dataclass.empty()), f, indent=4)]
    writes, or the exception it raises.  [empty] is a fourth method that
    [vanilla.py] does not define, and [to_json] encodes a dataclass
    through [MetadataJSONEncoder.default], which calls a fifth one,
    [asdict]. *)
Variable dump_record : BaseDataclass -> result string.

(** [_patch_scope_for_dataclass(_dataclass, scope)]: the scope goes
    through [at_dc] and its coordinate for the class of the dataclass is
    overwritten with the id of the dataclass.  Nothing is compared. *)
Definition _patch_scope_for_dataclass (_dataclass : option BaseDataclass)
    (scope : ScopedLocation) : result ScopedLocation :=
  match _dataclass with
  | None => Ok scope
  | Some dc =>
      match get_id dc with
      | None => Ok scope
      | Some _id =>
          scope <- at_dc scope dc ;;
          match table_get dataclass_2_id_attr (class_of dc) with
          | Some attr_name => Ok (setattr scope attr_name (Some _id))
          | None => Raise (KeyError "dataclass_2_id_attr")
          end
      end
  end.

(** [_get_dataclass_filename_path(_dataclass, scope)]. *)
Definition _get_dataclass_filename_path (_dataclass : option BaseDataclass)
    (scope : ScopedLocation) : result (ScopedLocation * path * path) :=
  scope <- _patch_scope_for_dataclass _dataclass scope ;;
  let save_folder := get_folder_at_scope scope in
  let save_file := save_folder ++ ["metadata.json"] in
  Ok (scope, save_folder, save_file).

(** [from_json(json)]: the parameter is named [json] and hides the
    module of that name inside the function, so [json.loads] is looked
    up on the argument, and no value returned by the module's
    [json.loads] (dict, list, str, number, bool, None) has an attribute
    [loads]. *)
Definition from_json (json : JSON) : result BaseDataclass :=
  Raise (AttributeError "loads").

(** [_load_json_file(load_file)]. *)
Definition _load_json_file (fs : FileSystem) (load_file : path) : result JSON :=
  if negb (path_exists fs load_file)
  then Raise (KeyError "load_file not found.")
  else
    _file_content <- read_file fs load_file ;;
    match json_loads _file_content with
    | Some loaded => Ok loaded
    | None =>
        let surrounding_files := listdir fs (dirname load_file) in
        Raise (InvalidJSONFile _file_content load_file surrounding_files)
    end.

(** [_load_dc_sublocation_keys(_dataclass, scope)]. *)
Definition _load_dc_sublocation_keys (fs : FileSystem)
    (_dataclass : BaseDataclass) (scope : ScopedLocation)
  : result BaseDataclass :=
  let dc_folder := get_folder_at_scope scope in
  let sublocs := listdir fs dc_folder in
  sublocs <- sublocation_keys_of_listing
               (negb (has_ordered_dict_mixin (class_of _dataclass))) sublocs ;;
  set_sublocation_keys _dataclass sublocs.

(** The loop of [_load_dc] over the keys of the sublocation. *)
Fixpoint load_sublocation (load_at : ScopedLocation -> result BaseDataclass)
    (scope : ScopedLocation) (keys : list (option ScopedLocationAttr))
    (_dataclass : BaseDataclass) : result BaseDataclass :=
  match keys with
  | [] => Ok _dataclass
  | sub_dc_id :: rest =>
      sub_scope <- ScopedLocation_init (map Some (as_list scope) ++ [sub_dc_id]) ;;
      sub_dc <- load_at sub_scope ;;
      let '(r, _dataclass) := store _dataclass sub_dc in
      _ <- r ;; load_sublocation load_at scope rest _dataclass
  end.

(** [_load_dc(scope, deep)].  The recursion goes one coordinate deeper
    at each call and a location has six coordinates; [depth] bounds
    the nesting of the calls. *)
Fixpoint _load_dc (depth : nat) (fs : FileSystem) (scope : ScopedLocation)
    (deep : bool) : result BaseDataclass :=
  match depth with
  | O => Raise (TypeError "__init__() takes from 1 to 7 positional arguments")
  | S depth =>
      paths <- _get_dataclass_filename_path None scope ;;
      let '(scope, _, load_file) := paths in
      _json_loaded <- _load_json_file fs load_file ;;
      _dataclass <- from_json _json_loaded ;;
      if has_sublocation_dataclasses _dataclass then
        _dataclass <- _load_dc_sublocation_keys fs _dataclass scope ;;
        if deep then
          keys <- get_sublocation_keys _dataclass ;;
          load_sublocation (fun sub_scope => _load_dc depth fs sub_scope deep)
                           scope keys _dataclass
        else Ok _dataclass
      else Ok _dataclass
  end.

(** [HyperparamsOnDiskRepository.load(scope, deep)]. *)
Definition OnDisk_load (now : datetime) (fs : FileSystem)
    (scope : ScopedLocation) (deep : bool) : result BaseDataclass :=
  match _load_dc 8 fs scope deep with
  | Ok loaded => Ok loaded
  | Raise (KeyError _) => new_dataclass_from_id now scope
  | Raise e => Raise e
  end.

(** [_save_dc(None, scope, deep)], reached from the loop over the
    values of a sublocation that holds a placeholder: the scope is not
    patched, the record file of [scope] is opened for writing and
    [None.empty()] is an [AttributeError]. *)
Definition _save_dc_None (scope : ScopedLocation) (fs : FileSystem)
  : result unit * FileSystem :=
  let save_folder := get_folder_at_scope scope in
  write_record fs save_folder (save_folder ++ ["metadata.json"])
               (Raise (AttributeError "empty")).

(** [_save_dc(_dataclass, scope, deep)]: the outcome and the cache
    folder afterwards. *)
Fixpoint _save_dc (_dataclass : BaseDataclass) (scope : ScopedLocation)
    (deep : bool) (fs : FileSystem) {struct _dataclass}
  : result unit * FileSystem :=
  match _get_dataclass_filename_path (Some _dataclass) scope with
  | Raise e => (Raise e, fs)
  | Ok (scope, save_folder, save_file) =>
      match write_record fs save_folder save_file (dump_record _dataclass) with
      | (Raise e, fs') => (Raise e, fs')
      | (Ok _, fs') =>
          if deep && has_sublocation_dataclasses _dataclass then
            match get_sublocation_values _dataclass with
            | Raise e => (Raise e, fs')
            | Ok _ =>
                match _dataclass with
                | DC _ sub =>
                    for_each_value
                      (fun sub_dc fs =>
                         match sub_dc with
                         | PyDC sub_dc => _save_dc sub_dc scope deep fs
                         | PyNone => _save_dc_None scope fs
                         | PyFloat _ => (Raise (AttributeError "get_id"), fs)
                         end)
                      sub fs'
                end
            end
          else (Ok tt, fs')
      end
  end.

(** [HyperparamsOnDiskRepository.save(_dataclass, scope, deep)]. *)
Definition OnDisk_save (fs : FileSystem) (_dataclass : BaseDataclass)
    (scope : ScopedLocation) (deep : bool) : result unit * FileSystem :=
  _save_dc _dataclass scope deep fs.

(** [HyperparamsOnDiskRepository(cache_folder)] on a cache folder. *)
Definition OnDisk_init (fs : FileSystem) : result unit * FileSystem :=
  _save_dc RootDataclass_init ScopedLocation_empty true fs.

End OnDisk.

(** The methods as the source has them.  [ScopedLocation] and the
    dataclasses are defined in [vanilla.py], with bases from that file
    and from the standard library only ([Generic], [ABC]), and no class
    among them defines [at_dc] or [empty], nor [__getattr__]: the
    attribute lookup of [scope.at_dc(_dataclass)] and of
    [_dataclass.empty()] raises an [AttributeError], whatever the
    receiver. *)
Definition ScopedLocation_at_dc (self : ScopedLocation) (dc : BaseDataclass)
  : result ScopedLocation :=
  Raise (AttributeError "at_dc").

Definition BaseDataclass_empty (self : BaseDataclass) : result BaseDataclass :=
  Raise (AttributeError "empty").

(** The text of [json.dump(to_json(_dataclass.empty()), f, indent=4)]:
    the argument [_dataclass.empty()] is evaluated first; [to_json]
    stands for the encoding of its result. *)
Definition dump_empty_record (to_json : BaseDataclass -> result string)
    (_dataclass : BaseDataclass) : result string :=
  emptied <- BaseDataclass_empty _dataclass ;; to_json emptied.

(** An id that holds a path separator, the slash or, where the
    platform has it, the backslash (code 92): [os.path.join] makes
    several path segments of it. *)
Definition is_separator (c : ascii) : bool :=
  Ascii.eqb c "/"%char || Ascii.eqb c (ascii_of_nat 92).

Definition has_separator (s : string) : bool :=
  existsb is_separator (list_ascii_of_string s).

(** The scopes whose coordinates hold no path separator: each
    coordinate is one segment of the folder of the scope. *)
Definition no_separator (scope : ScopedLocation) : bool :=
  forallb (fun a => negb (has_separator (str a))) (as_list scope).

(** Modelled from the spec: [ScopedLocation.at_dc] is called by the
    on-disk repository and absent from the source.  Section 4.1,
    slicing by type: "truncate to the prefix ending at (and including)
    the given type's coordinate". *)
Definition spec_at_dc (self : ScopedLocation) (dc : BaseDataclass)
  : result ScopedLocation :=
  loc_slice self (class_of dc).

(** Modelled from the spec: [BaseDataclass.has_sublocation_dataclasses]
    is absent from the source.  Section 3: every node type owns a
    sublocation of the next type down, except [MetricResult], a leaf. *)
Definition spec_has_sublocation_dataclasses (self : BaseDataclass) : bool :=
  match subdataclass (class_of self) with Some _ => true | None => false end.

(** Modelled from the spec: [BaseDataclass.set_sublocation_keys] is
    absent from the source.  Section 3, shallow nodes: every child slot
    is "an unset placeholder (preserving only keys/indices)". *)
Definition spec_set_sublocation_keys (self : BaseDataclass)
    (keys : list (option ScopedLocationAttr)) : result BaseDataclass :=
  let 'DC own _ := self in
  if has_ordered_dict_mixin (klass_of own)
  then Ok (DC own (OrderedDict (map (fun k => (k, PyNone)) keys)))
  else Ok (DC own (PyList (map (fun _ => PyNone) keys))).

(** ** Typing of the tree and keys below a node *)

(** The typing of the data model: a node of class [cls] holds the
    container of its mixin, and its children are placeholders or
    well-typed nodes of the next class down. *)
Fixpoint well_typed (cls : klass) (self : BaseDataclass) {struct self} : bool :=
  match self with
  | DC own sub =>
      klass_eqb (klass_of own) cls &&
      match subdataclass cls with
      | None => true
      | Some subcls =>
          let child_ok := fun v =>
            match v with
            | PyNone => true
            | PyDC c => well_typed subcls c
            | PyFloat _ => false
            end in
          match sub with
          | OrderedDict items =>
              has_ordered_dict_mixin cls && forallb (fun kv => child_ok (snd kv)) items
          | PyList items =>
              negb (has_ordered_dict_mixin cls) && forallb child_ok items
          end
      end
  end.

(** A slot that holds a placeholder or a dataclass that satisfies [q]. *)
Definition pyval_all {A} (q : A -> bool) (v : pyval A) : bool :=
  match v with
  | PyNone => true
  | PyDC c => q c
  | PyFloat _ => false
  end.

(** The typing of a slot of a node whose children have class [subcls]. *)
Definition child_well_typed (subcls : klass) (v : pyval BaseDataclass) : bool :=
  pyval_all (well_typed subcls) v.

(** What [load(a, deep=True)] saw at the address [a] in the tree [t]
    before [n'] is stored: a node, whose sublocation [n'] has received,
    or no record. *)
Definition loaded_from (a : ScopedLocation) (n' t : BaseDataclass) : Prop :=
  (exists old, getitem t a = Ok old /\ get_sublocation n' = get_sublocation old)
  \/ (exists msg, getitem t a = Raise (KeyError msg)).

(** States of the in-memory repository that are well typed by
    construction: a new repository, and what a [save] leaves, whatever
    its outcome, where every [save] with [deep] is given a well-typed
    dataclass and a scope without gap.  A [save] with [deep] of another
    dataclass stores it as it is, and is not covered. *)
Inductive reachable : VanillaHyperparamsRepository -> Prop :=
| reachable_init (cache_folder : string) :
    reachable (Vanilla_init cache_folder)
| reachable_save (now : datetime) (repo : VanillaHyperparamsRepository)
    (n : BaseDataclass) (s : ScopedLocation) (deep : bool)
    (r : result unit) (repo' : VanillaHyperparamsRepository) :
    reachable repo ->
    (deep = true ->
     well_typed (class_of n) n = true /\ prefix_invariant s = true) ->
    save now repo n s deep = (r, repo') ->
    reachable repo'.

Section KeysBelow.
Variable A : Type.
Variable below : A -> list (list (option ScopedLocationAttr)).

Definition keys_below_value (key : option ScopedLocationAttr) (v : pyval A)
  : list (list (option ScopedLocationAttr)) :=
  [key] :: match v with
           | PyDC c => map (cons key) (below c)
           | _ => []
           end.

Fixpoint dict_keys_below (items : list (option ScopedLocationAttr * pyval A))
  : list (list (option ScopedLocationAttr)) :=
  match items with
  | [] => []
  | (k, v) :: rest => keys_below_value k v ++ dict_keys_below rest
  end.

Fixpoint list_keys_below (n : nat) (items : list (pyval A))
  : list (list (option ScopedLocationAttr)) :=
  match items with
  | [] => []
  | v :: rest =>
      keys_below_value (Some (AInt (Z.of_nat n))) v ++ list_keys_below (S n) rest
  end.

Definition sublocation_keys_below (sub : sublocation A)
  : list (list (option ScopedLocationAttr)) :=
  match sub with
  | OrderedDict items => dict_keys_below items
  | PyList items => list_keys_below 0 items
  end.
End KeysBelow.

(** The descendant keys of a node: the key paths to every slot below
    it, placeholders included. *)
Fixpoint descendant_keys (self : BaseDataclass)
  : list (list (option ScopedLocationAttr)) :=
  match self with
  | DC _ sub => sublocation_keys_below descendant_keys sub
  end.

(** ** Refit of the best trial ([auto_ml.py]) *)

(** The names bound at module level in [auto_ml.py]: its imports and its
    definitions. *)
Definition auto_ml_globals : list string :=
  [ "copy"; "gc"; "json"; "multiprocessing"; "traceback"; "attrgetter";
    "Iterator"; "List"; "Optional"; "Tuple"; "Union"; "np";
    "BaseService"; "BaseServiceT"; "BaseStep"; "ExecutionContext";
    "ExecutionPhase"; "Flow"; "ForceHandleMixin"; "TrialStatus";
    "TruncableService"; "_HasChildrenMixin"; "DACT"; "IDT";
    "HyperparameterSamples"; "HyperparameterSpace";
    "warn_deprecated_arg"; "warn_deprecated_class";
    "ARG_Y_EXPECTED"; "ARG_Y_PREDICTD"; "BaseCallback"; "CallbackList";
    "ScoringCallback"; "Client"; "Project"; "Root"; "Round"; "Trial";
    "TrialSplit"; "DEFAULT_CLIENT"; "DEFAULT_PROJECT"; "AutoMLContext";
    "BaseDataclass"; "ClientDataclass"; "HyperparamsRepository";
    "InMemoryHyperparamsRepository"; "MetricResultsDataclass";
    "ProjectDataclass"; "RecursiveDict"; "RootDataclass"; "RoundDataclass";
    "ScopedLocation"; "SubDataclassT"; "TrialDataclass";
    "TrialSplitDataclass"; "BaseCrossValidationWrapper";
    "BaseHyperparameterOptimizer"; "BaseValidationSplitter"; "RandomSearch";
    "Trainer"; "BaseControllerLoop"; "DefaultLoop"; "AutoML";
    "_get_trial_split_description"; "EasyAutoML" ].

Definition mem (x : string) (l : list string) : bool :=
  existsb (String.eqb x) l.

(** Reading a name inside a function body: a name the body assigns is
    local (and unbound until assigned), a parameter is bound, any other
    name is looked up at module level. *)
Definition load_name (parameters assigned bound : list string) (name : string)
  : result unit :=
  if mem name parameters then Ok tt
  else if mem name assigned
  then (if mem name bound then Ok tt else Raise (UnboundLocalError name))
  else if mem name auto_ml_globals then Ok tt
  else Raise (NameError name).

(** The attributes [Trainer.__init__] sets. *)
Definition Trainer_attributes : list string :=
  [ "validation_splitter"; "callbacks"; "n_epochs" ].

Section Refit.
(** The collaborators: pipelines, data containers, and the scoped
    aggregates of [neuraxle/metaopt/data/aggregates.py], which is not
    part of the source. *)
Variables Pipeline DACT Client Round Trial : Type.

(** [client_scope.resume_last_round()] and
    [round_scope.managed_best_trial()]: what entering each context
    manager yields, and whether its [__exit__] swallows an exception. *)
Variable resume_last_round : Client -> result Round.
Variable round_exit_swallows : Round -> exn -> bool.
Variable managed_best_trial : Round -> result Trial.
Variable trial_exit_swallows : Trial -> exn -> bool.

(** [p.handle_fit(data_container, context)]. *)
Variable handle_fit : Pipeline -> DACT -> Pipeline.

(** [Trainer.refit(pipeline, dact, trial_scope)].  Its body reads
    [context], [self.epochs], [p] and [data_container]; its parameters
    are [self], [pipeline], [dact] and [trial_scope], and it assigns
    [i] and [p]. *)
Definition Trainer_refit (pipeline : Pipeline) (dact : DACT)
    (trial_scope : Trial) : result Pipeline :=
  let parameters := ["self"; "pipeline"; "dact"; "trial_scope"] in
  let assigned := ["i"; "p"] in
  (* context.set_execution_phase(ExecutionPhase.TRAIN) *)
  _ <- load_name parameters assigned [] "context" ;;
  (* for i in range(self.epochs): *)
  _ <- (if mem "epochs" Trainer_attributes then Ok tt
        else Raise (AttributeError "epochs")) ;;
  (*     p = p.handle_fit(data_container, context) *)
  _ <- load_name parameters assigned ["i"] "p" ;;
  _ <- load_name parameters assigned ["i"] "data_container" ;;
  (* return p *)
  Ok (handle_fit pipeline dact).

(** [with manager as x: body]: the outcome of the block, [None] when
    an exception of the body was swallowed on exit. *)
Definition with_as {S A} (enter : result S) (exit_swallows : S -> exn -> bool)
    (body : S -> result A) : result (option A) :=
  x <- enter ;;
  match body x with
  | Ok a => Ok (Some a)
  | Raise e => if exit_swallows x e then Ok None else Raise e
  end.

(** [BaseControllerLoop.refit_best_trial(pipeline, dact, client_scope)]. *)
Definition refit_best_trial (pipeline : Pipeline) (dact : DACT)
    (client_scope : Client) : result Pipeline :=
  block <-
    with_as (resume_last_round client_scope) round_exit_swallows
      (fun round_scope =>
         with_as (managed_best_trial round_scope) trial_exit_swallows
           (fun managed_trial_scope =>
              Trainer_refit pipeline dact managed_trial_scope)) ;;
  match block with
  | Some (Some refitted) => Ok refitted
  | _ => Raise (UnboundLocalError "refitted")
  end.
End Refit.

(** Modelled from the spec: the selection of the best trial is done by
    [Round.managed_best_trial] in [neuraxle/metaopt/data/aggregates.py],
    which is not part of the source.  Section 4.5: "best = highest if
    [higher_is_better] else lowest, ties broken by earliest trial
    number".  [scores] are the validation scores by trial number. *)
Fixpoint best_trial_from (higher_is_better : bool) (best_i : nat) (best : float)
    (i : nat) (scores : list float) : nat :=
  match scores with
  | [] => best_i
  | s :: rest =>
      let better := if higher_is_better
                    then negb (Qle_bool s best) else negb (Qle_bool best s) in
      if better then best_trial_from higher_is_better i s (S i) rest
      else best_trial_from higher_is_better best_i best (S i) rest
  end.

Definition best_trial (higher_is_better : bool) (scores : list float) : option nat :=
  match scores with
  | [] => None
  | s :: rest => Some (best_trial_from higher_is_better 0 s 1 rest)
  end.

(** The tree of a new repository. *)
Definition default_tree : BaseDataclass :=
  DC RootFields
     (OrderedDict
        [ (Some (AStr "default_project"),
           PyDC (DC (ProjectFields (Some (AStr "default_project")))
                    (OrderedDict
                       [ (Some (AStr "default_client"),
                          PyDC (DC (ClientFields (Some (AStr "default_client")) None)
                                   (PyList []))) ]))) ]).

(** The depth of a class in the tree:
    [list(dataclass_2_subloc_attr.keys()).index(cls)]. *)
Definition depth_of (cls : klass) : nat :=
  match keys_index dataclass_2_subloc_attr cls with
  | Some i => i
  | None => 0
  end.

(** ** Other operations of the locations, the nodes and the repository *)

(** [l[:idx]] on a Python list, for an integer [idx]: a negative [idx]
    counts from the end, and nothing is out of range. *)
Definition list_slice_to {A} (l : list A) (idx : Z) : list A :=
  if (idx <? 0)%Z then firstn (Z.to_nat (Z.of_nat (List.length l) + idx)) l
  else firstn (Z.to_nat idx) l.

(** [self[:idx]] for an integer [idx]. *)
Definition loc_slice_int (self : ScopedLocation) (idx : Z)
  : result ScopedLocation :=
  ScopedLocation_init (map Some (list_slice_to (as_list self) idx)).

(** [self[key]] for an integer [key]: a negative key indexes [as_list]
    from the end (and gives [None] on an empty location), another one
    is the position of a class in [dataclass_2_id_attr]. *)
Definition loc_getitem_int (self : ScopedLocation) (key : Z)
  : result (option ScopedLocationAttr) :=
  if (key <? 0)%Z then
    if Nat.eqb (ScopedLocation_len self) 0 then Ok None
    else
      match list_position (List.length (as_list self)) key with
      | Some n =>
          match nth_error (as_list self) n with
          | Some x => Ok (Some x)
          | None => Raise (IndexError "list index out of range")
          end
      | None => Raise (IndexError "list index out of range")
      end
  else
    match keys_at (Z.to_nat key) with
    | Some key => Ok (loc_getitem self key)
    | None => Raise (IndexError "list index out of range")
    end.

(** [set_id(_id)]: the id attribute is assigned, then the invariant is
    checked.  The name of the id attribute of the root is [None], which
    [setattr] refuses. *)
Definition set_id (self : BaseDataclass) (_id : option ScopedLocationAttr)
  : result unit * BaseDataclass :=
  let 'DC own sub := self in
  let assigned :=
    match own with
    | RootFields => None
    | ProjectFields _ => Some (ProjectFields _id)
    | ClientFields _ main_metric_name => Some (ClientFields _id main_metric_name)
    | RoundFields _ => Some (RoundFields _id)
    | TrialFields base _ => Some (TrialFields base _id)
    | TrialSplitFields base _ => Some (TrialSplitFields base _id)
    | MetricResultsFields _ train_values higher_score_is_better =>
        Some (MetricResultsFields _id train_values higher_score_is_better)
    end in
  match assigned with
  | None => (Raise (TypeError "attribute name must be string, not 'NoneType'"), self)
  | Some own' => let self' := DC own' sub in (_invariant self', self')
  end.

(** [as_named_odict(obj)]: [OrderedDict] of the pairs [(i.get_id(), i)],
    inserted in order; a single dataclass is taken as a list of one. *)
Definition as_named_odict (obj : BaseDataclass + list BaseDataclass)
  : list (option ScopedLocationAttr * BaseDataclass) :=
  let obj := match obj with inl dc => [dc] | inr l => l end in
  fold_left (fun d i => dict_setitem d (get_id i) i) obj [].

(** [VanillaHyperparamsRepository.from_root(root, cache_folder)]. *)
Definition from_root (now : datetime) (root : BaseDataclass) (cache_folder : string)
  : result VanillaHyperparamsRepository :=
  match save now (Vanilla_init cache_folder) root ScopedLocation_empty true with
  | (Ok _, self) => Ok self
  | (Raise e, _) => Raise e
  end.

(** * Properties *)

Unset Implicit Arguments.

(** ** Equality tests *)

Lemma attr_eqb_spec a b : reflect (a = b) (attr_eqb a b).
Proof.
  destruct a as [s|i], b as [t|j]; simpl; try (constructor; discriminate).
  - destruct (String.eqb_spec s t); constructor; congruence.
  - destruct (Z.eqb_spec i j); constructor; congruence.
Qed.

Lemma attr_eqb_refl a : attr_eqb a a = true.
Proof. destruct (attr_eqb_spec a a); congruence. Qed.

Lemma py_eqb_spec a b : reflect (a = b) (py_eqb a b).
Proof.
  destruct a as [x|], b as [y|]; simpl; try (constructor; congruence).
  destruct (attr_eqb_spec x y); constructor; congruence.
Qed.

Lemma py_eqb_refl a : py_eqb a a = true.
Proof. destruct (py_eqb_spec a a); congruence. Qed.

Lemma klass_eqb_spec a b : reflect (a = b) (klass_eqb a b).
Proof. destruct a, b; simpl; constructor; congruence. Qed.

(** ** The [KeyError] of [__getitem__] *)

Lemma raise_KeyError_not_in_Ok {B} self (x : B) : raise_KeyError_not_in self <> Ok x.
Proof. unfold raise_KeyError_not_in. destruct (shallow self); discriminate. Qed.

Lemma raise_KeyError_not_in_Raise {B B'} self e :
  @raise_KeyError_not_in B self = Raise e ->
  @raise_KeyError_not_in B' self = Raise e.
Proof.
  unfold raise_KeyError_not_in. destruct (shallow self); simpl; congruence.
Qed.

Ltac no_KeyError_returns :=
  match goal with
  | H : raise_KeyError_not_in _ = Ok _ |- _ =>
      exfalso; exact (raise_KeyError_not_in_Ok _ _ H)
  | H : fst (raise_KeyError_not_in _, _) = Ok _ |- _ =>
      exfalso; exact (raise_KeyError_not_in_Ok _ _ H)
  end.

(** ** ScopedLocation *)

Lemma as_list_empty : as_list ScopedLocation_empty = [].
Proof. reflexivity. Qed.

Lemma with_id_empty x :
  with_id ScopedLocation_empty x
  = Ok (mkScopedLocation (Some x) None None None None None).
Proof. reflexivity. Qed.

(** On a location without gap, [copy] is the identity. *)
Lemma copy_prefix_invariant loc :
  prefix_invariant loc = true -> ScopedLocation_copy loc = Ok loc.
Proof.
  destruct loc as [[a|] [b|] [c|] [d|] [e|] [f|]];
    cbn; intros H; try discriminate H; reflexivity.
Qed.

(** The operations that build locations keep the prefix invariant:
    [with_id], [popped] and slicing rebuild the location from [as_list],
    and [pop] unsets the last coordinate that is set. *)
Lemma with_id_prefix_invariant loc x loc' :
  with_id loc x = Ok loc' -> prefix_invariant loc' = true.
Proof.
  destruct loc as [[a|] [b|] [c|] [d|] [e|] [f|]]; cbn;
    intros H; try discriminate H; injection H as <-; reflexivity.
Qed.

Lemma popped_prefix_invariant loc loc' :
  popped loc = Ok loc' -> prefix_invariant loc' = true.
Proof.
  destruct loc as [[a|] [b|] [c|] [d|] [e|] [f|]]; cbn;
    intros H; try discriminate H; injection H as <-; reflexivity.
Qed.

Lemma loc_slice_prefix_invariant loc k loc' :
  loc_slice loc k = Ok loc' -> prefix_invariant loc' = true.
Proof.
  destruct k; destruct loc as [[a|] [b|] [c|] [d|] [e|] [f|]]; cbn;
    intros H; try discriminate H; injection H as <-; reflexivity.
Qed.

Lemma pop_prefix_invariant loc :
  prefix_invariant loc = true -> prefix_invariant (snd (pop loc)) = true.
Proof.
  destruct loc as [[a|] [b|] [c|] [d|] [e|] [f|]]; cbn;
    intros H; try discriminate H; reflexivity.
Qed.

(** C9. [ScopedLocation().with_id(x).with_id(y).as_list()] is [[x, y]]
    for all ids [x] and [y]; and for every location that satisfies the
    prefix invariant of the data model and has at least one coordinate
    set, [pop] returns the last set coordinate and [with_id] of that
    value on the popped location gives back the original location. *)
Theorem with_id_as_list_pop_roundtrip :
  (forall x y : ScopedLocationAttr,
      (l1 <- with_id ScopedLocation_empty x ;;
       l2 <- with_id l1 y ;;
       Ok (as_list l2)) = Ok [x; y])
  /\
  (forall loc : ScopedLocation,
      prefix_invariant loc = true ->
      loc <> ScopedLocation_empty ->
      exists v loc',
        pop loc = (Some v, loc')
        /\ peek loc = Ok v
        /\ with_id loc' v = Ok loc).
Proof.
  split.
  - intros x y. reflexivity.
  - intros [[a|] [b|] [c|] [d|] [e|] [f|]] Hinv Hne;
      cbn in Hinv; try discriminate Hinv;
      try (exfalso; apply Hne; reflexivity);
      eexists; eexists; repeat split; reflexivity.
Qed.

Lemma with_id_as_list_pop_roundtrip_witness :
  let loc := mkScopedLocation (Some (AStr "default_project"))
                              (Some (AStr "default_client"))
                              (Some (AInt 3)) None None None in
  prefix_invariant loc = true
  /\ loc <> ScopedLocation_empty
  /\ exists v loc',
      pop loc = (Some v, loc') /\ peek loc = Ok v /\ with_id loc' v = Ok loc.
Proof.
  intros loc. split; [reflexivity|]. split; [discriminate|].
  apply (proj2 with_id_as_list_pop_roundtrip loc); [reflexivity | discriminate].
Defined.

(** Outside the prefix invariant the round trip fails: a location built
    with a gap pops the coordinate after the gap and [with_id] puts it
    back before the gap. *)
Example pop_with_id_gap :
  let loc := mkScopedLocation None (Some (AStr "c")) None None None None in
  exists loc', pop loc = (Some (AStr "c"), loc')
               /\ with_id loc' (AStr "c") <> Ok loc.
Proof. eexists. split; [reflexivity | discriminate]. Qed.

(** ** Storing a child *)

Lemma list_position_in_range len i :
  (0 <= i < Z.of_nat len)%Z -> list_position len i = Some (Z.to_nat i).
Proof.
  intros [H0 H1]. unfold list_position.
  apply Z.leb_le in H0. apply Z.ltb_lt in H1. rewrite H0, H1. reflexivity.
Qed.

Lemma length_list_set {A} (l : list A) n v :
  List.length (list_set l n v) = List.length l.
Proof.
  revert n. induction l as [|x l IH]; intros [|n]; simpl; auto.
Qed.

Lemma nth_error_list_set {A} (l : list A) n v :
  (n < List.length l)%nat -> nth_error (list_set l n v) n = Some v.
Proof.
  revert n. induction l as [|x l IH]; intros [|n]; simpl; intros H;
    try lia; auto. apply IH. lia.
Qed.

Lemma nth_error_list_set_other {A} (l : list A) n m v :
  n <> m -> nth_error (list_set l n v) m = nth_error l m.
Proof.
  revert n m. induction l as [|x l IH]; intros [|n] [|m] H; simpl; auto.
  congruence.
Qed.

(** The invariant of a list dataclass only looks at the container. *)
Lemma _invariant_list own items :
  has_ordered_dict_mixin (klass_of own) = false ->
  _invariant (DC own (PyList items)) = Ok tt.
Proof. intros H. unfold _invariant. rewrite H. reflexivity. Qed.

(** C3. For every node with a list sublocation of length [L] and every
    child [c] whose id is the integer [i]: when [i = L] the child is
    appended and the length becomes [L + 1]; when [0 <= i < L] slot [i]
    is overwritten and the length is unchanged; when [i > L] [store]
    raises a [ValueError] (and the node is unchanged). *)
Theorem list_store_append_overwrite_or_fail :
  forall (own : own_fields) (items : list (pyval BaseDataclass))
         (c : BaseDataclass) (i : Z),
    has_ordered_dict_mixin (klass_of own) = false ->
    get_id c = Some (AInt i) ->
    let self := DC own (PyList items) in
    let L := Z.of_nat (dc_len self) in
    (i = L ->
       exists self',
         store self c = (Ok (Some (AInt i)), self')
         /\ get_sublocation self' = PyList (items ++ [PyDC c])
         /\ Z.of_nat (dc_len self') = (L + 1)%Z)
    /\ ((0 <= i < L)%Z ->
       exists self' items',
         store self c = (Ok (Some (AInt i)), self')
         /\ get_sublocation self' = PyList items'
         /\ nth_error items' (Z.to_nat i) = Some (PyDC c)
         /\ (forall m, m <> Z.to_nat i -> nth_error items' m = nth_error items m)
         /\ dc_len self' = dc_len self)
    /\ ((i > L)%Z ->
       exists msg, store self c = (Raise (ValueError msg), self)).
Proof.
  intros own items c i Hmix Hid self L.
  assert (HL : L = Z.of_nat (List.length items)) by reflexivity.
  unfold store, store_list. simpl class_of. rewrite Hmix, Hid.
  fold self. change (get_next_i self) with (List.length items).
  repeat split.
  - intros Hi. exists (DC own (PyList (items ++ [PyDC c]))).
    assert (E : (i =? Z.of_nat (List.length items))%Z = true)
      by (apply Z.eqb_eq; lia).
    rewrite E. unfold self. rewrite (_invariant_list own _ Hmix). simpl.
    repeat split; auto.
    unfold dc_len; simpl. rewrite length_app; simpl.
    rewrite HL. lia.
  - intros Hi.
    exists (DC own (PyList (list_set items (Z.to_nat i) (PyDC c)))),
           (list_set items (Z.to_nat i) (PyDC c)).
    assert (E : (i =? Z.of_nat (List.length items))%Z = false)
      by (apply Z.eqb_neq; lia).
    assert (E' : (i <? Z.of_nat (List.length items))%Z = true)
      by (apply Z.ltb_lt; lia).
    rewrite E, E'. unfold self, list_setitem.
    rewrite list_position_in_range by lia.
    rewrite (_invariant_list own _ Hmix). simpl.
    repeat split; auto.
    + apply nth_error_list_set. lia.
    + intros m Hm. apply nth_error_list_set_other. congruence.
    + unfold dc_len; simpl. apply length_list_set.
  - intros Hi.
    assert (E : (i =? Z.of_nat (List.length items))%Z = false)
      by (apply Z.eqb_neq; lia).
    assert (E' : (i <? Z.of_nat (List.length items))%Z = false)
      by (apply Z.ltb_ge; lia).
    rewrite E, E'. eexists. reflexivity.
Qed.

Lemma list_store_append_overwrite_or_fail_witness :
  let own := RoundFields (Some (AInt 0)) in
  let t0 := TrialDataclass_init 0%Z (HyperparameterSamples []) in
  let items := [PyDC t0] in
  let c := DC (TrialFields (mkTrialMixin (HyperparameterSamples []) PLANNED 0%Z 0%Z None EmptyString)
                           (Some (AInt 1))) (PyList []) in
  has_ordered_dict_mixin (klass_of own) = false
  /\ get_id c = Some (AInt 1)
  /\ exists self',
       store (DC own (PyList items)) c = (Ok (Some (AInt 1)), self')
       /\ get_sublocation self' = PyList (items ++ [PyDC c])
       /\ Z.of_nat (dc_len self') = (Z.of_nat (dc_len (DC own (PyList items))) + 1)%Z.
Proof.
  intros own t0 items c.
  split; [reflexivity|]. split; [reflexivity|].
  apply (proj1 (list_store_append_overwrite_or_fail own items c 1%Z
                  eq_refl eq_refl)).
  reflexivity.
Defined.

Lemma in_dict_setitem {A} (items : list (option ScopedLocationAttr * A)) key v :
  In (key, v) (dict_setitem items key v).
Proof.
  induction items as [|[k w] items IH]; simpl.
  - left; reflexivity.
  - destruct (py_eqb_spec k key) as [->|Hne].
    + left; reflexivity.
    + right; exact IH.
Qed.

Lemma dict_getitem_setitem_same {A} (items : list (option ScopedLocationAttr * A)) key v :
  dict_getitem (dict_setitem items key v) key = Some v.
Proof.
  induction items as [|[k w] items IH]; simpl.
  - rewrite py_eqb_refl. reflexivity.
  - destruct (py_eqb k key) eqn:E; simpl; rewrite E; auto.
Qed.

Lemma forallb_false_of_In {A} (p : A -> bool) l x :
  In x l -> p x = false -> forallb p l = false.
Proof.
  intros Hin Hp. destruct (forallb p l) eqn:E; auto.
  rewrite forallb_forall in E. rewrite (E x Hin) in Hp. discriminate.
Qed.

(** The claim of C4 fails on a map-keyed node: storing a client into
    the root raises, and the root's sublocation has already received the
    client. *)
Example store_wrong_type_writes_before_raising :
  exists e self',
    store RootDataclass_init (ClientDataclass_init (Some (AStr "c"))) = (Raise e, self')
    /\ get_sublocation self' <> get_sublocation RootDataclass_init.
Proof. eexists. eexists. split; [reflexivity | discriminate]. Qed.

(** C4, amended.  On a map-keyed node [store] assigns the child under
    its id first and checks the invariant afterwards: the sublocation
    holds the child after every [store], also when the child has the
    wrong type or an id that is not a string, in which case [store]
    raises a [ValueError].  On a list-keyed node a [store] that raises
    leaves the node unchanged. *)
Theorem store_checks_invariant_after_assignment :
  (forall (own : own_fields)
          (items : list (option ScopedLocationAttr * pyval BaseDataclass))
          (dc : BaseDataclass),
      has_ordered_dict_mixin (klass_of own) = true ->
      let self := DC own (OrderedDict items) in
      let items' := dict_setitem items (get_id dc) (PyDC dc) in
      snd (store self dc) = DC own (OrderedDict items')
      /\ dict_getitem items' (get_id dc) = Some (PyDC dc)
      /\ (is_str (get_id dc) = false
          \/ subdataclass (klass_of own) <> Some (class_of dc) ->
          exists msg,
            store self dc = (Raise (ValueError msg), DC own (OrderedDict items'))))
  /\
  (forall (own : own_fields) (items : list (pyval BaseDataclass))
          (dc : BaseDataclass) (e : exn) (self' : BaseDataclass),
      has_ordered_dict_mixin (klass_of own) = false ->
      store (DC own (PyList items)) dc = (Raise e, self') ->
      self' = DC own (PyList items)).
Proof.
  split.
  - intros own items dc Hmix. cbv zeta.
    set (items' := dict_setitem items (get_id dc) (PyDC dc)).
    unfold store, store_ordered_dict. simpl class_of. rewrite Hmix.
    fold items'. split; [reflexivity|]. split.
    { apply dict_getitem_setitem_same. }
    intros Hbad. unfold _invariant. cbv beta iota. rewrite Hmix.
    destruct (forallb (fun kv => is_str (fst kv)) items') eqn:Ekeys; simpl.
    2:{ eexists; reflexivity. }
    destruct Hbad as [Hstr | Hcls].
    { rewrite (forallb_false_of_In _ items' (get_id dc, PyDC dc)) in Ekeys;
        [discriminate | apply in_dict_setitem | exact Hstr]. }
    rewrite (forallb_false_of_In _ items' (get_id dc, PyDC dc));
      [ simpl; eexists; reflexivity | apply in_dict_setitem | ].
    unfold isinstance_or_None. cbn [snd].
    destruct (subdataclass (klass_of own)) as [k|]; auto.
    destruct (klass_eqb_spec (class_of dc) k) as [E|]; auto.
    exfalso; apply Hcls; congruence.
  - intros own items dc e self' Hmix.
    unfold store.
    change (class_of (DC own (PyList items))) with (klass_of own).
    rewrite Hmix. unfold store_list.
    destruct (get_id dc) as [[s|i]|]; try (intros [= _ <-]; reflexivity).
    destruct (i =? _)%Z.
    { rewrite (_invariant_list own _ Hmix). simpl. discriminate. }
    destruct (i <? _)%Z; [| intros [= _ <-]; reflexivity ].
    destruct (list_setitem items (Some (AInt i)) (PyDC dc)) as [items'|e'].
    { rewrite (_invariant_list own _ Hmix). simpl. discriminate. }
    intros [= _ <-]; reflexivity.
Qed.

Lemma store_checks_invariant_after_assignment_witness :
  let own := RootFields in
  let items := [ (Some (AStr DEFAULT_PROJECT),
                  PyDC (ProjectDataclass_init (Some (AStr DEFAULT_PROJECT)))) ] in
  let dc := ClientDataclass_init (Some (AStr "c")) in
  has_ordered_dict_mixin (klass_of own) = true
  /\ (is_str (get_id dc) = false
      \/ subdataclass (klass_of own) <> Some (class_of dc))
  /\ exists msg,
       store (DC own (OrderedDict items)) dc
       = (Raise (ValueError msg),
          DC own (OrderedDict (dict_setitem items (get_id dc) (PyDC dc)))).
Proof.
  intros own items dc.
  split; [reflexivity|].
  assert (H : is_str (get_id dc) = false
              \/ subdataclass (klass_of own) <> Some (class_of dc))
    by (right; discriminate).
  split; [exact H|].
  exact (proj2 (proj2 (proj1 store_checks_invariant_after_assignment
                         own items dc eq_refl)) H).
Defined.

(** ** Indexing and updating a sublocation *)

Section SubscriptFacts.
Context {A B R : Type}.
Variable f : A -> result B.
Variable m : A -> result R * A.

Lemma dict_subscript_Ok items key x :
  dict_subscript f items key = Ok x ->
  exists c, dict_getitem items key = Some (PyDC c) /\ f c = Ok x.
Proof.
  induction items as [|[k w] items IH]; simpl; [discriminate|].
  destruct (py_eqb k key); auto.
  destruct w as [|c|q]; simpl; try discriminate.
  intros H. exists c. auto.
Qed.

Lemma dict_update_found items key c :
  dict_getitem items key = Some (PyDC c) ->
  dict_update m items key
  = (fst (m c), dict_setitem items key (PyDC (snd (m c)))).
Proof.
  induction items as [|[k w] items IH]; simpl; [discriminate|].
  destruct (py_eqb k key).
  - intros [= ->]. simpl. destruct (m c); reflexivity.
  - intros H. rewrite (IH H). reflexivity.
Qed.

Lemma dict_subscript_setitem items key v :
  dict_subscript f (dict_setitem items key v) key = subscript_value f v.
Proof.
  induction items as [|[k w] items IH]; simpl.
  - rewrite py_eqb_refl. reflexivity.
  - destruct (py_eqb k key) eqn:E; simpl; rewrite E; auto.
Qed.

Lemma key_in_dict_setitem (items : list (option ScopedLocationAttr * pyval A))
    key v :
  key_in key (map fst (dict_setitem items key v)) = true.
Proof.
  unfold key_in. apply existsb_exists. exists key. split.
  - change key with (fst (key, v)). apply in_map. apply in_dict_setitem.
  - apply py_eqb_refl.
Qed.

Lemma list_subscript_at_Ok items n x :
  list_subscript_at f items n = Ok x ->
  exists c, nth_error items n = Some (PyDC c) /\ f c = Ok x.
Proof.
  revert n. induction items as [|w items IH]; intros [|n]; simpl;
    try discriminate; auto.
  destruct w as [|c|q]; simpl; try discriminate.
  intros H. exists c. auto.
Qed.

Lemma list_update_at_found items n c :
  nth_error items n = Some (PyDC c) ->
  list_update_at m items n
  = (fst (m c), list_set items n (PyDC (snd (m c)))).
Proof.
  revert n. induction items as [|w items IH]; intros [|n]; simpl;
    try discriminate.
  - intros [= ->]. simpl. destruct (m c); reflexivity.
  - intros H. rewrite (IH _ H). reflexivity.
Qed.

Lemma list_subscript_at_set items n v :
  (n < List.length items)%nat ->
  list_subscript_at f (list_set items n v) n = subscript_value f v.
Proof.
  revert n. induction items as [|w items IH]; intros [|n]; simpl;
    intros H; try lia; auto. apply IH. lia.
Qed.
End SubscriptFacts.

Lemma forallb_snd_dict_getitem {A} (q : A -> bool)
    (items : list (option ScopedLocationAttr * A)) key v :
  forallb (fun kv => q (snd kv)) items = true ->
  dict_getitem items key = Some v -> q v = true.
Proof.
  induction items as [|[k w] items IH]; simpl; [discriminate|].
  intros H. apply andb_prop in H. destruct H as [Hw Hrest].
  destruct (py_eqb k key); auto. intros [= <-]. exact Hw.
Qed.

Lemma forallb_nth_error {A} (q : A -> bool) (items : list A) n v :
  forallb q items = true -> nth_error items n = Some v -> q v = true.
Proof.
  intros H Hn. rewrite forallb_forall in H. apply H.
  eapply nth_error_In; eauto.
Qed.

(** The keys of a list dataclass are the indices [0 .. len - 1]. *)
Lemma key_in_range key len :
  key_in (Some key) (map (fun n => Some (AInt (Z.of_nat n))) (seq 0 len)) = true
  <-> exists z, key = AInt z /\ (0 <= z < Z.of_nat len)%Z.
Proof.
  unfold key_in. rewrite existsb_exists. split.
  - intros [k [Hin Heq]]. apply in_map_iff in Hin.
    destruct Hin as [n [<- Hn]]. apply in_seq in Hn.
    destruct (py_eqb_spec (Some key) (Some (AInt (Z.of_nat n)))) as [E|];
      [|discriminate].
    injection E as ->. exists (Z.of_nat n). split; [reflexivity | lia].
  - intros [z [-> Hz]]. exists (Some (AInt z)). split.
    + apply in_map_iff. exists (Z.to_nat z). split.
      * rewrite Z2Nat.id by lia. reflexivity.
      * apply in_seq. lia.
    + apply py_eqb_refl.
Qed.

(** ** Unfolding of the recursive methods *)

Lemma getitem_eq self loc :
  getitem self loc
  = match subdataclass (class_of self) with
    | None => Ok self
    | Some subdataklass =>
        match loc_getitem loc subdataklass with
        | None => Ok self
        | Some located_sub_attr =>
            keys <- get_sublocation_keys self ;;
            if negb (key_in (Some located_sub_attr) keys)
            then raise_KeyError_not_in self
            else sublocation_subscript (fun subloc => getitem subloc loc)
                   (get_sublocation self) (Some located_sub_attr)
        end
    end.
Proof. destruct self; reflexivity. Qed.

Lemma getitem_store_eq self loc dc :
  getitem_store self loc dc
  = match subdataclass (class_of self) with
    | None => store self dc
    | Some subdataklass =>
        match loc_getitem loc subdataklass with
        | None => store self dc
        | Some located_sub_attr =>
            match get_sublocation_keys self with
            | Raise e => (Raise e, self)
            | Ok keys =>
                if negb (key_in (Some located_sub_attr) keys)
                then (raise_KeyError_not_in self, self)
                else
                  let '(r, sub') :=
                    sublocation_update
                      (fun subloc => getitem_store subloc loc dc)
                      (get_sublocation self) (Some located_sub_attr) in
                  (r, let 'DC own _ := self in DC own sub')
            end
        end
    end.
Proof. destruct self; reflexivity. Qed.

(** A location with no coordinate designates the node itself. *)
Lemma getitem_empty self : getitem self ScopedLocation_empty = Ok self.
Proof.
  rewrite getitem_eq. destruct (subdataclass (class_of self)) as [k|]; auto.
  destruct k; reflexivity.
Qed.

Lemma subdataclass_depth cls k :
  subdataclass cls = Some k -> depth_of k = S (depth_of cls).
Proof. destruct cls, k; simpl; intros H; try discriminate H; reflexivity. Qed.

Lemma depth_of_inj a b : depth_of a = depth_of b -> a = b.
Proof. destruct a, b; simpl; intros H; try discriminate H; reflexivity. Qed.

Lemma depth_of_le cls : (depth_of cls <= 6)%nat.
Proof. destruct cls; unfold depth_of; simpl; lia. Qed.

Lemma subdataclass_exists cls :
  (depth_of cls < 6)%nat -> exists k, subdataclass cls = Some k.
Proof.
  destruct cls; simpl; intros H; try (eexists; reflexivity).
  unfold depth_of in H; simpl in H; lia.
Qed.

(** What [well_typed] says of a node: its class, its container, and the
    typing of the children. *)
Lemma well_typed_inv cls own sub :
  well_typed cls (DC own sub) = true ->
  klass_of own = cls
  /\ forall subcls, subdataclass cls = Some subcls ->
       match sub with
       | OrderedDict items =>
           has_ordered_dict_mixin cls = true
           /\ forall key c, dict_getitem items key = Some (PyDC c) ->
                            well_typed subcls c = true
       | PyList items =>
           has_ordered_dict_mixin cls = false
           /\ forall n c, nth_error items n = Some (PyDC c) ->
                          well_typed subcls c = true
       end.
Proof.
  simpl. intros H. apply andb_prop in H. destruct H as [Hk H].
  destruct (klass_eqb_spec (klass_of own) cls) as [E|]; [|discriminate].
  split; [exact E|]. intros subcls Hsub. rewrite Hsub in H.
  destruct sub as [items|items]; apply andb_prop in H; destruct H as [Hm Hall].
  - split; [exact Hm|]. intros key c Hget.
    exact (forallb_snd_dict_getitem
             (fun v => match v with
                       | PyNone => true
                       | PyDC c => well_typed subcls c
                       | PyFloat _ => false
                       end) items key (PyDC c) Hall Hget).
  - split; [destruct (has_ordered_dict_mixin cls); auto; discriminate|].
    intros n c Hn.
    exact (forallb_nth_error
             (fun v => match v with
                       | PyNone => true
                       | PyDC c => well_typed subcls c
                       | PyFloat _ => false
                       end) items n (PyDC c) Hall Hn).
Qed.

(** ** Saving without [deep] keeps what is below the address *)

Section StoreAtAddress.
(** [a] is the address of the stored node [n'], [ps] the scope of its
    parent: [a] with its last coordinate unset. *)
Variables a ps : ScopedLocation.
Variable n' : BaseDataclass.
Variable v : ScopedLocationAttr.
Hypothesis Hid : get_id n' = Some v.
Hypothesis Ha_last : loc_getitem a (class_of n') = Some v.
Hypothesis Hps_last : loc_getitem ps (class_of n') = None.
Hypothesis Hps_same :
  forall k, k <> class_of n' -> loc_getitem ps k = loc_getitem a k.
Hypothesis Ha_end :
  forall k, subdataclass (class_of n') = Some k -> loc_getitem a k = None.
Hypothesis Ha_prefix :
  forall k, (0 < depth_of k < depth_of (class_of n'))%nat ->
            loc_getitem a k <> None.

Lemma getitem_stored_node : getitem n' a = Ok n'.
Proof.
  rewrite getitem_eq.
  pose proof Ha_end as Hend.
  destruct (subdataclass (class_of n')) as [k|]; auto.
  rewrite (Hend k eq_refl). reflexivity.
Qed.

(** The node stored by the parent is found again at the address. *)
Lemma store_then_getitem own sub old :
  well_typed (klass_of own) (DC own sub) = true ->
  subdataclass (klass_of own) = Some (class_of n') ->
  getitem (DC own sub) a = Ok old ->
  getitem (snd (store (DC own sub) n')) a = Ok n'.
Proof.
  intros Hwt Hsub Hget.
  destruct (well_typed_inv _ _ _ Hwt) as [_ Hch].
  specialize (Hch _ Hsub).
  rewrite getitem_eq in Hget. simpl class_of in Hget.
  rewrite Hsub, Ha_last in Hget.
  unfold get_sublocation_keys in Hget. simpl class_of in Hget.
  unfold store. simpl class_of.
  destruct sub as [items|items]; destruct Hch as [Hmix Hch];
    rewrite Hmix in Hget |- *; simpl in Hget.
  - (* the parent holds an OrderedDict *)
    unfold store_ordered_dict. rewrite Hid. cbn [snd].
    rewrite getitem_eq. simpl class_of. rewrite Hsub, Ha_last.
    unfold get_sublocation_keys. simpl class_of. rewrite Hmix. simpl.
    rewrite key_in_dict_setitem. simpl.
    rewrite dict_subscript_setitem. simpl. apply getitem_stored_node.
  - (* the parent holds a list *)
    destruct (key_in (Some v) _) eqn:Hin; simpl in Hget; [|no_KeyError_returns].
    apply key_in_range in Hin. destruct Hin as [z [-> Hz]].
    unfold dc_len in Hz; simpl in Hz.
    unfold store_list. rewrite Hid.
    unfold get_next_i, dc_len; simpl sublocation_len.
    assert (E : (z =? Z.of_nat (List.length items))%Z = false)
      by (apply Z.eqb_neq; lia).
    assert (E' : (z <? Z.of_nat (List.length items))%Z = true)
      by (apply Z.ltb_lt; lia).
    rewrite E, E'. unfold list_setitem.
    rewrite list_position_in_range by lia.
    rewrite (_invariant_list own _ Hmix). cbn [bind snd].
    rewrite getitem_eq. simpl class_of. rewrite Hsub, Ha_last.
    unfold get_sublocation_keys. simpl class_of. rewrite Hmix.
    unfold dc_len. simpl get_sublocation. simpl sublocation_len.
    rewrite length_list_set. cbn [bind].
    assert (Hin : key_in (Some (AInt z))
                    (map (fun n => Some (AInt (Z.of_nat n)))
                         (seq 0 (List.length items))) = true)
      by (apply key_in_range; exists z; split; [reflexivity | lia]).
    rewrite Hin. cbn [negb]. unfold sublocation_subscript.
    rewrite length_list_set, list_position_in_range by lia.
    rewrite list_subscript_at_set by lia.
    simpl. apply getitem_stored_node.
Qed.

(** [self[ps].store(n')] followed by [self[a]] gives [n'], on every
    well-typed node above the parent in which [a] designates a node. *)
Lemma getitem_store_then_getitem :
  forall (d : nat) (t : BaseDataclass) (cls : klass) (old : BaseDataclass),
    (depth_of cls + d + 1 = depth_of (class_of n'))%nat ->
    well_typed cls t = true ->
    getitem t a = Ok old ->
    getitem (snd (getitem_store t ps n')) a = Ok n'.
Proof.
  induction d as [|d IH]; intros [own sub] cls old Hdepth Hwt Hget.
  - (* [t] is the parent *)
    destruct (well_typed_inv _ _ _ Hwt) as [Hcls _]. subst cls.
    destruct (subdataclass_exists (klass_of own)) as [k Hk];
      [pose proof (depth_of_le (class_of n')); lia|].
    assert (k = class_of n').
    { apply depth_of_inj. rewrite (subdataclass_depth _ _ Hk). lia. }
    subst k.
    rewrite getitem_store_eq. simpl class_of. rewrite Hk, Hps_last.
    eapply store_then_getitem; eauto.
  - (* [t] is above the parent *)
    destruct (well_typed_inv _ _ _ Hwt) as [Hcls Hch]. subst cls.
    destruct (subdataclass_exists (klass_of own)) as [k Hk];
      [pose proof (depth_of_le (class_of n')); lia|].
    specialize (Hch _ Hk).
    pose proof (subdataclass_depth _ _ Hk) as Hdk.
    assert (Hne : k <> class_of n') by (intros ->; lia).
    destruct (loc_getitem a k) as [key|] eqn:Hkey;
      [| exfalso; apply (Ha_prefix k); [lia | exact Hkey] ].
    rewrite getitem_store_eq. simpl class_of.
    rewrite Hk, (Hps_same k Hne), Hkey.
    rewrite getitem_eq in Hget. simpl class_of in Hget.
    rewrite Hk, Hkey in Hget.
    unfold get_sublocation_keys in Hget |- *. simpl class_of in Hget |- *.
    destruct sub as [items|items]; destruct Hch as [Hmix Hch];
      rewrite Hmix in Hget |- *; simpl in Hget |- *.
    + (* OrderedDict *)
      destruct (key_in (Some key) (map fst items)) eqn:Hin;
        simpl in Hget |- *; [|no_KeyError_returns].
      apply dict_subscript_Ok in Hget. destruct Hget as [c [Hc Hgetc]].
      rewrite (dict_update_found _ _ _ _ Hc). cbn [snd].
      rewrite getitem_eq. simpl class_of. rewrite Hk, Hkey.
      unfold get_sublocation_keys. simpl class_of. rewrite Hmix. simpl.
      rewrite key_in_dict_setitem. simpl.
      rewrite dict_subscript_setitem. simpl.
      apply (IH c k old); [lia | eapply Hch; eauto | exact Hgetc].
    + (* list *)
      destruct (key_in (Some key) _) eqn:Hin; simpl in Hget |- *;
        [|no_KeyError_returns].
      apply key_in_range in Hin. destruct Hin as [z [-> Hz]].
      unfold dc_len in Hz; simpl in Hz.
      rewrite list_position_in_range in Hget |- * by lia.
      apply list_subscript_at_Ok in Hget. destruct Hget as [c [Hc Hgetc]].
      rewrite (list_update_at_found _ _ _ _ Hc). cbn [snd].
      rewrite getitem_eq. simpl class_of. rewrite Hk, Hkey.
      unfold get_sublocation_keys. simpl class_of. rewrite Hmix.
      unfold dc_len. simpl get_sublocation. simpl sublocation_len.
      rewrite length_list_set. cbn [bind].
      assert (Hin : key_in (Some (AInt z))
                      (map (fun n => Some (AInt (Z.of_nat n)))
                           (seq 0 (List.length items))) = true)
        by (apply key_in_range; exists z; split; [reflexivity | lia]).
      rewrite Hin. cbn [negb]. unfold sublocation_subscript.
      rewrite length_list_set, list_position_in_range by lia.
      rewrite list_subscript_at_set by lia.
      simpl.
      apply (IH c k old); [lia | eapply Hch; eauto | exact Hgetc].
Qed.
End StoreAtAddress.

(** The scopes [save] computes for a dataclass that is not the root:
    when the checks pass and [with_dc] succeeds, the address is the
    scope cut at the class of the dataclass, its last coordinate is the
    id of the dataclass, and the scope of the parent is the address
    without that coordinate. *)
Lemma save_scopes n s ps loc a :
  class_of n <> RootDataclass ->
  save_check_scope n s = Ok ps ->
  with_dc ps n = Ok loc ->
  loc_slice s (class_of n) = Ok a ->
  loc = a
  /\ exists v,
      get_id n = Some v
      /\ loc_getitem a (class_of n) = Some v
      /\ loc_getitem ps (class_of n) = None
      /\ (forall k, k <> class_of n -> loc_getitem ps k = loc_getitem a k)
      /\ (forall k, subdataclass (class_of n) = Some k -> loc_getitem a k = None)
      /\ (forall k, (0 < depth_of k < depth_of (class_of n))%nat ->
                    loc_getitem a k <> None).
Proof.
  intros Hroot Hcheck Hwith Hslice.
  destruct n as [own sub].
  destruct own as [|[pn|]|[cn|] mm|[rn|]|b [tn|]|b [sn|]|[mn|] tv hb];
    [exfalso; apply Hroot; reflexivity | ..];
    destruct s as [[p|] [c|] [r|] [t|] [sp|] [m|]];
    unfold save_check_scope, with_dc in *;
    cbn in Hcheck, Hwith, Hslice |- *;
    try discriminate Hcheck;
    repeat match type of Hcheck with
           | context [attr_eqb ?x ?y] =>
               destruct (attr_eqb_spec x y); cbn in Hcheck;
               try discriminate Hcheck
           end;
    subst;
    try discriminate Hwith;
    injection Hcheck as <-; cbn in Hwith;
    try discriminate Hwith;
    injection Hwith as <-; injection Hslice as <-;
    (split; [reflexivity|]);
    eexists; (split; [reflexivity|]);
    (split; [reflexivity|]); (split; [reflexivity|]);
    (split; [intros k Hk; destruct k; try reflexivity; exfalso; apply Hk; reflexivity|]);
    (split; [intros k Hk; destruct k; cbn in Hk; try discriminate Hk; reflexivity|]);
    intros k [Hk0 Hk1]; destruct k; unfold depth_of in Hk0, Hk1;
    cbn in Hk0, Hk1; try lia; discriminate.
Qed.

Lemma set_sublocation_Ok n sub n' :
  (let '(r, x) := set_sublocation n sub in _ <- r ;; Ok x) = Ok n' ->
  class_of n' = class_of n /\ get_id n' = get_id n /\ get_sublocation n' = sub.
Proof.
  destruct n as [own sub0]. unfold set_sublocation.
  destruct (_invariant (DC own sub)); simpl; [|discriminate].
  intros [= <-]. auto.
Qed.

Lemma descendant_keys_sublocation x y :
  get_sublocation x = get_sublocation y -> descendant_keys x = descendant_keys y.
Proof. destruct x, y; simpl; intros ->; reflexivity. Qed.

(** In the in-memory repository, a [save] without [deep] leaves the
    sublocation found at the address as it was, whatever its outcome. *)
Lemma save_keeps_sublocation now repo n s r repo' a old :
  well_typed RootDataclass (root repo) = true ->
  save now repo n s false = (r, repo') ->
  loc_slice s (class_of n) = Ok a ->
  getitem (root repo) a = Ok old ->
  exists new,
    getitem (root repo') a = Ok new
    /\ get_sublocation new = get_sublocation old.
Proof.
  intros Hwt Hsave Hslice Hget. unfold save in Hsave.
  destruct (save_check_scope n s) as [ps|e] eqn:Hcheck;
    [| injection Hsave as <- <-; exists old; auto ].
  cbn [negb] in Hsave.
  destruct (save_reassign_sublocation now repo n ps) as [n'|e] eqn:Hre;
    [| injection Hsave as <- <-; exists old; auto ].
  unfold save_reassign_sublocation in Hre.
  destruct (klass_eqb_spec (class_of n) RootDataclass) as [Hr|Hr].
  - (* the root is saved *)
    cbn [bind] in Hre. apply set_sublocation_Ok in Hre.
    destruct Hre as [Hcls [_ Hsub]].
    rewrite Hcls, Hr in Hsave. cbn in Hsave. injection Hsave as <- <-.
    rewrite Hr in Hslice. cbn in Hslice. injection Hslice as <-.
    rewrite getitem_empty in Hget. injection Hget as <-.
    exists n'. cbn [root]. split; [apply getitem_empty | exact Hsub].
  - (* a node below the root is saved *)
    destruct (with_dc ps n) as [loc|e] eqn:Hwith; [|discriminate].
    cbn [bind] in Hre.
    destruct (save_scopes n s ps loc a Hr Hcheck Hwith Hslice)
      as [-> [v (Hid & Halast & Hpslast & Hsame & Hend & Hprefix)]].
    unfold load in Hre. rewrite Hget in Hre. cbn in Hre.
    apply set_sublocation_Ok in Hre. destruct Hre as [Hcls [Hid' Hsub]].
    assert (Hnr : klass_eqb (class_of n') RootDataclass = false).
    { rewrite Hcls. destruct (klass_eqb_spec (class_of n) RootDataclass);
        [contradiction | reflexivity]. }
    rewrite Hnr in Hsave.
    destruct (getitem_store (root repo) ps n') as [r0 root'] eqn:Hstore.
    injection Hsave as <- <-. cbn [root].
    exists n'. split; [| exact Hsub].
    replace root' with (snd (getitem_store (root repo) ps n'))
      by (rewrite Hstore; reflexivity).
    rewrite <- Hcls in Halast, Hpslast, Hsame, Hend, Hprefix.
    rewrite <- Hid' in Hid.
    assert (Hd : (0 < depth_of (class_of n'))%nat).
    { rewrite Hcls. destruct (class_of n); unfold depth_of; simpl;
        try lia. contradiction. }
    apply (getitem_store_then_getitem a ps n' v Hid Halast Hpslast Hsame
             Hend Hprefix (depth_of (class_of n') - 1) (root repo)
             RootDataclass old); auto.
    unfold depth_of at 1. simpl. lia.
Qed.

(** ** Writes of the on-disk repository *)

Lemma in_child_names d l x :
  In x (child_names d l) <-> exists p, In p l /\ child_name d p = Some x.
Proof.
  induction l as [|q l IH]; simpl.
  - split; [contradiction | intros [p [[] _]]].
  - destruct (child_name d q) as [y|] eqn:E; simpl; rewrite IH; split.
    + intros [<- | [p [Hp Hc]]]; [exists q | exists p]; auto.
    + intros [p [[<- | Hp] Hc]]; [left; congruence | right; exists p; auto].
    + intros [p [Hp Hc]]; exists p; auto.
    + intros [p [[<- | Hp] Hc]]; [congruence | exists p; auto].
Qed.

Lemma in_listdir fs d x :
  In x (listdir fs d)
  <-> exists p, (In p (directories fs) \/ In p (map fst (files fs)))
                /\ child_name d p = Some x.
Proof.
  unfold listdir. rewrite nodup_In, in_app_iff, !in_child_names.
  split.
  - intros [[p [Hp Hc]] | [p [Hp Hc]]]; exists p; auto.
  - intros [p [[Hp | Hp] Hc]]; [left | right]; exists p; auto.
Qed.

Lemma incl_fold_add_dir ps dirs : incl dirs (fold_left add_dir ps dirs).
Proof.
  revert dirs. induction ps as [|p ps IH]; intros dirs; simpl.
  - apply incl_refl.
  - eapply incl_tran; [| apply IH]. unfold add_dir.
    destruct (existsb (path_eqb p) dirs); [apply incl_refl|].
    apply incl_appl, incl_refl.
Qed.

Lemma incl_set_file l p content : incl (map fst l) (map fst (set_file l p content)).
Proof.
  induction l as [|[q c] l IH]; simpl.
  - intros x [].
  - destruct (path_eqb q p); simpl; [apply incl_refl|].
    intros x [<- | Hx]; [left; reflexivity | right; apply IH; exact Hx].
Qed.

Lemma write_file_grows fs p content fs' :
  write_file fs p content = Ok fs' ->
  directories fs' = directories fs
  /\ incl (map fst (files fs)) (map fst (files fs')).
Proof.
  unfold write_file.
  destruct (is_dir fs p); [discriminate|].
  destruct (is_dir fs (dirname p)); cbn; [|discriminate].
  intros [= <-]. cbn. split; [reflexivity | apply incl_set_file].
Qed.

Lemma makedirs_grows fs p fs' :
  makedirs fs p = Ok fs' ->
  incl (directories fs) (directories fs') /\ files fs' = files fs.
Proof.
  unfold makedirs. destruct (existsb (is_file fs) (prefixes p)); [discriminate|].
  intros [= <-]. cbn. split; [apply incl_fold_add_dir | reflexivity].
Qed.

(** Writing a record removes no folder and no file, whatever its
    outcome. *)
Lemma write_record_grows fs folder file text r fs' :
  write_record fs folder file text = (r, fs') ->
  incl (directories fs) (directories fs')
  /\ incl (map fst (files fs)) (map fst (files fs')).
Proof.
  unfold write_record.
  destruct (makedirs fs folder) as [fs1|e] eqn:H1.
  2:{ intros [= _ <-]. split; apply incl_refl. }
  apply makedirs_grows in H1. destruct H1 as [Hd1 Hf1].
  destruct (write_file fs1 file EmptyString) as [fs2|e] eqn:H2.
  2:{ intros [= _ <-]. rewrite Hf1. split; [exact Hd1 | apply incl_refl]. }
  apply write_file_grows in H2. destruct H2 as [Hd2 Hf2].
  assert (G2 : incl (directories fs) (directories fs2)
               /\ incl (map fst (files fs)) (map fst (files fs2))).
  { rewrite Hd2, <- Hf1. split; [exact Hd1 | exact Hf2]. }
  destruct text as [text|e]; [| intros [= _ <-]; exact G2 ].
  destruct (write_file fs2 file text) as [fs3|e] eqn:H3;
    [| intros [= _ <-]; exact G2 ].
  apply write_file_grows in H3. destruct H3 as [Hd3 Hf3].
  intros [= _ <-]. destruct G2 as [Gd Gf]. rewrite Hd3. split; [exact Gd|].
  eapply incl_tran; eauto.
Qed.

Section OnDiskFacts.
Variable at_dc : ScopedLocation -> BaseDataclass -> result ScopedLocation.
Variable has_sublocation_dataclasses : BaseDataclass -> bool.
Variable dump_record : BaseDataclass -> result string.

Lemma _save_dc_shallow_eq dc scope fs :
  _save_dc at_dc has_sublocation_dataclasses dump_record dc scope false fs
  = match _get_dataclass_filename_path at_dc (Some dc) scope with
    | Raise e => (Raise e, fs)
    | Ok (_, save_folder, save_file) =>
        write_record fs save_folder save_file (dump_record dc)
    end.
Proof.
  destruct dc as [own sub]. cbn [_save_dc andb].
  destruct (_get_dataclass_filename_path at_dc (Some (DC own sub)) scope)
    as [[[sc folder] file]|e]; [|reflexivity].
  destruct (write_record fs folder file (dump_record (DC own sub)))
    as [[[]|e] fs']; reflexivity.
Qed.

(** In the on-disk repository, a [save] without [deep] removes no
    entry of any folder, whatever its outcome. *)
Lemma OnDisk_save_keeps_listing fs dc scope r fs' :
  OnDisk_save at_dc has_sublocation_dataclasses dump_record fs dc scope false
  = (r, fs') ->
  forall d, incl (listdir fs d) (listdir fs' d).
Proof.
  unfold OnDisk_save. rewrite _save_dc_shallow_eq.
  destruct (_get_dataclass_filename_path at_dc (Some dc) scope)
    as [[[sc folder] file]|e].
  2:{ intros [= _ <-] d. apply incl_refl. }
  intros Hw. apply write_record_grows in Hw. destruct Hw as [Hd Hf].
  intros d x Hx. apply in_listdir in Hx. apply in_listdir.
  destruct Hx as [p [[Hp | Hp] Hc]]; exists p; split; auto.
Qed.

End OnDiskFacts.

(** ** The typing is an invariant of the in-memory repository *)

Lemma well_typed_eq cls own sub :
  well_typed cls (DC own sub)
  = klass_eqb (klass_of own) cls
    && match subdataclass cls with
       | None => true
       | Some subcls =>
           match sub with
           | OrderedDict items =>
               has_ordered_dict_mixin cls
               && forallb (fun kv => child_well_typed subcls (snd kv)) items
           | PyList items =>
               negb (has_ordered_dict_mixin cls)
               && forallb (child_well_typed subcls) items
           end
       end.
Proof. reflexivity. Qed.

Lemma well_typed_class cls t : well_typed cls t = true -> class_of t = cls.
Proof.
  destruct t as [own sub]. rewrite well_typed_eq. intros H.
  apply andb_prop in H. destruct H as [H _].
  destruct (klass_eqb_spec (klass_of own) cls); [assumption | discriminate].
Qed.

Lemma Vanilla_init_well_typed cache_folder :
  well_typed RootDataclass (root (Vanilla_init cache_folder)) = true.
Proof. reflexivity. Qed.

Lemma forallb_dict_setitem {A} (q : A -> bool)
    (items : list (option ScopedLocationAttr * A)) key v :
  forallb (fun kv => q (snd kv)) items = true -> q v = true ->
  forallb (fun kv => q (snd kv)) (dict_setitem items key v) = true.
Proof.
  intros H Hv. induction items as [|[k w] items IH]; simpl in *.
  - rewrite Hv. reflexivity.
  - apply andb_prop in H. destruct H as [Hw Hrest].
    destruct (py_eqb k key); simpl.
    + rewrite Hv, Hrest. reflexivity.
    + rewrite Hw, (IH Hrest). reflexivity.
Qed.

Lemma forallb_list_set {A} (q : A -> bool) (items : list A) n v :
  forallb q items = true -> q v = true ->
  forallb q (list_set items n v) = true.
Proof.
  revert n. induction items as [|w items IH]; intros [|n] H Hv; simpl in *;
    auto; apply andb_prop in H; destruct H as [Hw Hrest].
  - rewrite Hv, Hrest. reflexivity.
  - rewrite Hw, (IH n Hrest Hv). reflexivity.
Qed.

Section UpdateTyping.
Context {A R : Type}.
Variable q : A -> bool.
Variable m : A -> result R * A.
Hypothesis Hm : forall c, q c = true -> q (snd (m c)) = true.

Lemma update_value_keeps v : pyval_all q v = true -> pyval_all q (snd (update_value m v)) = true.
Proof.
  destruct v as [|c|x]; simpl; auto.
  intros H. specialize (Hm c H). destruct (m c); exact Hm.
Qed.

Lemma dict_update_keeps items key :
  forallb (fun kv => pyval_all q (snd kv)) items = true ->
  forallb (fun kv => pyval_all q (snd kv)) (snd (dict_update m items key)) = true.
Proof.
  induction items as [|[k w] items IH]; simpl; auto.
  intros H. apply andb_prop in H. destruct H as [Hw Hrest].
  destruct (py_eqb k key).
  - pose proof (update_value_keeps w Hw) as Hu.
    destruct (update_value m w) as [r w']. simpl in *.
    rewrite Hu, Hrest. reflexivity.
  - specialize (IH Hrest). destruct (dict_update m items key) as [r rest'].
    simpl in *. rewrite Hw, IH. reflexivity.
Qed.

Lemma list_update_at_keeps items n :
  forallb (pyval_all q) items = true ->
  forallb (pyval_all q) (snd (list_update_at m items n)) = true.
Proof.
  revert n. induction items as [|w items IH]; intros [|n]; simpl; auto;
    intros H; apply andb_prop in H; destruct H as [Hw Hrest].
  - pose proof (update_value_keeps w Hw) as Hu.
    destruct (update_value m w) as [r w']. simpl in *.
    rewrite Hu, Hrest. reflexivity.
  - specialize (IH n Hrest). destruct (list_update_at m items n) as [r rest'].
    simpl in *. rewrite Hw, IH. reflexivity.
Qed.
End UpdateTyping.

Section StoreTyping.
(** [n'], well typed, is stored by [self[ps].store(n')], where [ps] has
    every coordinate above the class of [n'] and not that of [n']. *)
Variable ps : ScopedLocation.
Variable n' : BaseDataclass.
Hypothesis Hn' : well_typed (class_of n') n' = true.
Hypothesis Hps_last : loc_getitem ps (class_of n') = None.
Hypothesis Hps_prefix :
  forall k, (0 < depth_of k < depth_of (class_of n'))%nat ->
            loc_getitem ps k <> None.

Lemma store_well_typed own sub :
  well_typed (klass_of own) (DC own sub) = true ->
  subdataclass (klass_of own) = Some (class_of n') ->
  well_typed (klass_of own) (snd (store (DC own sub) n')) = true.
Proof.
  intros Hwt Hsub. pose proof Hwt as Hwt0.
  rewrite well_typed_eq, Hsub in Hwt.
  apply andb_prop in Hwt. destruct Hwt as [Hk Hwt].
  unfold store. simpl class_of.
  destruct sub as [items|items]; apply andb_prop in Hwt;
    destruct Hwt as [Hmix Hall].
  - rewrite Hmix. unfold store_ordered_dict. cbn [snd].
    rewrite well_typed_eq, Hsub, Hk, Hmix. cbn [andb].
    apply forallb_dict_setitem; [exact Hall | exact Hn'].
  - apply negb_true_iff in Hmix. rewrite Hmix. unfold store_list.
    destruct (get_id n') as [[x|i]|]; try exact Hwt0.
    assert (G : forall items',
               forallb (child_well_typed (class_of n')) items' = true ->
               well_typed (klass_of own) (DC own (PyList items')) = true).
    { intros items' H. rewrite well_typed_eq, Hsub, Hk, Hmix. exact H. }
    destruct (i =? _)%Z.
    { cbn [snd]. apply G. rewrite forallb_app, Hall. simpl.
      rewrite Hn'. reflexivity. }
    destruct (i <? _)%Z; [| exact Hwt0].
    unfold list_setitem.
    destruct (list_position (List.length items) i) as [n|]; [| exact Hwt0].
    cbn [snd]. apply G. apply forallb_list_set; [exact Hall | exact Hn'].
Qed.

Lemma getitem_store_well_typed :
  forall (d : nat) (t : BaseDataclass) (cls : klass),
    (depth_of cls + d + 1 = depth_of (class_of n'))%nat ->
    well_typed cls t = true ->
    well_typed cls (snd (getitem_store t ps n')) = true.
Proof.
  induction d as [|d IH]; intros [own sub] cls Hdepth Hwt;
    pose proof (well_typed_class _ _ Hwt) as Hcls; simpl in Hcls; subst cls;
    (destruct (subdataclass_exists (klass_of own)) as [k Hk];
     [pose proof (depth_of_le (class_of n')); lia|]);
    pose proof (subdataclass_depth _ _ Hk) as Hdk;
    rewrite getitem_store_eq; simpl class_of; rewrite Hk.
  - assert (k = class_of n') by (apply depth_of_inj; lia). subst k.
    rewrite Hps_last. apply store_well_typed; assumption.
  - destruct (loc_getitem ps k) as [key|] eqn:Hkey;
      [| exfalso; apply (Hps_prefix k); [lia | exact Hkey] ].
    destruct (get_sublocation_keys (DC own sub)) as [keys|e]; [| exact Hwt].
    destruct (negb (key_in (Some key) keys)); [exact Hwt|].
    pose proof Hwt as Hwt0. rewrite well_typed_eq, Hk in Hwt.
    apply andb_prop in Hwt. destruct Hwt as [Hkl Hwt].
    assert (Hm : forall c, well_typed k c = true ->
                           well_typed k (snd (getitem_store c ps n')) = true).
    { intros c Hc. apply IH; [lia | exact Hc]. }
    simpl get_sublocation. unfold sublocation_update.
    destruct sub as [items|items]; apply andb_prop in Hwt;
      destruct Hwt as [Hmix Hall].
    + pose proof (dict_update_keeps (well_typed k)
                    (fun c => getitem_store c ps n') Hm items (Some key) Hall)
        as Hu.
      destruct (dict_update _ items (Some key)) as [r items']. cbn [snd] in *.
      rewrite well_typed_eq, Hk, Hkl, Hmix. exact Hu.
    + destruct key as [x|i]; [exact Hwt0|].
      destruct (list_position (List.length items) i) as [n|]; [| exact Hwt0].
      pose proof (list_update_at_keeps (well_typed k)
                    (fun c => getitem_store c ps n') Hm items n Hall) as Hu.
      destruct (list_update_at _ items n) as [r items']. cbn [snd] in *.
      rewrite well_typed_eq, Hk, Hkl, Hmix. exact Hu.
Qed.
End StoreTyping.

Section GetitemTyping.
(** [a] has every coordinate down to the class [cn] and none below. *)
Variable a : ScopedLocation.
Variable cn : klass.
Hypothesis Ha_end :
  forall k, subdataclass cn = Some k -> loc_getitem a k = None.
Hypothesis Ha_prefix :
  forall k, (0 < depth_of k <= depth_of cn)%nat -> loc_getitem a k <> None.

(** The node found at [a] in a well-typed tree has class [cn] and is
    well typed. *)
Lemma getitem_well_typed :
  forall (d : nat) (t : BaseDataclass) (cls : klass) (old : BaseDataclass),
    (depth_of cls + d = depth_of cn)%nat ->
    well_typed cls t = true ->
    getitem t a = Ok old ->
    well_typed cn old = true.
Proof.
  induction d as [|d IH]; intros [own sub] cls old Hdepth Hwt Hget.
  - assert (cls = cn) by (apply depth_of_inj; lia). subst cls.
    pose proof (well_typed_class _ _ Hwt) as Hcls. simpl in Hcls.
    rewrite getitem_eq in Hget. simpl class_of in Hget. rewrite Hcls in Hget.
    destruct (subdataclass cn) as [k|] eqn:Hk.
    + rewrite (Ha_end k eq_refl) in Hget. injection Hget as <-. exact Hwt.
    + injection Hget as <-. exact Hwt.
  - destruct (well_typed_inv _ _ _ Hwt) as [Hcls Hch]. subst cls.
    destruct (subdataclass_exists (klass_of own)) as [k Hk];
      [pose proof (depth_of_le cn); lia|].
    specialize (Hch _ Hk).
    pose proof (subdataclass_depth _ _ Hk) as Hdk.
    destruct (loc_getitem a k) as [key|] eqn:Hkey;
      [| exfalso; apply (Ha_prefix k); [lia | exact Hkey] ].
    rewrite getitem_eq in Hget. simpl class_of in Hget.
    rewrite Hk, Hkey in Hget.
    unfold get_sublocation_keys in Hget. simpl class_of in Hget.
    destruct sub as [items|items]; destruct Hch as [Hmix Hch];
      rewrite Hmix in Hget; simpl in Hget;
      destruct (key_in (Some key) _) eqn:Hin; simpl in Hget;
      try no_KeyError_returns.
    + apply dict_subscript_Ok in Hget. destruct Hget as [c [Hc Hgetc]].
      apply (IH c k old); [lia | eapply Hch; eauto | exact Hgetc].
    + apply key_in_range in Hin. destruct Hin as [z [-> Hz]].
      unfold dc_len in Hz; simpl in Hz.
      rewrite list_position_in_range in Hget by lia.
      apply list_subscript_at_Ok in Hget. destruct Hget as [c [Hc Hgetc]].
      apply (IH c k old); [lia | eapply Hch; eauto | exact Hgetc].
Qed.
End GetitemTyping.

(** The node built for an absent record, at the address [save]
    computes, is well typed. *)
Lemma new_dataclass_from_id_well_typed now n s ps loc stub :
  class_of n <> RootDataclass ->
  save_check_scope n s = Ok ps ->
  with_dc ps n = Ok loc ->
  new_dataclass_from_id now loc = Ok stub ->
  well_typed (class_of n) stub = true.
Proof.
  intros Hroot Hcheck Hwith Hstub.
  destruct n as [own sub].
  destruct own as [|[pn|]|[cn|] mm|[rn|]|b [tn|]|b [sn|]|[mn|] tv hb];
    [exfalso; apply Hroot; reflexivity | ..];
    destruct s as [[p|] [c|] [r|] [t|] [sp|] [m|]];
    unfold save_check_scope, with_dc in *;
    cbn in Hcheck, Hwith |- *;
    try discriminate Hcheck;
    repeat match type of Hcheck with
           | context [attr_eqb ?x ?y] =>
               destruct (attr_eqb_spec x y); cbn in Hcheck;
               try discriminate Hcheck
           end;
    subst;
    try discriminate Hwith;
    injection Hcheck as <-; cbn in Hwith;
    try discriminate Hwith;
    injection Hwith as <-; cbn in Hstub; injection Hstub as <-;
    reflexivity.
Qed.

(** The scope of the parent that [save] computes from a scope without
    gap. *)
Lemma save_parent_scope n s ps :
  class_of n <> RootDataclass ->
  save_check_scope n s = Ok ps ->
  prefix_invariant s = true ->
  loc_getitem ps (class_of n) = None
  /\ forall k, (0 < depth_of k < depth_of (class_of n))%nat ->
               loc_getitem ps k <> None.
Proof.
  intros Hroot Hcheck Hinv.
  destruct n as [own sub].
  destruct own as [|[pn|]|[cn|] mm|[rn|]|b [tn|]|b [sn|]|[mn|] tv hb];
    [exfalso; apply Hroot; reflexivity | ..];
    destruct s as [[p|] [c|] [r|] [t|] [sp|] [m|]];
    cbn in Hinv; try discriminate Hinv;
    unfold save_check_scope in *;
    cbn in Hcheck |- *;
    try discriminate Hcheck;
    repeat match type of Hcheck with
           | context [attr_eqb ?x ?y] =>
               destruct (attr_eqb_spec x y); cbn in Hcheck;
               try discriminate Hcheck
           end;
    subst; injection Hcheck as <-;
    (split; [reflexivity|]);
    intros k [Hk0 Hk1]; destruct k; unfold depth_of in Hk0, Hk1;
    cbn in Hk0, Hk1; try lia; discriminate.
Qed.

Lemma set_sublocation_well_typed n prev n' :
  well_typed (class_of n) prev = true ->
  (let '(r, x) := set_sublocation n (get_sublocation prev) in _ <- r ;; Ok x)
  = Ok n' ->
  well_typed (class_of n) n' = true.
Proof.
  destruct n as [own sub0], prev as [pown psub]. simpl class_of.
  intros Hprev H. apply set_sublocation_Ok in H. destruct H as [Hcls [_ Hsub]].
  destruct n' as [own' sub']. simpl in Hcls, Hsub. subst sub'.
  rewrite well_typed_eq in Hprev |- *.
  apply andb_prop in Hprev. destruct Hprev as [_ Hprev].
  rewrite Hprev, andb_true_r. rewrite Hcls.
  destruct (klass_eqb_spec (klass_of own) (klass_of own)); congruence.
Qed.

(** Every [save] of the in-memory repository keeps the tree well typed,
    whatever its outcome: without [deep] for every dataclass and scope,
    with [deep] for a well-typed dataclass and a scope without gap. *)
Lemma save_well_typed now repo n s deep r repo' :
  well_typed RootDataclass (root repo) = true ->
  (deep = true ->
   well_typed (class_of n) n = true /\ prefix_invariant s = true) ->
  save now repo n s deep = (r, repo') ->
  well_typed RootDataclass (root repo') = true.
Proof.
  intros Hwt Hdeep Hsave. unfold save in Hsave.
  destruct (save_check_scope n s) as [ps|e] eqn:Hcheck;
    [| injection Hsave as <- <-; exact Hwt ].
  assert (Hstep : forall n',
             well_typed (class_of n) n' = true ->
             (class_of n <> RootDataclass ->
              loc_getitem ps (class_of n) = None
              /\ forall k, (0 < depth_of k < depth_of (class_of n))%nat ->
                           loc_getitem ps k <> None) ->
             (if klass_eqb (class_of n') RootDataclass
              then (Ok tt, {| cache_folder := cache_folder repo; root := n' |})
              else
                let '(r0, root') := getitem_store (root repo) ps n' in
                (_ <- r0 ;; Ok tt,
                 {| cache_folder := cache_folder repo; root := root' |}))
             = (r, repo') ->
             well_typed RootDataclass (root repo') = true).
  { intros n' Hn' Hps Hout.
    pose proof (well_typed_class _ _ Hn') as Hcls.
    destruct (klass_eqb_spec (class_of n') RootDataclass) as [Hr|Hr].
    - injection Hout as <- <-. cbn [root]. rewrite <- Hr, Hcls. exact Hn'.
    - destruct (getitem_store (root repo) ps n') as [r0 root'] eqn:Hstore.
      injection Hout as <- <-. cbn [root].
      replace root' with (snd (getitem_store (root repo) ps n'))
        by (rewrite Hstore; reflexivity).
      rewrite Hcls in Hr. destruct (Hps Hr) as [Hlast Hprefix].
      rewrite <- Hcls in Hn', Hlast, Hprefix.
      assert (Hd : (0 < depth_of (class_of n'))%nat).
      { rewrite Hcls. destruct (class_of n); unfold depth_of; simpl;
          try lia. contradiction. }
      apply (getitem_store_well_typed ps n' Hn' Hlast Hprefix
               (depth_of (class_of n') - 1) (root repo) RootDataclass);
        [unfold depth_of at 1; simpl; lia | exact Hwt]. }
  destruct deep; cbn [negb] in Hsave.
  - destruct (Hdeep eq_refl) as [Hn Hinv].
    apply (Hstep n Hn); [| exact Hsave].
    intros Hr. apply (save_parent_scope n s ps Hr Hcheck Hinv).
  - destruct (save_reassign_sublocation now repo n ps) as [n'|e] eqn:Hre;
      [| injection Hsave as <- <-; exact Hwt ].
    unfold save_reassign_sublocation in Hre.
    destruct (klass_eqb_spec (class_of n) RootDataclass) as [Hr|Hr].
    + cbn [bind] in Hre. apply (Hstep n'); [| contradiction | exact Hsave].
      apply (set_sublocation_well_typed n (root repo) n'); [| exact Hre].
      rewrite Hr. exact Hwt.
    + destruct (with_dc ps n) as [loc|e] eqn:Hwith; [|discriminate].
      cbn [bind] in Hre.
      assert (Hslice : exists a, loc_slice s (class_of n) = Ok a).
      { unfold save_check_scope in Hcheck.
        destruct (loc_slice s (class_of n)) as [a|e]; [eexists; eauto|].
        discriminate. }
      destruct Hslice as [a Hslice].
      destruct (save_scopes n s ps loc a Hr Hcheck Hwith Hslice)
        as [-> [v (Hid & Halast & Hpslast & Hsame & Hend & Hprefix)]].
      destruct (load now repo a true) as [prev|e] eqn:Hload; [|discriminate].
      cbn [bind] in Hre.
      assert (Hprev : well_typed (class_of n) prev = true).
      { unfold load in Hload.
        destruct (getitem (root repo) a) as [old|e] eqn:Hget; cbn in Hload.
        - injection Hload as <-.
          apply (getitem_well_typed a (class_of n) Hend) with
            (d := depth_of (class_of n)) (t := root repo) (cls := RootDataclass);
            auto.
          intros k [Hk0 Hk1].
          destruct (Nat.eq_dec (depth_of k) (depth_of (class_of n))) as [E|E].
          + apply depth_of_inj in E. subst k. congruence.
          + apply Hprefix. lia.
        - destruct e; try discriminate Hload.
          eapply new_dataclass_from_id_well_typed; eauto. }
      apply (Hstep n'); [| | exact Hsave].
      * apply (set_sublocation_well_typed n prev n' Hprev Hre).
      * intros _. split; [exact Hpslast|].
        intros k Hk. rewrite (Hsame k).
        -- apply Hprefix. exact Hk.
        -- intros ->. lia.
Qed.

(** Every state of the in-memory repository is well typed. *)
Lemma reachable_well_typed repo :
  reachable repo -> well_typed RootDataclass (root repo) = true.
Proof.
  induction 1 as [cf | now repo n s deep r repo' _ IH Hdeep Hsave].
  - apply Vanilla_init_well_typed.
  - eapply save_well_typed; eauto.
Qed.

(** ** Keys below a node after a store *)

Section KeysBelowFacts.
Context {A : Type}.
Variable below : A -> list (list (option ScopedLocationAttr)).

Lemma keys_below_value_incl key (c c' : A) :
  incl (below c) (below c') ->
  incl (keys_below_value below key (PyDC c)) (keys_below_value below key (PyDC c')).
Proof.
  intros H x [<- | Hx]; [left; reflexivity | right].
  apply in_map_iff in Hx. destruct Hx as [p [<- Hp]].
  apply in_map. apply H. exact Hp.
Qed.

Lemma dict_keys_below_setitem items key v :
  (forall w, dict_getitem items key = Some w ->
             incl (keys_below_value below key w) (keys_below_value below key v)) ->
  incl (dict_keys_below below items)
       (dict_keys_below below (dict_setitem items key v)).
Proof.
  induction items as [|[k w] items IH]; intros H;
    cbn [dict_keys_below dict_setitem dict_getitem] in *.
  - apply incl_nil_l.
  - destruct (py_eqb_spec k key) as [->|Hne]; cbn [dict_keys_below].
    + apply incl_app; [apply incl_appl; apply H; reflexivity
                      | apply incl_appr; apply incl_refl].
    + apply incl_app; [apply incl_appl; apply incl_refl
                      | apply incl_appr; apply IH; exact H].
Qed.

Lemma list_keys_below_set items n i v :
  (forall w, nth_error items i = Some w ->
             incl (keys_below_value below (Some (AInt (Z.of_nat (n + i)))) w)
                  (keys_below_value below (Some (AInt (Z.of_nat (n + i)))) v)) ->
  incl (list_keys_below below n items)
       (list_keys_below below n (list_set items i v)).
Proof.
  revert n i. induction items as [|w items IH]; intros n [|i] H;
    cbn [list_keys_below list_set nth_error] in *.
  - apply incl_refl.
  - apply incl_refl.
  - apply incl_app; [apply incl_appl | apply incl_appr; apply incl_refl].
    specialize (H w eq_refl). rewrite Nat.add_0_r in H. exact H.
  - apply incl_app; [apply incl_appl; apply incl_refl | apply incl_appr].
    apply IH. intros w' Hw'. specialize (H w' Hw').
    replace (S n + i)%nat with (n + S i)%nat by lia. exact H.
Qed.

Lemma list_keys_below_app items more n :
  incl (list_keys_below below n items) (list_keys_below below n (items ++ more)).
Proof.
  revert n. induction items as [|w items IH]; intros n;
    cbn [list_keys_below app].
  - apply incl_nil_l.
  - apply incl_app; [apply incl_appl; apply incl_refl
                    | apply incl_appr; apply IH].
Qed.
End KeysBelowFacts.

Section SubscriptFound.
Context {A B R : Type}.
Variable f : A -> result B.
Variable m : A -> result R * A.

Lemma dict_subscript_getitem items key w :
  dict_getitem items key = Some w ->
  dict_subscript f items key = subscript_value f w.
Proof.
  induction items as [|[k w0] items IH]; simpl; [discriminate|].
  destruct (py_eqb k key); auto. intros [= ->]. reflexivity.
Qed.

Lemma dict_update_getitem items key w :
  dict_getitem items key = Some w ->
  dict_update m items key
  = (fst (update_value m w), dict_setitem items key (snd (update_value m w))).
Proof.
  induction items as [|[k w0] items IH]; simpl; [discriminate|].
  destruct (py_eqb k key).
  - intros [= ->]. destruct (update_value m w); reflexivity.
  - intros H. rewrite (IH H). reflexivity.
Qed.

Lemma list_subscript_at_nth items n w :
  nth_error items n = Some w ->
  list_subscript_at f items n = subscript_value f w.
Proof.
  revert n. induction items as [|w0 items IH]; intros [|n]; simpl;
    try discriminate; auto. intros [= ->]. reflexivity.
Qed.

Lemma list_update_at_nth items n w :
  nth_error items n = Some w ->
  list_update_at m items n
  = (fst (update_value m w), list_set items n (snd (update_value m w))).
Proof.
  revert n. induction items as [|w0 items IH]; intros [|n]; simpl;
    try discriminate.
  - intros [= ->]. destruct (update_value m w); reflexivity.
  - intros H. rewrite (IH _ H). reflexivity.
Qed.
End SubscriptFound.

Lemma key_in_dict_getitem {A} (items : list (option ScopedLocationAttr * A)) key :
  key_in key (map fst items) = true <-> exists w, dict_getitem items key = Some w.
Proof.
  unfold key_in. induction items as [|[k w] items IH]; simpl.
  - split; [discriminate | intros [w H]; discriminate].
  - destruct (py_eqb_spec key k) as [->|Hne]; simpl.
    + rewrite py_eqb_refl. split; [eexists; reflexivity | reflexivity].
    + destruct (py_eqb_spec k key) as [E|_]; [congruence | exact IH].
Qed.

Section StoreKeys.
(** As above, [a] is the address of [n'] and [ps] the scope of its
    parent; moreover the id of [n'] is not a negative integer. *)
Variables a ps : ScopedLocation.
Variable n' : BaseDataclass.
Variable v : ScopedLocationAttr.
Hypothesis Hid : get_id n' = Some v.
Hypothesis Hnonneg : forall z, v = AInt z -> (0 <= z)%Z.
Hypothesis Ha_last : loc_getitem a (class_of n') = Some v.
Hypothesis Hps_last : loc_getitem ps (class_of n') = None.
Hypothesis Hps_same :
  forall k, k <> class_of n' -> loc_getitem ps k = loc_getitem a k.
Hypothesis Ha_end :
  forall k, subdataclass (class_of n') = Some k -> loc_getitem a k = None.
Hypothesis Ha_prefix :
  forall k, (0 < depth_of k < depth_of (class_of n'))%nat ->
            loc_getitem a k <> None.

Lemma getitem_at_address c :
  well_typed (class_of n') c = true -> getitem c a = Ok c.
Proof.
  intros Hc. rewrite getitem_eq, (well_typed_class _ _ Hc).
  pose proof Ha_end as Hend.
  destruct (subdataclass (class_of n')) as [k|]; auto.
  rewrite (Hend k eq_refl). reflexivity.
Qed.

(** The slot of the parent that receives [n'] held nothing, or a node
    with the sublocation of [n']. *)
Lemma stored_slot_keys key w :
  child_well_typed (class_of n') w = true ->
  (exists old, subscript_value (fun c => getitem c a) w = Ok old
               /\ get_sublocation n' = get_sublocation old)
  \/ (exists msg, subscript_value (fun c => getitem c a) w = Raise (KeyError msg)) ->
  incl (keys_below_value descendant_keys key w)
       (keys_below_value descendant_keys key (PyDC n')).
Proof.
  intros Hw H. destruct w as [|c|x]; simpl in Hw, H.
  - destruct H as [[old [H _]] | [msg H]]; discriminate.
  - rewrite (getitem_at_address c Hw) in H.
    destruct H as [[old [[= <-] Hsub]] | [msg H]]; [|discriminate].
    apply keys_below_value_incl.
    rewrite (descendant_keys_sublocation n' c Hsub). apply incl_refl.
  - discriminate.
Qed.

Lemma store_keeps_keys own sub :
  well_typed (klass_of own) (DC own sub) = true ->
  subdataclass (klass_of own) = Some (class_of n') ->
  loaded_from a n' (DC own sub) ->
  incl (descendant_keys (DC own sub))
       (descendant_keys (snd (store (DC own sub) n'))).
Proof.
  intros Hwt Hsub Hload. unfold loaded_from in Hload.
  rewrite getitem_eq in Hload. simpl class_of in Hload.
  rewrite Hsub, Ha_last in Hload.
  unfold get_sublocation_keys in Hload. simpl class_of in Hload.
  rewrite well_typed_eq, Hsub in Hwt.
  apply andb_prop in Hwt. destruct Hwt as [Hk Hwt].
  unfold store. simpl class_of.
  destruct sub as [items|items]; apply andb_prop in Hwt;
    destruct Hwt as [Hmix Hall].
  - (* OrderedDict *)
    rewrite Hmix in Hload |- *. simpl in Hload.
    unfold store_ordered_dict. rewrite Hid. cbn [snd]. simpl.
    apply dict_keys_below_setitem. intros w Hw.
    assert (Hin : key_in (Some v) (map fst items) = true)
      by (apply key_in_dict_getitem; eexists; eauto).
    rewrite Hin in Hload. simpl in Hload.
    rewrite (dict_subscript_getitem _ items (Some v) w Hw) in Hload.
    apply stored_slot_keys; [| exact Hload].
    exact (forallb_snd_dict_getitem _ items (Some v) w Hall Hw).
  - (* list *)
    apply negb_true_iff in Hmix. rewrite Hmix in Hload |- *.
    unfold store_list. rewrite Hid.
    destruct v as [x|z]; [apply incl_refl|].
    specialize (Hnonneg z eq_refl).
    unfold get_next_i, dc_len. simpl sublocation_len.
    destruct (Z.eqb_spec z (Z.of_nat (List.length items))) as [E|E].
    { cbn [snd]. simpl. apply list_keys_below_app. }
    destruct (Z.ltb_spec z (Z.of_nat (List.length items))) as [L|L];
      [| apply incl_refl].
    unfold list_setitem. rewrite list_position_in_range by lia.
    cbn [snd]. simpl. apply list_keys_below_set. intros w Hw.
    simpl. rewrite Z2Nat.id by lia.
    assert (Hin : key_in (Some (AInt z))
                    (map (fun n => Some (AInt (Z.of_nat n)))
                         (seq 0 (dc_len (DC own (PyList items))))) = true).
    { apply key_in_range. exists z. split; [reflexivity|].
      unfold dc_len; simpl. lia. }
    cbn [bind] in Hload. rewrite Hin in Hload.
    cbn [negb get_sublocation] in Hload.
    unfold sublocation_subscript in Hload.
    rewrite list_position_in_range in Hload by lia.
    rewrite (list_subscript_at_nth _ items _ w Hw) in Hload.
    apply stored_slot_keys; [| exact Hload].
    exact (forallb_nth_error _ items _ w Hall Hw).
Qed.

(** [self[ps].store(n')] loses no key of a well-typed tree, whatever
    its outcome. *)
Lemma getitem_store_keeps_keys :
  forall (d : nat) (t : BaseDataclass) (cls : klass),
    (depth_of cls + d + 1 = depth_of (class_of n'))%nat ->
    well_typed cls t = true ->
    loaded_from a n' t ->
    incl (descendant_keys t) (descendant_keys (snd (getitem_store t ps n'))).
Proof.
  induction d as [|d IH]; intros [own sub] cls Hdepth Hwt Hload;
    pose proof (well_typed_class _ _ Hwt) as Hcls; simpl in Hcls; subst cls;
    (destruct (subdataclass_exists (klass_of own)) as [k Hk];
     [pose proof (depth_of_le (class_of n')); lia|]);
    pose proof (subdataclass_depth _ _ Hk) as Hdk;
    rewrite getitem_store_eq; simpl class_of; rewrite Hk.
  - assert (k = class_of n') by (apply depth_of_inj; lia). subst k.
    rewrite Hps_last. apply store_keeps_keys; assumption.
  - assert (Hne : k <> class_of n') by (intros ->; lia).
    destruct (loc_getitem a k) as [key|] eqn:Hkey;
      [| exfalso; apply (Ha_prefix k); [lia | exact Hkey] ].
    rewrite (Hps_same k Hne), Hkey.
    unfold loaded_from in Hload. rewrite getitem_eq in Hload.
    simpl class_of in Hload. rewrite Hk, Hkey in Hload.
    destruct (get_sublocation_keys (DC own sub)) as [keys|e] eqn:Hkeys;
      [| apply incl_refl].
    cbn [bind] in Hload.
    destruct (key_in (Some key) keys) eqn:Hin; [| apply incl_refl].
    cbn [negb] in Hload |- *.
    rewrite well_typed_eq, Hk in Hwt.
    apply andb_prop in Hwt. destruct Hwt as [Hkl Hwt].
    simpl get_sublocation in Hload |- *.
    unfold get_sublocation_keys in Hkeys. simpl class_of in Hkeys.
    assert (Hchild : forall w,
               child_well_typed k w = true ->
               (exists old, subscript_value (fun c => getitem c a) w = Ok old
                            /\ get_sublocation n' = get_sublocation old)
               \/ (exists msg, subscript_value (fun c => getitem c a) w
                               = Raise (KeyError msg)) ->
               incl (keys_below_value descendant_keys (Some key) w)
                    (keys_below_value descendant_keys (Some key)
                       (snd (update_value (fun c => getitem_store c ps n') w)))).
    { intros w Hw H. destruct w as [|c|x]; simpl; try apply incl_refl.
      simpl in Hw, H.
      assert (G : incl (descendant_keys c)
                       (descendant_keys (snd (getitem_store c ps n'))))
        by (apply (IH c k); [lia | exact Hw | exact H]).
      destruct (getitem_store c ps n') as [r c']. cbn [snd] in *.
      apply keys_below_value_incl. exact G. }
    destruct sub as [items|items]; apply andb_prop in Hwt;
      destruct Hwt as [Hmix Hall]; unfold sublocation_update;
      unfold sublocation_subscript in Hload.
    + (* OrderedDict *)
      rewrite Hmix in Hkeys. simpl in Hkeys. injection Hkeys as <-.
      apply key_in_dict_getitem in Hin. destruct Hin as [w Hw].
      rewrite (dict_update_getitem _ items (Some key) w Hw). cbn [snd]. simpl.
      rewrite (dict_subscript_getitem _ items (Some key) w Hw) in Hload.
      apply dict_keys_below_setitem. intros w' Hw'.
      rewrite Hw in Hw'. injection Hw' as <-.
      apply Hchild; [| exact Hload].
      exact (forallb_snd_dict_getitem _ items (Some key) w Hall Hw).
    + (* list *)
      apply negb_true_iff in Hmix. rewrite Hmix in Hkeys.
      injection Hkeys as <-.
      apply key_in_range in Hin. destruct Hin as [z [-> Hz]].
      unfold dc_len in Hz. simpl in Hz.
      rewrite list_position_in_range in Hload |- * by lia.
      destruct (nth_error items (Z.to_nat z)) as [w|] eqn:Hw.
      2:{ apply nth_error_None in Hw. lia. }
      rewrite (list_update_at_nth _ items _ w Hw). cbn [snd]. simpl.
      rewrite (list_subscript_at_nth _ items _ w Hw) in Hload.
      apply list_keys_below_set. intros w' Hw'.
      rewrite Hw in Hw'. injection Hw' as <-.
      simpl. rewrite Z2Nat.id by lia.
      apply Hchild; [| exact Hload].
      exact (forallb_nth_error _ items _ w Hall Hw).
Qed.
End StoreKeys.

(** In the in-memory repository, a [save] without [deep] of a
    dataclass whose id is not a negative integer loses no key of the
    whole tree, whatever its outcome: the slots of the siblings and of
    their descendants are kept too. *)
Lemma save_keeps_all_keys now repo n s r repo' :
  well_typed RootDataclass (root repo) = true ->
  (forall z, get_id n = Some (AInt z) -> (0 <= z)%Z) ->
  save now repo n s false = (r, repo') ->
  incl (descendant_keys (root repo)) (descendant_keys (root repo')).
Proof.
  intros Hwt Hnonneg Hsave. unfold save in Hsave.
  destruct (save_check_scope n s) as [ps|e] eqn:Hcheck;
    [| injection Hsave as <- <-; apply incl_refl ].
  cbn [negb] in Hsave.
  destruct (save_reassign_sublocation now repo n ps) as [n'|e] eqn:Hre;
    [| injection Hsave as <- <-; apply incl_refl ].
  unfold save_reassign_sublocation in Hre.
  destruct (klass_eqb_spec (class_of n) RootDataclass) as [Hr|Hr].
  - cbn [bind] in Hre. apply set_sublocation_Ok in Hre.
    destruct Hre as [Hcls [_ Hsub]].
    rewrite Hcls, Hr in Hsave. cbn in Hsave. injection Hsave as <- <-.
    cbn [root]. rewrite (descendant_keys_sublocation n' (root repo) Hsub).
    apply incl_refl.
  - destruct (with_dc ps n) as [loc|e] eqn:Hwith; [|discriminate].
    cbn [bind] in Hre.
    assert (Hslice : exists a, loc_slice s (class_of n) = Ok a).
    { unfold save_check_scope in Hcheck.
      destruct (loc_slice s (class_of n)) as [a|e]; [eexists; eauto|].
      discriminate. }
    destruct Hslice as [a Hslice].
    destruct (save_scopes n s ps loc a Hr Hcheck Hwith Hslice)
      as [-> [v (Hid & Halast & Hpslast & Hsame & Hend & Hprefix)]].
    destruct (load now repo a true) as [prev|e] eqn:Hload; [|discriminate].
    cbn [bind] in Hre.
    apply set_sublocation_Ok in Hre. destruct Hre as [Hcls [Hid' Hsub]].
    assert (Hfrom : (exists old, getitem (root repo) a = Ok old
                                 /\ get_sublocation n' = get_sublocation old)
                    \/ (exists msg, getitem (root repo) a = Raise (KeyError msg))).
    { unfold load in Hload.
      destruct (getitem (root repo) a) as [old|e] eqn:Hget; cbn in Hload.
      - injection Hload as <-. left. exists old. auto.
      - destruct e; try discriminate Hload. right. eexists; reflexivity. }
    assert (Hnr : klass_eqb (class_of n') RootDataclass = false).
    { rewrite Hcls. destruct (klass_eqb_spec (class_of n) RootDataclass);
        [contradiction | reflexivity]. }
    rewrite Hnr in Hsave.
    destruct (getitem_store (root repo) ps n') as [r0 root'] eqn:Hstore.
    injection Hsave as <- <-. cbn [root].
    replace root' with (snd (getitem_store (root repo) ps n'))
      by (rewrite Hstore; reflexivity).
    rewrite <- Hcls in Halast, Hpslast, Hsame, Hend, Hprefix.
    rewrite <- Hid' in Hid.
    assert (Hd : (0 < depth_of (class_of n'))%nat).
    { rewrite Hcls. destruct (class_of n); unfold depth_of; simpl;
        try lia. contradiction. }
    assert (Hnn : forall z, v = AInt z -> (0 <= z)%Z).
    { intros z ->. apply Hnonneg. rewrite <- Hid'. exact Hid. }
    apply (getitem_store_keeps_keys a ps n' v Hid Hnn Halast Hpslast Hsame
             Hend Hprefix (depth_of (class_of n') - 1) (root repo)
             RootDataclass); auto.
    unfold depth_of at 1. simpl. lia.
Qed.

(** A negative integer is not a key of a list dataclass, so no record
    exists at such an address; [store] then takes the id as a Python
    index from the end of the list and overwrites that slot with the
    new, childless node. *)
Example save_negative_id_overwrites_last_slot :
  let trial := TrialDataclass_init 0%Z (HyperparameterSamples []) in
  let round := DC (RoundFields (Some (AInt 0))) (PyList [PyDC trial]) in
  let client := DC (ClientFields (Some (AStr DEFAULT_CLIENT)) None)
                   (PyList [PyDC round]) in
  let project := DC (ProjectFields (Some (AStr DEFAULT_PROJECT)))
                    (OrderedDict [(Some (AStr DEFAULT_CLIENT), PyDC client)]) in
  let repo := {| cache_folder := "cache";
                 root := DC RootFields
                           (OrderedDict [(Some (AStr DEFAULT_PROJECT), PyDC project)]) |} in
  let scope := fun i => mkScopedLocation (Some (AStr DEFAULT_PROJECT))
                          (Some (AStr DEFAULT_CLIENT)) (Some (AInt i)) None None None in
  let n := RoundDataclass_init (Some (AInt (-1))) in
  getitem (root repo) (scope 0%Z) = Ok round
  /\ (exists msg, getitem (root repo) (scope (-1)%Z) = Raise (KeyError msg))
  /\ exists repo',
       save 0%Z repo n (scope (-1)%Z) false = (Ok tt, repo')
       /\ getitem (root repo') (scope 0%Z) = Ok n.
Proof.
  cbv zeta. split; [reflexivity|]. split; [eexists; reflexivity|].
  eexists. split; reflexivity.
Qed.

(** C1. A [save] with [deep=False] never reduces the descendant keys
    that existed under the address of the saved node.  In-memory: for
    every well-typed tree, node [n] and scope [s], whatever the outcome
    of the save, the node found afterwards at the address [a] (the scope
    cut at the class of [n]) carries the sublocation that was there
    before, so every descendant key is still there; the save loads the
    prior deep state and reassigns its sublocation to [n] before
    storing.  On disk: the save writes the record of the node only and
    removes no entry of any folder, whatever the methods absent from
    the source do. *)
Theorem save_shallow_keeps_descendant_keys :
  (forall (now : datetime) (repo : VanillaHyperparamsRepository)
          (n : BaseDataclass) (s : ScopedLocation)
          (r : result unit) (repo' : VanillaHyperparamsRepository)
          (a : ScopedLocation) (old : BaseDataclass),
      well_typed RootDataclass (root repo) = true ->
      save now repo n s false = (r, repo') ->
      loc_slice s (class_of n) = Ok a ->
      getitem (root repo) a = Ok old ->
      exists new,
        getitem (root repo') a = Ok new
        /\ get_sublocation new = get_sublocation old
        /\ incl (descendant_keys old) (descendant_keys new))
  /\
  (forall (at_dc : ScopedLocation -> BaseDataclass -> result ScopedLocation)
          (has_sublocation_dataclasses : BaseDataclass -> bool)
          (dump_record : BaseDataclass -> result string)
          (fs : FileSystem) (n : BaseDataclass) (s : ScopedLocation)
          (r : result unit) (fs' : FileSystem),
      OnDisk_save at_dc has_sublocation_dataclasses dump_record fs n s false
      = (r, fs') ->
      forall d, incl (listdir fs d) (listdir fs' d)).
Proof.
  split.
  - intros now repo n s r repo' a old Hwt Hsave Hslice Hget.
    destruct (save_keeps_sublocation now repo n s r repo' a old
                Hwt Hsave Hslice Hget) as [new [Hnew Hsub]].
    exists new. repeat split; auto.
    rewrite (descendant_keys_sublocation new old Hsub). apply incl_refl.
  - intros at_dc has_sub dump_record fs n s r fs' H.
    eapply OnDisk_save_keeps_listing; eauto.
Qed.

Lemma save_shallow_keeps_descendant_keys_witness :
  let trial := TrialDataclass_init 0%Z (HyperparameterSamples []) in
  let round := DC (RoundFields (Some (AInt 0))) (PyList [PyDC trial]) in
  let client := DC (ClientFields (Some (AStr DEFAULT_CLIENT)) None)
                   (PyList [PyDC round]) in
  let project := DC (ProjectFields (Some (AStr DEFAULT_PROJECT)))
                    (OrderedDict [(Some (AStr DEFAULT_CLIENT), PyDC client)]) in
  let repo := {| cache_folder := "cache";
                 root := DC RootFields
                           (OrderedDict [(Some (AStr DEFAULT_PROJECT), PyDC project)]) |} in
  let n := RoundDataclass_init (Some (AInt 0)) in
  let s := mkScopedLocation (Some (AStr DEFAULT_PROJECT)) (Some (AStr DEFAULT_CLIENT))
                            (Some (AInt 0)) None None None in
  let out := save 0%Z repo n s false in
  well_typed RootDataclass (root repo) = true
  /\ save 0%Z repo n s false = (fst out, snd out)
  /\ loc_slice s (class_of n) = Ok s
  /\ getitem (root repo) s = Ok round
  /\ exists new,
       getitem (root (snd out)) s = Ok new
       /\ get_sublocation new = get_sublocation round
       /\ incl (descendant_keys round) (descendant_keys new).
Proof.
  intros trial round client project repo n s out.
  split; [reflexivity|]. split; [reflexivity|].
  split; [reflexivity|]. split; [reflexivity|].
  apply (proj1 save_shallow_keeps_descendant_keys 0%Z repo n s
           (fst out) (snd out) s round); reflexivity.
Defined.

(** ** Loading an address that has no record *)

(** Where a record is absent ([KeyError]), [load] returns what
    [new_dataclass_from_id] builds. *)
Lemma load_absent now repo scope deep msg :
  getitem (root repo) scope = Raise (KeyError msg) ->
  load now repo scope deep = new_dataclass_from_id now scope.
Proof. intros H. unfold load. rewrite H. reflexivity. Qed.

(** For the classes whose first field is their id, the node built for
    an absent record carries the id. *)
Lemma new_dataclass_from_id_round now p c r :
  new_dataclass_from_id now
    (mkScopedLocation (Some p) (Some c) (Some r) None None None)
  = Ok (RoundDataclass_init (Some r)).
Proof. reflexivity. Qed.

(** C2, at the failing input.  On a new repository, in memory or on
    disk (whatever the absent methods do on the load path), loading the
    absent trial [t] of the absent round 0 returns a
    trial whose id is 0 and whose [hyperparams] field holds [t]: the
    first positional field of [TrialDataclass] is [hyperparams], not
    [trial_number].  The same holds one level down for a split. *)
Theorem load_absent_trial_misplaces_id :
  forall (now : datetime) (cache_folder : string) (deep : bool) (t sp : Z),
    let trial_scope :=
      mkScopedLocation (Some (AStr DEFAULT_PROJECT)) (Some (AStr DEFAULT_CLIENT))
                       (Some (AInt 0)) (Some (AInt t)) None None in
    let split_scope :=
      mkScopedLocation (Some (AStr DEFAULT_PROJECT)) (Some (AStr DEFAULT_CLIENT))
                       (Some (AInt 0)) (Some (AInt t)) (Some (AInt sp)) None in
    let trial := TrialDataclass_init now (PyAttr (AInt t)) in
    let split := TrialSplitDataclass_init now (PyAttr (AInt sp)) in
    load now (Vanilla_init cache_folder) trial_scope deep = Ok trial
    /\ load now (Vanilla_init cache_folder) split_scope deep = Ok split
    /\ (forall (JSON : Type) (json_loads : string -> option JSON)
               (at_dc : ScopedLocation -> BaseDataclass -> result ScopedLocation)
               (has_sublocation_dataclasses : BaseDataclass -> bool)
               (set_sublocation_keys :
                  BaseDataclass -> list (option ScopedLocationAttr)
                  -> result BaseDataclass)
               (text : BaseDataclass -> string),
          let fs := snd (OnDisk_init spec_at_dc spec_has_sublocation_dataclasses
                           (fun dc => Ok (text dc)) (mkFS [] [])) in
          OnDisk_load json_loads at_dc has_sublocation_dataclasses
            set_sublocation_keys now fs trial_scope deep = Ok trial
          /\ OnDisk_load json_loads at_dc has_sublocation_dataclasses
               set_sublocation_keys now fs split_scope deep = Ok split)
    /\ get_id trial = Some (AInt 0)
    /\ get_id split = Some (AInt 0).
Proof.
  intros now cache_folder deep t sp. cbv zeta.
  split; [destruct deep; reflexivity|].
  split; [destruct deep; reflexivity|].
  split; [|split; reflexivity].
  intros JSON json_loads at_dc has_sub set_keys text.
  split; destruct deep; reflexivity.
Qed.

(** ** Checking the scope of a save *)



(** On disk, with the methods as the source has them, the save of a
    dataclass whose id is set stops at [scope.at_dc], before the folder
    is made or a file opened. *)
Lemma _save_dc_with_id has_sublocation_dataclasses dump_record n s deep fs v :
  get_id n = Some v ->
  _save_dc ScopedLocation_at_dc has_sublocation_dataclasses dump_record n s deep fs
  = (Raise (AttributeError "at_dc"), fs).
Proof.
  intros Hid. destruct n as [own sub]. cbn [_save_dc].
  unfold _get_dataclass_filename_path, _patch_scope_for_dataclass.
  rewrite Hid. reflexivity.
Qed.

(** On disk, the save of a dataclass whose id is unset opens the record
    of the scope it was given and stops at [_dataclass.empty()]. *)
Lemma _save_dc_no_id at_dc has_sublocation_dataclasses to_json n s deep fs :
  get_id n = None ->
  _save_dc at_dc has_sublocation_dataclasses (dump_empty_record to_json) n s deep fs
  = write_record fs (get_folder_at_scope s)
      (get_folder_at_scope s ++ ["metadata.json"])
      (Raise (AttributeError "empty")).
Proof.
  intros Hid. destruct n as [own sub]. cbn [_save_dc].
  unfold _get_dataclass_filename_path, _patch_scope_for_dataclass.
  rewrite Hid. cbn [bind].
  unfold dump_empty_record, BaseDataclass_empty. cbn [bind].
  destruct (write_record fs (get_folder_at_scope s)
              (get_folder_at_scope s ++ ["metadata.json"])
              (Raise (AttributeError "empty"))) as [[[]|e] fs'] eqn:Hw;
    [|reflexivity].
  exfalso. revert Hw. unfold write_record.
  destruct (makedirs fs (get_folder_at_scope s)); [|discriminate].
  destruct (write_file _ _ EmptyString); discriminate.
Qed.

(** A record whose text cannot be computed is not written: the write
    raises. *)
Lemma write_record_of_no_text fs folder file e :
  exists e' fs', write_record fs folder file (Raise e) = (Raise e', fs').
Proof.
  unfold write_record.
  destruct (makedirs fs folder) as [fs1|e1]; [|eexists; eexists; reflexivity].
  destruct (write_file fs1 file EmptyString) as [fs2|e2];
    eexists; eexists; reflexivity.
Qed.



(** ** Loading a record from disk *)

Lemma dirname_file (folder : path) (name : string) :
  dirname (folder ++ [name]) = folder.
Proof. unfold dirname. apply removelast_last. Qed.

Section OnDiskLoad.
Variable JSON : Type.
Variable json_loads : string -> option JSON.
Variable at_dc : ScopedLocation -> BaseDataclass -> result ScopedLocation.
Variable has_sublocation_dataclasses : BaseDataclass -> bool.
Variable set_sublocation_keys :
  BaseDataclass -> list (option ScopedLocationAttr) -> result BaseDataclass.

(** A record file that is there is read and parsed. *)
Lemma _load_json_file_present fs load_file content :
  file_content (files fs) load_file = Some content ->
  _load_json_file json_loads fs load_file
  = match json_loads content with
    | Some loaded => Ok loaded
    | None => Raise (InvalidJSONFile content load_file
                       (listdir fs (dirname load_file)))
    end.
Proof.
  intros H. unfold _load_json_file, path_exists, is_file, read_file.
  rewrite H. reflexivity.
Qed.

(** C6. For every scope whose record file exists with a content that
    does not parse as JSON, [load] raises an error (it returns no
    node) that carries the content, the path of the file and the
    listing of its folder.  [load] only reads the cache folder. *)
Theorem OnDisk_load_invalid_json_raises :
  forall (now : datetime) (fs : FileSystem) (scope : ScopedLocation)
         (deep : bool) (content : string),
    let load_file := get_folder_at_scope scope ++ ["metadata.json"] in
    file_content (files fs) load_file = Some content ->
    json_loads content = None ->
    OnDisk_load json_loads at_dc has_sublocation_dataclasses
      set_sublocation_keys now fs scope deep
    = Raise (InvalidJSONFile content load_file
               (listdir fs (get_folder_at_scope scope))).
Proof.
  intros now fs scope deep content load_file Hfile Hjson.
  unfold OnDisk_load. cbn [_load_dc].
  unfold _get_dataclass_filename_path. cbn [_patch_scope_for_dataclass bind].
  fold load_file.
  rewrite (_load_json_file_present fs load_file content Hfile), Hjson.
  unfold load_file. rewrite dirname_file. reflexivity.
Qed.

(** C7, at the failing inputs.  For every scope whose record file
    exists and parses, [load] raises the [AttributeError] of
    [from_json]: no node, and so no ordered children, is returned,
    with or without [deep]. *)
Theorem OnDisk_load_existing_record_raises :
  forall (now : datetime) (fs : FileSystem) (scope : ScopedLocation)
         (deep : bool) (content : string) (loaded : JSON),
    file_content (files fs) (get_folder_at_scope scope ++ ["metadata.json"])
    = Some content ->
    json_loads content = Some loaded ->
    OnDisk_load json_loads at_dc has_sublocation_dataclasses
      set_sublocation_keys now fs scope deep
    = Raise (AttributeError "loads").
Proof.
  intros now fs scope deep content loaded Hfile Hjson.
  unfold OnDisk_load. cbn [_load_dc].
  unfold _get_dataclass_filename_path. cbn [_patch_scope_for_dataclass bind].
  rewrite (_load_json_file_present fs _ content Hfile), Hjson.
  reflexivity.
Qed.
End OnDiskLoad.

Lemma OnDisk_load_invalid_json_raises_witness :
  let json_loads := fun s : string => if (s =? "{}")%string then Some tt else None in
  let fs := mkFS [[]; ["_p"]]
                 [(["metadata.json"], "{}"); (["_p"; "metadata.json"], "{")] in
  let scope := mkScopedLocation (Some (AStr "p")) None None None None None in
  file_content (files fs) (get_folder_at_scope scope ++ ["metadata.json"]) = Some "{"
  /\ json_loads "{" = None
  /\ OnDisk_load json_loads spec_at_dc spec_has_sublocation_dataclasses
       spec_set_sublocation_keys 0%Z fs scope true
     = Raise (InvalidJSONFile "{" ["_p"; "metadata.json"] ["metadata.json"]).
Proof.
  intros json_loads fs scope.
  split; [reflexivity|]. split; [reflexivity|].
  exact (OnDisk_load_invalid_json_raises unit json_loads spec_at_dc
           spec_has_sublocation_dataclasses spec_set_sublocation_keys
           0%Z fs scope true "{" eq_refl eq_refl).
Defined.

Lemma OnDisk_load_existing_record_raises_witness :
  let json_loads := fun s : string => if (s =? "{}")%string then Some tt else None in
  let fs := mkFS [[]; ["_0"]; ["_1"]]
                 [(["metadata.json"], "{}"); (["_0"; "metadata.json"], "{}");
                  (["_1"; "metadata.json"], "{}")] in
  file_content (files fs) (get_folder_at_scope ScopedLocation_empty ++ ["metadata.json"])
  = Some "{}"
  /\ json_loads "{}" = Some tt
  /\ OnDisk_load json_loads spec_at_dc spec_has_sublocation_dataclasses
       spec_set_sublocation_keys 0%Z fs ScopedLocation_empty true
     = Raise (AttributeError "loads").
Proof.
  intros json_loads fs.
  split; [reflexivity|]. split; [reflexivity|].
  exact (OnDisk_load_existing_record_raises unit json_loads spec_at_dc
           spec_has_sublocation_dataclasses spec_set_sublocation_keys
           0%Z fs ScopedLocation_empty true "{}" tt eq_refl eq_refl).
Defined.

(** The keys [_load_dc_sublocation_keys] hands to the dataclass are
    sorted as strings, also for a list dataclass: index 10 comes before
    index 2. *)
Example sublocation_keys_sorted_as_strings :
  sublocation_keys_of_listing true ["_2"; "metadata.json"; "_10"; "_0"]
  = Ok [Some (AInt 0); Some (AInt 10); Some (AInt 2)]
  /\ sublocation_keys_of_listing false ["_b"; "metadata.json"; "_a"; "_B"]
     = Ok [Some (AStr "B"); Some (AStr "a"); Some (AStr "b")].
Proof. split; reflexivity. Qed.

(** ** A new repository *)

(** C10, at the failing input.  A new in-memory repository is not
    empty: its root holds exactly one project, ["default_project"],
    which holds exactly one client, ["default_client"], which has no
    round; loading its root scope with [deep] returns this tree, and
    without [deep], the default, the root with the key of the default
    project and a placeholder in its slot.  The constructor of the
    on-disk repository, which saves a new root with [deep], raises on
    every cache folder; on a cache folder that is not there yet it
    raises the [AttributeError] of [_dataclass.empty()] and leaves the
    folder with the record of the root, empty, and no record of the
    default project or of the default client. *)
Theorem new_on_disk_repository_raises :
  forall (now : datetime) (cache_folder : string),
    root (Vanilla_init cache_folder) = default_tree
    /\ load now (Vanilla_init cache_folder) ScopedLocation_empty true = Ok default_tree
    /\ load now (Vanilla_init cache_folder) ScopedLocation_empty false
       = Ok (DC RootFields (OrderedDict [(Some (AStr "default_project"), PyNone)]))
    /\ (forall (at_dc : ScopedLocation -> BaseDataclass -> result ScopedLocation)
               (has_sublocation_dataclasses : BaseDataclass -> bool)
               (to_json : BaseDataclass -> result string),
          (forall fs : FileSystem,
              exists e fs',
                OnDisk_init at_dc has_sublocation_dataclasses
                  (dump_empty_record to_json) fs = (Raise e, fs'))
          /\ OnDisk_init at_dc has_sublocation_dataclasses
               (dump_empty_record to_json) (mkFS [] [])
             = (Raise (AttributeError "empty"),
                mkFS [[]] [(["metadata.json"], EmptyString)])).
Proof.
  intros now cache_folder.
  split; [reflexivity|]. split; [reflexivity|]. split; [reflexivity|].
  intros at_dc has_sub to_json. split.
  - intros fs. unfold OnDisk_init.
    rewrite (_save_dc_no_id at_dc has_sub to_json RootDataclass_init
               ScopedLocation_empty true fs eq_refl).
    apply write_record_of_no_text.
  - unfold OnDisk_init.
    rewrite (_save_dc_no_id at_dc has_sub to_json RootDataclass_init
               ScopedLocation_empty true (mkFS [] []) eq_refl).
    reflexivity.
Qed.

(** ** Refit of the best trial *)

Section RefitFacts.
Variables Pipeline DACT Client Round Trial : Type.
Variable resume_last_round : Client -> result Round.
Variable round_exit_swallows : Round -> exn -> bool.
Variable managed_best_trial : Round -> result Trial.
Variable trial_exit_swallows : Trial -> exn -> bool.
Variable handle_fit : Pipeline -> DACT -> Pipeline.

(** [Trainer.refit] reads the name [context], which is neither one of
    its parameters nor bound in the module. *)
Lemma Trainer_refit_raises (pipeline : Pipeline) (dact : DACT)
    (trial_scope : Trial) :
  Trainer_refit handle_fit pipeline dact trial_scope
  = Raise (NameError "context").
Proof. reflexivity. Qed.

(** C8, at every input.  [refit_best_trial] never returns a pipeline:
    once the two scopes are entered, [Trainer.refit] raises
    [NameError] on [context] before any fit; the error either leaves
    [refit_best_trial], or is swallowed by a scope and then
    [refitted] is read unbound. *)
Theorem refit_best_trial_never_returns :
  forall (pipeline : Pipeline) (dact : DACT) (client_scope : Client),
    (forall refitted,
        refit_best_trial resume_last_round round_exit_swallows
          managed_best_trial trial_exit_swallows handle_fit
          pipeline dact client_scope <> Ok refitted)
    /\ (forall round_scope managed_trial_scope,
          resume_last_round client_scope = Ok round_scope ->
          managed_best_trial round_scope = Ok managed_trial_scope ->
          trial_exit_swallows managed_trial_scope (NameError "context") = false ->
          round_exit_swallows round_scope (NameError "context") = false ->
          refit_best_trial resume_last_round round_exit_swallows
            managed_best_trial trial_exit_swallows handle_fit
            pipeline dact client_scope = Raise (NameError "context")).
Proof.
  intros pipeline dact client_scope. split.
  - intros refitted. unfold refit_best_trial, with_as.
    destruct (resume_last_round client_scope) as [round_scope|e]; cbn;
      [|discriminate].
    destruct (managed_best_trial round_scope) as [trial_scope|e]; cbn.
    + destruct (trial_exit_swallows trial_scope _); cbn; [discriminate|].
      destruct (round_exit_swallows round_scope _); cbn; discriminate.
    + destruct (round_exit_swallows round_scope e); cbn; discriminate.
  - intros round_scope trial_scope Hr Ht Hts Hrs.
    unfold refit_best_trial, with_as. rewrite Hr. cbn. rewrite Ht. cbn.
    rewrite Hts. cbn. rewrite Hrs. reflexivity.
Qed.
End RefitFacts.

Lemma refit_best_trial_never_returns_witness :
  let resume_last_round := fun _ : unit => Ok tt in
  let managed_best_trial := fun _ : unit => Ok 1%nat in
  let never := fun (A : Type) (_ : A) (_ : exn) => false in
  resume_last_round tt = Ok tt
  /\ managed_best_trial tt = Ok 1%nat
  /\ refit_best_trial resume_last_round (never unit) managed_best_trial
       (never nat) (fun (p : nat) (_ : unit) => p) 0%nat tt tt
     = Raise (NameError "context").
Proof.
  intros resume_last_round managed_best_trial never.
  split; [reflexivity|]. split; [reflexivity|].
  exact (proj2 (refit_best_trial_never_returns nat unit unit unit nat
                  resume_last_round (never unit) managed_best_trial (never nat)
                  (fun p _ => p) 0%nat tt tt)
           tt 1%nat eq_refl eq_refl eq_refl eq_refl).
Defined.

(** The selection rule of the spec on its example: with the scores
    [0.7, 0.9, 0.5] the best trial is trial 1 when higher is better and
    trial 2 when lower is better; ties go to the earliest trial. *)
Example best_trial_examples :
  best_trial true [7 # 10; 9 # 10; 5 # 10]%Q = Some 1%nat
  /\ best_trial false [7 # 10; 9 # 10; 5 # 10]%Q = Some 2%nat
  /\ best_trial true [9 # 10; 9 # 10; 5 # 10]%Q = Some 0%nat.
Proof. repeat split; reflexivity. Qed.

(** * Further properties of the code *)

(** ** Operations of the locations *)

(** X1.  [copy()] never raises and keeps the coordinates up to the
    first unset one: the copy has the same [as_list], satisfies the
    prefix invariant, and is equal to the location exactly when the
    location has no gap. *)
Theorem copy_keeps_prefix_up_to_first_gap :
  forall loc : ScopedLocation,
    exists c,
      ScopedLocation_copy loc = Ok c
      /\ as_list c = as_list loc
      /\ prefix_invariant c = true
      /\ (c = loc <-> prefix_invariant loc = true).
Proof.
  intros [[a|] [b|] [c|] [d|] [e|] [f|]]; eexists;
    (split; [reflexivity|]); (split; [reflexivity|]); (split; [reflexivity|]);
    cbn; split; intros H; try reflexivity; try discriminate H.
Qed.

(** X2.  A location has at most six coordinates.  On a location of
    fewer than six, [with_id(x)] returns a location whose [as_list] is
    that of the location followed by [x], whose [peek()] is [x] and whose
    [popped()] is the copy of the location; on a full location the
    constructor receives a seventh argument and [with_id] raises a
    [TypeError]. *)
Theorem with_id_appends_or_overflows :
  forall (loc : ScopedLocation) (x : ScopedLocationAttr),
    (ScopedLocation_len loc <= 6)%nat
    /\ ((ScopedLocation_len loc < 6)%nat ->
        exists loc',
          with_id loc x = Ok loc'
          /\ as_list loc' = as_list loc ++ [x]
          /\ peek loc' = Ok x
          /\ popped loc' = ScopedLocation_copy loc)
    /\ (ScopedLocation_len loc = 6%nat ->
        exists msg, with_id loc x = Raise (TypeError msg)).
Proof.
  intros [[a|] [b|] [c|] [d|] [e|] [f|]] x; cbn;
    (split; [lia|]); split; intros H; try lia; try discriminate H;
    try (eexists; repeat split; reflexivity).
Qed.

(** X3.  [loc[key] = value] sets the coordinate of the class [key] and
    no other, and only when that class is the next one to define (its
    depth is the length of the location plus one).  For another class
    the message of the intended [ValueError] subscripts a view of keys,
    so what is raised is a [TypeError]; for the root class, which has no
    coordinate, [index] raises a [ValueError]. *)
Theorem setitem_sets_the_next_coordinate_only :
  forall (loc : ScopedLocation) (key : klass) (value : option ScopedLocationAttr),
    (key = RootDataclass ->
     exists msg, loc_setitem loc key value = Raise (ValueError msg))
    /\ (key <> RootDataclass ->
        depth_of key = S (ScopedLocation_len loc) ->
        exists loc',
          loc_setitem loc key value = Ok loc'
          /\ loc_getitem loc' key = value
          /\ forall k, k <> key -> loc_getitem loc' k = loc_getitem loc k)
    /\ (key <> RootDataclass ->
        depth_of key <> S (ScopedLocation_len loc) ->
        exists msg, loc_setitem loc key value = Raise (TypeError msg)).
Proof.
  intros [[a|] [b|] [c|] [d|] [e|] [f|]] key value;
    (split; [intros ->; eexists; reflexivity|]);
    split; intros Hk Hd; destruct key; cbn in Hd |- *;
      try (exfalso; apply Hk; reflexivity);
      try (exfalso; apply Hd; reflexivity);
      try discriminate Hd;
      try (eexists; reflexivity);
      (eexists; split; [reflexivity|]; split; [reflexivity|];
       intros k Hne; destruct k; try reflexivity; exfalso; apply Hne; reflexivity).
Qed.

(** X4.  [with_dc(dc)] is the empty location for a root; for a
    dataclass of the class right below the location it is [with_id] of
    the id of the dataclass (the copy of the location when that id is
    unset); for a dataclass of any other class it raises a
    [TypeError]. *)
Theorem with_dc_is_with_id_one_level_down :
  forall (loc : ScopedLocation) (dc : BaseDataclass),
    (class_of dc = RootDataclass -> with_dc loc dc = Ok ScopedLocation_empty)
    /\ (class_of dc <> RootDataclass ->
        depth_of (class_of dc) = S (ScopedLocation_len loc) ->
        (forall v, get_id dc = Some v -> with_dc loc dc = with_id loc v)
        /\ (get_id dc = None -> with_dc loc dc = ScopedLocation_copy loc))
    /\ (class_of dc <> RootDataclass ->
        depth_of (class_of dc) <> S (ScopedLocation_len loc) ->
        exists msg, with_dc loc dc = Raise (TypeError msg)).
Proof.
  intros loc [own sub].
  split; [intros H; unfold with_dc; rewrite H; reflexivity|].
  destruct loc as [[a|] [b|] [c|] [d|] [e|] [f|]];
    destruct own as [|pn|cn mm|rn|bb tn|bb sn|mn tv hb];
    split; intros Hk Hd; cbn in Hd |- *;
      try (exfalso; apply Hk; reflexivity);
      try (exfalso; apply Hd; reflexivity);
      try discriminate Hd;
      try (eexists; reflexivity);
      (split; [intros v Hv; cbn in Hv; subst; reflexivity
              | intros Hv; cbn in Hv; subst; reflexivity]).
Qed.

(** X5.  [popped()] never raises: it returns the location without the
    last element of [as_list], which is [self[:-1]], and, on a location
    without gap, what [pop()] leaves of the location.  On an empty
    location [popped()] is the empty location, [peek()] raises an
    [IndexError] and [pop()] returns [None] and changes nothing. *)
Theorem popped_is_pop_on_a_copy :
  (forall loc : ScopedLocation,
      exists p,
        popped loc = Ok p
        /\ as_list p = removelast (as_list loc)
        /\ loc_slice_int loc (-1) = Ok p
        /\ (prefix_invariant loc = true -> snd (pop loc) = p)
        /\ (as_list loc = [] ->
            p = ScopedLocation_empty
            /\ exists msg, peek loc = Raise (IndexError msg)))
  /\ pop ScopedLocation_empty = (None, ScopedLocation_empty).
Proof.
  split; [|reflexivity].
  intros [[a|] [b|] [c|] [d|] [e|] [f|]]; eexists;
    (split; [reflexivity|]); (split; [reflexivity|]); (split; [reflexivity|]);
    (split; [cbn; intros H; try discriminate H; reflexivity|]);
    cbn; intros H; try discriminate H;
    (split; [reflexivity|]); eexists; reflexivity.
Qed.

(** X6.  [loc[i]] for an integer [i]: for [0 <= i < 6] it is the
    coordinate of the class at depth [i + 1]; for [i >= 6] an
    [IndexError]; below the length of the location, [loc[i]] and
    [loc[i - len(loc)]] are both element [i] of [as_list]; a negative
    index gives [None] on an empty location, and an [IndexError] when it
    is below [-len(loc)] on a location that is not empty. *)
Theorem getitem_by_integer_index :
  forall (loc : ScopedLocation) (i : Z),
    ((0 <= i < 6)%Z ->
     exists k, keys_at (Z.to_nat i) = Some k
               /\ depth_of k = S (Z.to_nat i)
               /\ loc_getitem_int loc i = Ok (loc_getitem loc k))
    /\ ((6 <= i)%Z -> exists msg, loc_getitem_int loc i = Raise (IndexError msg))
    /\ ((0 <= i < Z.of_nat (ScopedLocation_len loc))%Z ->
        loc_getitem_int loc i = Ok (nth_error (as_list loc) (Z.to_nat i))
        /\ loc_getitem_int loc (i - Z.of_nat (ScopedLocation_len loc))
           = Ok (nth_error (as_list loc) (Z.to_nat i)))
    /\ ((i < 0)%Z -> as_list loc = [] -> loc_getitem_int loc i = Ok None)
    /\ ((i < - Z.of_nat (ScopedLocation_len loc))%Z -> as_list loc <> [] ->
        exists msg, loc_getitem_int loc i = Raise (IndexError msg)).
Proof.
  intros loc i. split; [|split; [|split; [|split]]].
  - intros Hi.
    assert (H : (i = 0 \/ i = 1 \/ i = 2 \/ i = 3 \/ i = 4 \/ i = 5)%Z) by lia.
    destruct H as [-> | [-> | [-> | [-> | [-> | ->]]]]];
      eexists; (split; [reflexivity|]); split; reflexivity.
  - intros Hi. unfold loc_getitem_int.
    destruct (Z.ltb_spec i 0); [lia|].
    assert (H6 : (6 <= Z.to_nat i)%nat) by lia.
    unfold keys_at.
    destruct (nth_error (map fst dataclass_2_id_attr) (Z.to_nat i)) eqn:E.
    + assert (Hlt : (Z.to_nat i < List.length (map fst dataclass_2_id_attr))%nat)
        by (apply nth_error_Some; congruence).
      cbn in Hlt. lia.
    + eexists; reflexivity.
  - intros Hi.
    destruct loc as [[a|] [b|] [c|] [d|] [e|] [f|]]; cbn in Hi;
      try lia;
      assert (H : (i = 0 \/ i = 1 \/ i = 2 \/ i = 3 \/ i = 4 \/ i = 5)%Z) by lia;
      destruct H as [-> | [-> | [-> | [-> | [-> | ->]]]]];
      try lia; split; reflexivity.
  - intros Hi Hnil. unfold loc_getitem_int, ScopedLocation_len.
    destruct (Z.ltb_spec i 0); [|lia]. rewrite Hnil. reflexivity.
  - intros Hi Hne. unfold loc_getitem_int, ScopedLocation_len in *.
    destruct (Z.ltb_spec i 0); [|lia].
    destruct (as_list loc) as [|x l] eqn:El; [contradiction|].
    cbn [List.length Nat.eqb] in *. unfold list_position.
    repeat match goal with
           | |- context [Z.leb ?a ?b] => destruct (Z.leb_spec a b)
           | |- context [Z.ltb ?a ?b] => destruct (Z.ltb_spec a b)
           end; cbn [andb]; try lia; eexists; reflexivity.
Qed.

(** X7.  [loc[:cls]] never raises: it is the location made of the
    first [depth(cls)] elements of [as_list], the same as the integer
    slice [loc[:depth(cls)]]; slicing it again changes nothing, its
    coordinates below [cls] are unset, and on a location without gap its
    coordinates down to [cls] are those of the location. *)
Theorem slice_by_class_is_a_prefix :
  forall (loc : ScopedLocation) (k : klass),
    exists p,
      loc_slice loc k = Ok p
      /\ as_list p = firstn (depth_of k) (as_list loc)
      /\ loc_slice_int loc (Z.of_nat (depth_of k)) = Ok p
      /\ loc_slice p k = Ok p
      /\ (forall j, (depth_of k < depth_of j)%nat -> loc_getitem p j = None)
      /\ (prefix_invariant loc = true ->
          forall j, (depth_of j <= depth_of k)%nat ->
                    loc_getitem p j = loc_getitem loc j).
Proof.
  intros [[a|] [b|] [c|] [d|] [e|] [f|]] k; destruct k; eexists;
    (split; [reflexivity|]); (split; [reflexivity|]);
    (split; [reflexivity|]); (split; [reflexivity|]);
    (split; [intros j Hj; destruct j; unfold depth_of in Hj; cbn in Hj;
             try lia; reflexivity|]);
    cbn; intros H; try discriminate H;
    intros j Hj; destruct j; unfold depth_of in Hj; cbn in Hj; try lia;
    reflexivity.
Qed.

(** X8.  [new_dataclass_from_id()] raises an [IndexError] on an empty
    location.  On any other location it returns a dataclass of the class
    at the depth of the length of the location, which satisfies its
    invariant and is well typed; its id is the last coordinate for every
    class but [TrialDataclass] and [TrialSplitDataclass]; it has no
    child, except a project, which has the default client. *)
Theorem new_dataclass_from_id_builds_the_class_of_the_scope :
  forall (now : datetime) (loc : ScopedLocation),
    (as_list loc = [] ->
     exists msg, new_dataclass_from_id now loc = Raise (IndexError msg))
    /\ (forall v, peek loc = Ok v ->
        exists dc,
          new_dataclass_from_id now loc = Ok dc
          /\ depth_of (class_of dc) = ScopedLocation_len loc
          /\ _invariant dc = Ok tt
          /\ well_typed (class_of dc) dc = true
          /\ (class_of dc <> TrialDataclass ->
              class_of dc <> TrialSplitDataclass ->
              get_id dc = Some v)
          /\ (class_of dc <> ProjectDataclass -> dc_len dc = 0%nat)
          /\ (class_of dc = ProjectDataclass ->
              get_sublocation_keys dc = Ok [Some (AStr DEFAULT_CLIENT)])).
Proof.
  intros now [[a|] [b|] [c|] [d|] [e|] [f|]]; split;
    try (intros H; cbn in H; try discriminate H; eexists; reflexivity);
    intros v Hv; cbn in Hv; try discriminate Hv; injection Hv as <-;
    eexists; (split; [reflexivity|]); (split; [reflexivity|]);
    (split; [reflexivity|]); (split; [reflexivity|]);
    (split; [cbn; intros H1 H2; try reflexivity;
             try (exfalso; apply H1; reflexivity);
             exfalso; apply H2; reflexivity
            | split; cbn; intros H1; try reflexivity; try discriminate H1;
              exfalso; apply H1; reflexivity]).
Qed.

(** ** Operations of the nodes *)

(** ** Shallow copies *)

Lemma forallb_keys_placeholders {A B} (q : option ScopedLocationAttr -> bool)
    (items : list (option ScopedLocationAttr * A)) (w : B) :
  forallb (fun kv => q (fst kv)) (map (fun kv => (fst kv, w)) items)
  = forallb (fun kv => q (fst kv)) items.
Proof.
  induction items as [|[k v] items IH]; simpl; [reflexivity|].
  rewrite IH. reflexivity.
Qed.

Lemma forallb_values_placeholders {A} (subdataklass : option klass)
    (items : list (option ScopedLocationAttr * A)) :
  forallb (fun kv => isinstance_or_None subdataklass (snd kv))
          (map (fun kv => (fst kv, PyNone)) items) = true.
Proof. induction items as [|[k v] items IH]; simpl; auto. Qed.

Lemma map_fst_placeholders {A B} (items : list (option ScopedLocationAttr * A)) (w : B) :
  map fst (map (fun kv => (fst kv, w)) items) = map fst items.
Proof. rewrite map_map. reflexivity. Qed.

Lemma map_snd_placeholders {A B} (items : list (option ScopedLocationAttr * A)) (w : B) :
  map snd (map (fun kv => (fst kv, w)) items) = repeat w (List.length items).
Proof. induction items as [|[k v] items IH]; simpl; congruence. Qed.

Lemma map_placeholders_idem {A B} (items : list (option ScopedLocationAttr * A)) (w : B) :
  map (fun kv => (fst kv, w)) (map (fun kv => (fst kv, w)) items)
  = map (fun kv => (fst kv, w)) items.
Proof. rewrite map_map. reflexivity. Qed.

(** What [_invariant] accepts. *)
Lemma _invariant_Ok own sub :
  _invariant (DC own sub) = Ok tt ->
  match sub with
  | OrderedDict items =>
      has_ordered_dict_mixin (klass_of own) = true
      /\ forallb (fun kv => is_str (fst kv)) items = true
      /\ forallb (fun kv => isinstance_or_None (subdataclass (klass_of own)) (snd kv))
                 items = true
  | PyList _ => has_ordered_dict_mixin (klass_of own) = false
  end.
Proof.
  unfold _invariant.
  destruct (has_ordered_dict_mixin (klass_of own)), sub as [items|items];
    try discriminate; auto.
  destruct (forallb (fun kv => is_str (fst kv)) items); simpl; [|discriminate].
  destruct (forallb _ items); simpl; [auto | discriminate].
Qed.

Lemma _invariant_dict own items :
  has_ordered_dict_mixin (klass_of own) = true ->
  forallb (fun kv => is_str (fst kv)) items = true ->
  forallb (fun kv => isinstance_or_None (subdataclass (klass_of own)) (snd kv))
          items = true ->
  _invariant (DC own (OrderedDict items)) = Ok tt.
Proof. intros H1 H2 H3. unfold _invariant. rewrite H1, H2, H3. reflexivity. Qed.

(** X9.  On a node that satisfies its invariant, [shallow()] returns a
    node with the same own fields, the same keys and the same length,
    in which every slot is [None]; that node satisfies the invariant and
    is its own shallow copy. *)
Theorem shallow_keeps_the_keys_only :
  forall (own : own_fields) (sub : sublocation BaseDataclass),
    _invariant (DC own sub) = Ok tt ->
    exists sub',
      shallow (DC own sub) = Ok (DC own sub')
      /\ get_sublocation_keys (DC own sub') = get_sublocation_keys (DC own sub)
      /\ sublocation_len sub' = sublocation_len sub
      /\ get_sublocation_values (DC own sub')
         = Ok (repeat PyNone (sublocation_len sub))
      /\ _invariant (DC own sub') = Ok tt
      /\ shallow (DC own sub') = Ok (DC own sub').
Proof.
  intros own sub Hinv. apply _invariant_Ok in Hinv.
  destruct sub as [items|items].
  - destruct Hinv as (Hmix & Hkeys & Hvals).
    assert (Hinv' : _invariant
                      (DC own (OrderedDict (map (fun kv => (fst kv, PyNone)) items)))
                    = Ok tt).
    { apply _invariant_dict; auto.
      - rewrite forallb_keys_placeholders. exact Hkeys.
      - apply forallb_values_placeholders. }
    exists (OrderedDict (map (fun kv => (fst kv, PyNone)) items)).
    unfold shallow, get_sublocation_keys, get_sublocation_values, set_sublocation.
    simpl class_of. rewrite Hmix. simpl get_sublocation.
    cbv iota beta. rewrite map_placeholders_idem, Hinv'. cbn [bind sublocation_len].
    rewrite map_fst_placeholders, map_snd_placeholders, length_map.
    repeat split; reflexivity.
  - assert (Hinv' : forall l, _invariant (DC own (PyList l)) = Ok tt)
      by (intros l; apply _invariant_list; exact Hinv).
    exists (PyList (repeat PyNone (List.length items))).
    unfold shallow, get_sublocation_keys, get_sublocation_values, set_sublocation,
      dc_len.
    simpl class_of. rewrite Hinv. simpl get_sublocation. simpl sublocation_len.
    cbv iota beta. rewrite !Hinv', repeat_length. cbn [bind].
    repeat split; reflexivity.
Qed.

Lemma shallow_keeps_the_keys_only_witness :
  let sub := get_sublocation RootDataclass_init in
  _invariant (DC RootFields sub) = Ok tt
  /\ exists sub',
       shallow (DC RootFields sub) = Ok (DC RootFields sub')
       /\ get_sublocation_keys (DC RootFields sub')
          = get_sublocation_keys (DC RootFields sub).
Proof.
  intros sub. split; [reflexivity|].
  destruct (shallow_keeps_the_keys_only RootFields sub eq_refl)
    as [sub' (H1 & H2 & _)].
  exists sub'. split; [exact H1 | exact H2].
Defined.

Lemma dict_subscript_placeholders {A B} (f : A -> result B)
    (items : list (option ScopedLocationAttr * pyval A)) key :
  key_in key (map fst items) = true ->
  dict_subscript f (map (fun kv => (fst kv, PyNone)) items) key
  = Raise (TypeError "'NoneType' object is not subscriptable").
Proof.
  unfold key_in. induction items as [|[k v] items IH]; simpl; [discriminate|].
  destruct (py_eqb_spec key k) as [->|Hne]; simpl.
  - rewrite py_eqb_refl. reflexivity.
  - intros H. destruct (py_eqb_spec k key) as [E|_]; [congruence | auto].
Qed.

Lemma list_subscript_at_placeholders {A B} (f : A -> result B) len n :
  (n < len)%nat ->
  list_subscript_at f (repeat PyNone len) n
  = Raise (TypeError "'NoneType' object is not subscriptable").
Proof.
  revert n. induction len as [|len IH]; intros [|n] H; simpl; try lia; auto.
  apply IH. lia.
Qed.

(** X10.  A shallow copy cannot be navigated: indexing it by a location
    whose next coordinate is one of its keys finds the placeholder and
    raises a [TypeError], not a [KeyError]; [load] catches [KeyError]
    only, so a repository whose root is such a copy raises the
    [TypeError] from [load]. *)
Theorem shallow_node_cannot_be_navigated :
  forall (self s : BaseDataclass) (loc : ScopedLocation) (k : klass)
         (key : ScopedLocationAttr) (keys : list (option ScopedLocationAttr)),
    shallow self = Ok s ->
    subdataclass (class_of self) = Some k ->
    loc_getitem loc k = Some key ->
    get_sublocation_keys self = Ok keys ->
    key_in (Some key) keys = true ->
    getitem s loc = Raise (TypeError "'NoneType' object is not subscriptable")
    /\ forall (now : datetime) (cache_folder : string) (deep : bool),
         load now {| cache_folder := cache_folder; root := s |} loc deep
         = Raise (TypeError "'NoneType' object is not subscriptable").
Proof.
  intros [own sub] s loc k key keys Hsh Hk Hkey Hkeys Hin.
  assert (G : getitem s loc
              = Raise (TypeError "'NoneType' object is not subscriptable")).
  { unfold shallow, get_sublocation_keys, set_sublocation in Hsh, Hkeys.
    simpl class_of in *. simpl get_sublocation in *.
    destruct (has_ordered_dict_mixin (klass_of own)) eqn:Hmix.
    - destruct sub as [items|items]; [|discriminate Hsh].
      cbv iota beta in Hsh.
      destruct (_invariant _) eqn:Hinv in Hsh; [|discriminate Hsh].
      cbn [bind] in Hsh. injection Hsh as <-. injection Hkeys as <-.
      rewrite getitem_eq. simpl class_of. rewrite Hk, Hkey.
      unfold get_sublocation_keys. simpl class_of. rewrite Hmix.
      simpl get_sublocation. cbn [bind]. rewrite map_fst_placeholders.
      rewrite Hin. cbn [negb sublocation_subscript].
      apply dict_subscript_placeholders. exact Hin.
    - cbv iota beta in Hsh.
      destruct (_invariant _) eqn:Hinv in Hsh; [|discriminate Hsh].
      cbn [bind] in Hsh. injection Hsh as <-. injection Hkeys as <-.
      rewrite getitem_eq. simpl class_of. rewrite Hk, Hkey.
      unfold get_sublocation_keys. simpl class_of. rewrite Hmix.
      unfold dc_len in *. simpl get_sublocation in *.
      simpl sublocation_len at 1. rewrite repeat_length. cbn [bind].
      rewrite Hin. cbn [negb sublocation_subscript].
      apply key_in_range in Hin. destruct Hin as [z [-> Hz]].
      rewrite repeat_length, list_position_in_range by exact Hz.
      apply list_subscript_at_placeholders. lia. }
  split; [exact G|].
  intros now cf deep. unfold load. cbn [root]. rewrite G. reflexivity.
Qed.

Lemma shallow_node_cannot_be_navigated_witness :
  let loc := mkScopedLocation (Some (AStr DEFAULT_PROJECT)) None None None None None in
  exists s,
    shallow RootDataclass_init = Ok s
    /\ getitem RootDataclass_init loc = Ok (ProjectDataclass_init (Some (AStr DEFAULT_PROJECT)))
    /\ getitem s loc = Raise (TypeError "'NoneType' object is not subscriptable").
Proof.
  intros loc. eexists. split; [reflexivity|]. split; [reflexivity|].
  exact (proj1 (shallow_node_cannot_be_navigated RootDataclass_init _ loc
                  ProjectDataclass (AStr DEFAULT_PROJECT)
                  [Some (AStr DEFAULT_PROJECT)]
                  eq_refl eq_refl eq_refl eq_refl eq_refl)).
Defined.

(** The shallow copy of a list node is always built, so the [KeyError]
    of a list node is raised. *)
Lemma raise_KeyError_not_in_list {B} own sub :
  has_ordered_dict_mixin (klass_of own) = false ->
  @raise_KeyError_not_in B (DC own sub)
  = Raise (KeyError "Item at loc is not in self").
Proof.
  intros Hmix. unfold raise_KeyError_not_in, shallow, set_sublocation.
  simpl class_of. rewrite Hmix. cbv iota beta.
  rewrite (_invariant_list own _ Hmix). reflexivity.
Qed.

(** X11.  A list node is indexed by the positions [0 .. len - 1] only:
    for a next coordinate that is a string, a negative integer or an
    integer beyond the end, [self[loc]] raises a [KeyError]; for a
    position that holds a dataclass, [self[loc]] is that dataclass
    indexed by [loc]. *)
Theorem list_node_is_indexed_by_its_range :
  forall (own : own_fields) (items : list (pyval BaseDataclass))
         (loc : ScopedLocation) (k : klass) (key : ScopedLocationAttr),
    has_ordered_dict_mixin (klass_of own) = false ->
    subdataclass (klass_of own) = Some k ->
    loc_getitem loc k = Some key ->
    ((forall z, key = AInt z -> ~ (0 <= z < Z.of_nat (List.length items))%Z) ->
     exists msg, getitem (DC own (PyList items)) loc = Raise (KeyError msg))
    /\ (forall z c, key = AInt z ->
                    (0 <= z)%Z -> nth_error items (Z.to_nat z) = Some (PyDC c) ->
                    getitem (DC own (PyList items)) loc = getitem c loc).
Proof.
  intros own items loc k key Hmix Hk Hkey.
  rewrite getitem_eq. simpl class_of. rewrite Hk, Hkey.
  unfold get_sublocation_keys. simpl class_of. rewrite Hmix.
  unfold dc_len. simpl get_sublocation. simpl sublocation_len. cbn [bind].
  split.
  - intros Hout.
    destruct (key_in (Some key) _) eqn:Hin;
      [| cbn [negb]; rewrite (raise_KeyError_not_in_list own _ Hmix);
         eexists; reflexivity ].
    apply key_in_range in Hin. destruct Hin as [z [-> Hz]].
    exfalso. exact (Hout z eq_refl Hz).
  - intros z c -> Hz Hnth.
    assert (Hlt : (Z.to_nat z < List.length items)%nat)
      by (apply nth_error_Some; congruence).
    assert (Hin : key_in (Some (AInt z))
                    (map (fun n => Some (AInt (Z.of_nat n)))
                         (seq 0 (List.length items))) = true)
      by (apply key_in_range; exists z; split; [reflexivity | lia]).
    rewrite Hin. cbn [negb sublocation_subscript].
    rewrite list_position_in_range by lia.
    rewrite (list_subscript_at_nth _ items _ (PyDC c) Hnth). reflexivity.
Qed.

Lemma list_node_is_indexed_by_its_range_witness :
  let own := ClientFields (Some (AStr DEFAULT_CLIENT)) None in
  let items := [PyDC (RoundDataclass_init (Some (AInt 0)))] in
  let loc := mkScopedLocation (Some (AStr DEFAULT_PROJECT)) (Some (AStr DEFAULT_CLIENT))
                              (Some (AInt (-1))) None None None in
  has_ordered_dict_mixin (klass_of own) = false
  /\ subdataclass (klass_of own) = Some RoundDataclass
  /\ loc_getitem loc RoundDataclass = Some (AInt (-1))
  /\ exists msg, getitem (DC own (PyList items)) loc = Raise (KeyError msg).
Proof.
  intros own items loc.
  split; [reflexivity|]. split; [reflexivity|]. split; [reflexivity|].
  apply (proj1 (list_node_is_indexed_by_its_range own items loc RoundDataclass
                  (AInt (-1)) eq_refl eq_refl eq_refl)).
  intros z [= <-]. cbn. lia.
Defined.

(** ** Storing into an [OrderedDict] *)

Lemma forallb_fst_dict_setitem {A} (q : option ScopedLocationAttr -> bool)
    (items : list (option ScopedLocationAttr * A)) key v :
  forallb (fun kv => q (fst kv)) items = true -> q key = true ->
  forallb (fun kv => q (fst kv)) (dict_setitem items key v) = true.
Proof.
  intros H Hk. induction items as [|[k w] items IH]; simpl in *.
  - rewrite Hk. reflexivity.
  - apply andb_prop in H. destruct H as [Hw Hrest].
    destruct (py_eqb k key); simpl.
    + rewrite Hw, Hrest. reflexivity.
    + rewrite Hw, (IH Hrest). reflexivity.
Qed.

Lemma dict_getitem_setitem_other {A} (items : list (option ScopedLocationAttr * A))
    key key' v :
  key' <> key ->
  dict_getitem (dict_setitem items key v) key' = dict_getitem items key'.
Proof.
  intros Hne. induction items as [|[k w] items IH]; simpl.
  - destruct (py_eqb_spec key key'); [congruence | reflexivity].
  - destruct (py_eqb_spec k key) as [->|Hk]; simpl.
    + destruct (py_eqb_spec key key'); [congruence | reflexivity].
    + destruct (py_eqb k key'); auto.
Qed.

Lemma map_fst_dict_setitem {A} (items : list (option ScopedLocationAttr * A)) key v :
  map fst (dict_setitem items key v)
  = if key_in key (map fst items) then map fst items else map fst items ++ [key].
Proof.
  unfold key_in. induction items as [|[k w] items IH]; simpl; [reflexivity|].
  destruct (py_eqb_spec k key) as [->|Hk]; simpl.
  - rewrite py_eqb_refl. reflexivity.
  - destruct (py_eqb_spec key k); [congruence|]. simpl. rewrite IH.
    destruct (existsb (py_eqb key) (map fst items)); reflexivity.
Qed.

(** X12.  On a map-keyed node that satisfies its invariant, [store] of
    a dataclass of the child class whose id is a string returns that id;
    afterwards the id maps to the dataclass, every other key maps to what
    it did, an id that was a key keeps its position and a new one is
    last, and the node satisfies its invariant. *)
Theorem dict_store_inserts_or_replaces :
  forall (own : own_fields)
         (items : list (option ScopedLocationAttr * pyval BaseDataclass))
         (dc : BaseDataclass) (s : string),
    _invariant (DC own (OrderedDict items)) = Ok tt ->
    get_id dc = Some (AStr s) ->
    subdataclass (klass_of own) = Some (class_of dc) ->
    exists items',
      store (DC own (OrderedDict items)) dc
      = (Ok (Some (AStr s)), DC own (OrderedDict items'))
      /\ dict_getitem items' (Some (AStr s)) = Some (PyDC dc)
      /\ (forall key, key <> Some (AStr s) ->
                      dict_getitem items' key = dict_getitem items key)
      /\ map fst items'
         = (if key_in (Some (AStr s)) (map fst items)
            then map fst items else map fst items ++ [Some (AStr s)])
      /\ _invariant (DC own (OrderedDict items')) = Ok tt.
Proof.
  intros own items dc s Hinv Hid Hsub.
  apply _invariant_Ok in Hinv. destruct Hinv as (Hmix & Hkeys & Hvals).
  exists (dict_setitem items (Some (AStr s)) (PyDC dc)).
  assert (Hinv' : _invariant
                    (DC own (OrderedDict (dict_setitem items (Some (AStr s)) (PyDC dc))))
                  = Ok tt).
  { apply _invariant_dict; auto.
    - apply forallb_fst_dict_setitem; auto.
    - apply (forallb_dict_setitem
               (isinstance_or_None (subdataclass (klass_of own)))); auto.
      rewrite Hsub. simpl.
      destruct (klass_eqb_spec (class_of dc) (class_of dc)); congruence. }
  split.
  { unfold store, store_ordered_dict. simpl class_of. rewrite Hmix, Hid, Hinv'.
    reflexivity. }
  split; [apply dict_getitem_setitem_same|].
  split; [intros key Hne; apply dict_getitem_setitem_other; exact Hne|].
  split; [apply map_fst_dict_setitem | exact Hinv'].
Qed.

Lemma dict_store_inserts_or_replaces_witness :
  let items := [ (Some (AStr DEFAULT_PROJECT),
                  PyDC (ProjectDataclass_init (Some (AStr DEFAULT_PROJECT)))) ] in
  let dc := ProjectDataclass_init (Some (AStr "other")) in
  _invariant (DC RootFields (OrderedDict items)) = Ok tt
  /\ get_id dc = Some (AStr "other")
  /\ subdataclass (klass_of RootFields) = Some (class_of dc)
  /\ exists items',
       store (DC RootFields (OrderedDict items)) dc
       = (Ok (Some (AStr "other")), DC RootFields (OrderedDict items'))
       /\ map fst items' = [Some (AStr DEFAULT_PROJECT); Some (AStr "other")].
Proof.
  intros items dc.
  split; [reflexivity|]. split; [reflexivity|]. split; [reflexivity|].
  destruct (dict_store_inserts_or_replaces RootFields items dc "other"
              eq_refl eq_refl eq_refl) as [items' (H1 & _ & _ & H4 & _)].
  exists items'. split; [exact H1 | exact H4].
Defined.

(** ** Storing into a list with an id that is not a position *)

(** X13.  On a list node of length [L], [store] of a child whose id
    is an integer [i] with [-L <= i < 0] takes the id as an index from
    the end: it overwrites slot [L + i] and returns; with [i < -L] it
    raises an [IndexError], and with an id that is not an integer a
    [TypeError], the node being unchanged in both cases. *)
Theorem list_store_negative_or_non_integer_id :
  forall (own : own_fields) (items : list (pyval BaseDataclass))
         (c : BaseDataclass),
    has_ordered_dict_mixin (klass_of own) = false ->
    let self := DC own (PyList items) in
    let L := Z.of_nat (List.length items) in
    (forall i, get_id c = Some (AInt i) -> (- L <= i < 0)%Z ->
       exists items',
         store self c = (Ok (Some (AInt i)), DC own (PyList items'))
         /\ nth_error items' (Z.to_nat (L + i)) = Some (PyDC c)
         /\ (forall m, m <> Z.to_nat (L + i) -> nth_error items' m = nth_error items m)
         /\ List.length items' = List.length items)
    /\ (forall i, get_id c = Some (AInt i) -> (i < - L)%Z ->
          exists msg, store self c = (Raise (IndexError msg), self))
    /\ ((forall i, get_id c <> Some (AInt i)) ->
          exists msg, store self c = (Raise (TypeError msg), self)).
Proof.
  intros own items c Hmix self L. subst self L.
  unfold store, store_list. simpl class_of. rewrite Hmix.
  unfold get_next_i, dc_len. simpl sublocation_len.
  set (L := Z.of_nat (List.length items)).
  assert (Hneg : forall i, (i < 0)%Z ->
            list_setitem items (Some (AInt i)) (PyDC c)
            = if (- L <=? i)%Z
              then Ok (list_set items (Z.to_nat (L + i)) (PyDC c))
              else Raise (IndexError "list assignment index out of range")).
  { intros i Hi. unfold list_setitem, list_position. fold L.
    destruct (Z.leb_spec 0 i); [lia|]. cbn [andb].
    destruct (Z.ltb_spec i 0); [|lia]. cbn [andb].
    destruct (- L <=? i)%Z; reflexivity. }
  split; [|split].
  - intros i Hid Hi. rewrite Hid.
    destruct (Z.eqb_spec i L); [lia|].
    destruct (Z.ltb_spec i L); [|lia].
    rewrite Hneg by lia.
    destruct (Z.leb_spec (- L) i); [|lia].
    rewrite (_invariant_list own _ Hmix). cbn [bind].
    exists (list_set items (Z.to_nat (L + i)) (PyDC c)).
    split; [reflexivity|]. split; [apply nth_error_list_set; lia|].
    split; [intros m Hm; apply nth_error_list_set_other; congruence|].
    apply length_list_set.
  - intros i Hid Hi. rewrite Hid.
    destruct (Z.eqb_spec i L); [lia|].
    destruct (Z.ltb_spec i L); [|lia].
    rewrite Hneg by lia.
    destruct (Z.leb_spec (- L) i); [lia|].
    eexists; reflexivity.
  - intros Hid. destruct (get_id c) as [[s|i]|]; try (eexists; reflexivity).
    exfalso. exact (Hid i eq_refl).
Qed.

Lemma list_store_negative_or_non_integer_id_witness :
  let own := RoundFields (Some (AInt 0)) in
  let t0 := TrialDataclass_init 0%Z (HyperparameterSamples []) in
  let c := DC (TrialFields (mkTrialMixin (HyperparameterSamples []) PLANNED 0%Z 0%Z None EmptyString)
                           (Some (AInt (-1)))) (PyList []) in
  has_ordered_dict_mixin (klass_of own) = false
  /\ exists items',
       store (DC own (PyList [PyDC t0])) c
       = (Ok (Some (AInt (-1))), DC own (PyList items'))
       /\ nth_error items' 0 = Some (PyDC c).
Proof.
  intros own t0 c. split; [reflexivity|].
  destruct (proj1 (list_store_negative_or_non_integer_id own [PyDC t0] c eq_refl)
              (-1)%Z eq_refl) as [items' (H1 & H2 & _)]; [cbn; lia|].
  exists items'. split; [exact H1 | exact H2].
Defined.

(** ** [set_id] *)

(** X14.  [set_id] on the root raises a [TypeError] (the name of its id
    attribute is [None]) and changes nothing.  On any other node it
    assigns the id, whatever its type, and leaves the class and the
    sublocation as they are; its outcome is that of the invariant of the
    node, which does not look at the id. *)
Theorem set_id_does_not_validate_the_id :
  forall (self : BaseDataclass) (_id : option ScopedLocationAttr),
    (class_of self = RootDataclass ->
     exists msg, set_id self _id = (Raise (TypeError msg), self))
    /\ (class_of self <> RootDataclass ->
        fst (set_id self _id) = _invariant self
        /\ get_id (snd (set_id self _id)) = _id
        /\ class_of (snd (set_id self _id)) = class_of self
        /\ get_sublocation (snd (set_id self _id)) = get_sublocation self).
Proof.
  intros [own sub] _id.
  destruct own as [|pn|cn mm|rn|bb tn|bb sn|mn tv hb]; split; intros H;
    try discriminate H; try (exfalso; apply H; reflexivity);
    try (eexists; reflexivity);
    repeat split; reflexivity.
Qed.

(** ** [as_named_odict] *)

Lemma dict_setitem_new {A} (items : list (option ScopedLocationAttr * A)) key v :
  ~ In key (map fst items) -> dict_setitem items key v = items ++ [(key, v)].
Proof.
  induction items as [|[k w] items IH]; simpl; intros H; [reflexivity|].
  destruct (py_eqb_spec k key) as [->|Hk]; [exfalso; apply H; left; reflexivity|].
  rewrite IH; [reflexivity|]. intros Hin. apply H. right. exact Hin.
Qed.

Lemma fold_left_dict_setitem_nodup (l : list BaseDataclass) :
  forall acc : list (option ScopedLocationAttr * BaseDataclass),
    NoDup (map fst acc ++ map get_id l) ->
    fold_left (fun d i => dict_setitem d (get_id i) i) l acc
    = acc ++ map (fun i => (get_id i, i)) l.
Proof.
  induction l as [|x l IH]; intros acc H; simpl.
  - rewrite app_nil_r. reflexivity.
  - rewrite dict_setitem_new.
    + rewrite IH.
      * rewrite <- app_assoc. reflexivity.
      * rewrite map_app. simpl. rewrite <- app_assoc. exact H.
    + simpl in H. apply NoDup_remove_2 in H. intros Hin. apply H.
      apply in_or_app. left. exact Hin.
Qed.

(** X15.  [as_named_odict] of one dataclass is the dictionary of that
    dataclass under its id; of a list of dataclasses with distinct ids,
    the pairs of id and dataclass in the order of the list; and a
    dataclass appended to the list is what its id maps to afterwards,
    the id keeping its position when it was a key already. *)
Theorem as_named_odict_is_keyed_by_id :
  (forall dc : BaseDataclass, as_named_odict (inl dc) = [(get_id dc, dc)])
  /\ (forall l : list BaseDataclass,
        NoDup (map get_id l) ->
        as_named_odict (inr l) = map (fun i => (get_id i, i)) l)
  /\ (forall (l : list BaseDataclass) (x : BaseDataclass),
        dict_getitem (as_named_odict (inr (l ++ [x]))) (get_id x) = Some x
        /\ map fst (as_named_odict (inr (l ++ [x])))
           = (if key_in (get_id x) (map fst (as_named_odict (inr l)))
              then map fst (as_named_odict (inr l))
              else map fst (as_named_odict (inr l)) ++ [get_id x])).
Proof.
  split; [reflexivity|]. split.
  - intros l H. unfold as_named_odict.
    rewrite fold_left_dict_setitem_nodup; [reflexivity | exact H].
  - intros l x. unfold as_named_odict. rewrite fold_left_app. simpl.
    split; [apply dict_getitem_setitem_same | apply map_fst_dict_setitem].
Qed.

(** ** Saving and loading in the in-memory repository *)

(** ** A node is found where it was stored *)

Lemma list_subscript_at_app {A B} (f : A -> result B) (items : list (pyval A)) w :
  list_subscript_at f (items ++ [w]) (List.length items) = subscript_value f w.
Proof. induction items as [|x items IH]; simpl; auto. Qed.

Section StoreThenGetitem.
(** [ps] is the scope of the parent of the stored node [n'], whose id
    is not a negative integer, and [a] a location that goes through the
    address of [n']: it has the coordinates of [ps] above the class of
    [n'] and the id of [n'] for that class. *)
Variables a ps : ScopedLocation.
Variable n' : BaseDataclass.
Variable v : ScopedLocationAttr.
Hypothesis Hid : get_id n' = Some v.
Hypothesis Hnonneg : forall z, v = AInt z -> (0 <= z)%Z.
Hypothesis Ha_last : loc_getitem a (class_of n') = Some v.
Hypothesis Hps_last : loc_getitem ps (class_of n') = None.
Hypothesis Hps_same :
  forall k, (depth_of k < depth_of (class_of n'))%nat ->
            loc_getitem ps k = loc_getitem a k.
Hypothesis Ha_prefix :
  forall k, (0 < depth_of k < depth_of (class_of n'))%nat ->
            loc_getitem a k <> None.

(** After a [store] that returns, indexing the parent goes through the
    stored node. *)
Lemma store_Ok_then_getitem own sub x :
  well_typed (klass_of own) (DC own sub) = true ->
  subdataclass (klass_of own) = Some (class_of n') ->
  fst (store (DC own sub) n') = Ok x ->
  getitem (snd (store (DC own sub) n')) a = getitem n' a.
Proof.
  intros Hwt Hsub Hst.
  destruct (well_typed_inv _ _ _ Hwt) as [_ Hch].
  specialize (Hch _ Hsub).
  unfold store in *. simpl class_of in *.
  destruct sub as [items|items]; destruct Hch as [Hmix Hch];
    rewrite Hmix in Hst |- *.
  - unfold store_ordered_dict. rewrite Hid. cbn [snd].
    rewrite getitem_eq. simpl class_of. rewrite Hsub, Ha_last.
    unfold get_sublocation_keys. simpl class_of. rewrite Hmix. simpl.
    rewrite key_in_dict_setitem. simpl.
    rewrite dict_subscript_setitem. reflexivity.
  - unfold store_list in *. rewrite Hid in *.
    destruct v as [s|z]; [discriminate Hst|].
    specialize (Hnonneg z eq_refl).
    unfold get_next_i, dc_len in *. simpl sublocation_len in *.
    assert (Hfound : forall items',
               (Z.to_nat z < List.length items')%nat ->
               list_subscript_at (fun subloc => getitem subloc a) items' (Z.to_nat z)
               = getitem n' a ->
               getitem (DC own (PyList items')) a = getitem n' a).
    { intros items' Hlt Hsubs.
      rewrite getitem_eq. simpl class_of. rewrite Hsub, Ha_last.
      unfold get_sublocation_keys. simpl class_of. rewrite Hmix.
      unfold dc_len. simpl get_sublocation. simpl sublocation_len. cbn [bind].
      assert (Hin : key_in (Some (AInt z))
                      (map (fun n => Some (AInt (Z.of_nat n)))
                           (seq 0 (List.length items'))) = true)
        by (apply key_in_range; exists z; split; [reflexivity | lia]).
      rewrite Hin. cbn [negb sublocation_subscript].
      rewrite list_position_in_range by lia. exact Hsubs. }
    destruct (Z.eqb_spec z (Z.of_nat (List.length items))) as [E|E].
    + cbn [snd]. apply Hfound.
      * rewrite length_app. simpl. lia.
      * replace (Z.to_nat z) with (List.length items) by lia.
        rewrite list_subscript_at_app. reflexivity.
    + destruct (Z.ltb_spec z (Z.of_nat (List.length items))) as [Hlt|Hge];
        [| discriminate Hst].
      unfold list_setitem in *.
      rewrite list_position_in_range in * by lia.
      cbn [snd]. apply Hfound.
      * rewrite length_list_set. lia.
      * rewrite list_subscript_at_set by lia. reflexivity.
Qed.

(** After [self[ps].store(n')] has returned, [self[a]] is [n'[a]]. *)
Lemma getitem_store_Ok_then_getitem :
  forall (d : nat) (t : BaseDataclass) (cls : klass)
         (x : option ScopedLocationAttr),
    (depth_of cls + d + 1 = depth_of (class_of n'))%nat ->
    well_typed cls t = true ->
    fst (getitem_store t ps n') = Ok x ->
    getitem (snd (getitem_store t ps n')) a = getitem n' a.
Proof.
  induction d as [|d IH]; intros [own sub] cls x Hdepth Hwt Hst.
  - destruct (well_typed_inv _ _ _ Hwt) as [Hcls _]. subst cls.
    destruct (subdataclass_exists (klass_of own)) as [k Hk];
      [pose proof (depth_of_le (class_of n')); lia|].
    assert (k = class_of n').
    { apply depth_of_inj. rewrite (subdataclass_depth _ _ Hk). lia. }
    subst k.
    rewrite getitem_store_eq in *. simpl class_of in *.
    rewrite Hk, Hps_last in *.
    eapply store_Ok_then_getitem; eauto.
  - destruct (well_typed_inv _ _ _ Hwt) as [Hcls Hch]. subst cls.
    destruct (subdataclass_exists (klass_of own)) as [k Hk];
      [pose proof (depth_of_le (class_of n')); lia|].
    specialize (Hch _ Hk).
    pose proof (subdataclass_depth _ _ Hk) as Hdk.
    assert (Hlt : (depth_of k < depth_of (class_of n'))%nat) by lia.
    destruct (loc_getitem a k) as [key|] eqn:Hkey;
      [| exfalso; apply (Ha_prefix k); [lia | exact Hkey] ].
    rewrite getitem_store_eq in *. simpl class_of in *.
    rewrite Hk, (Hps_same k Hlt), Hkey in *.
    unfold get_sublocation_keys in *. simpl class_of in *.
    simpl get_sublocation in *.
    destruct sub as [items|items]; destruct Hch as [Hmix Hch];
      rewrite Hmix in *; cbv iota beta in *.
    + destruct (key_in (Some key) (map fst items)) eqn:Hin;
        cbn [negb] in *; [| no_KeyError_returns].
      apply key_in_dict_getitem in Hin. destruct Hin as [w Hw].
      unfold sublocation_update in *.
      rewrite (dict_update_getitem _ items (Some key) w Hw) in *.
      cbn [fst snd] in *.
      destruct w as [|c|q]; simpl in Hst; try discriminate Hst.
      simpl update_value.
      destruct (getitem_store c ps n') as [r c'] eqn:Hc.
      cbn [fst snd] in *.
      rewrite getitem_eq. simpl class_of. rewrite Hk, Hkey.
      unfold get_sublocation_keys. simpl class_of. rewrite Hmix. simpl.
      rewrite key_in_dict_setitem. simpl.
      rewrite dict_subscript_setitem. simpl.
      replace c' with (snd (getitem_store c ps n')) by (rewrite Hc; reflexivity).
      apply (IH c k x); [lia | eapply Hch; eauto | rewrite Hc; exact Hst].
    + unfold dc_len in *. simpl sublocation_len in *.
      destruct (key_in (Some key) _) eqn:Hin; cbn [negb] in *;
        [| no_KeyError_returns].
      apply key_in_range in Hin. destruct Hin as [z [-> Hz]].
      unfold sublocation_update in *.
      rewrite list_position_in_range in * by lia.
      destruct (nth_error items (Z.to_nat z)) as [w|] eqn:Hw.
      2:{ apply nth_error_None in Hw. lia. }
      rewrite (list_update_at_nth _ items _ w Hw) in *.
      cbn [fst snd] in *.
      destruct w as [|c|q]; simpl in Hst; try discriminate Hst.
      simpl update_value.
      destruct (getitem_store c ps n') as [r c'] eqn:Hc.
      cbn [fst snd] in *.
      rewrite getitem_eq. simpl class_of. rewrite Hk, Hkey.
      unfold get_sublocation_keys. simpl class_of. rewrite Hmix.
      unfold dc_len. simpl get_sublocation. simpl sublocation_len.
      rewrite length_list_set. cbn [bind].
      assert (Hin : key_in (Some (AInt z))
                      (map (fun n => Some (AInt (Z.of_nat n)))
                           (seq 0 (List.length items))) = true)
        by (apply key_in_range; exists z; split; [reflexivity | lia]).
      rewrite Hin. cbn [negb]. unfold sublocation_subscript.
      rewrite length_list_set, list_position_in_range by lia.
      rewrite list_subscript_at_set by lia.
      simpl.
      replace c' with (snd (getitem_store c ps n')) by (rewrite Hc; reflexivity).
      apply (IH c k x); [lia | eapply Hch; eauto | rewrite Hc; exact Hst].
Qed.
End StoreThenGetitem.

(** From a scope without gap, the address [save] computes is the scope
    of the parent with the id of the dataclass. *)
Lemma save_scopes_no_gap n s ps a :
  class_of n <> RootDataclass ->
  save_check_scope n s = Ok ps ->
  prefix_invariant s = true ->
  loc_slice s (class_of n) = Ok a ->
  with_dc ps n = Ok a.
Proof.
  intros Hroot Hcheck Hinv Hslice.
  destruct n as [own sub].
  destruct own as [|[pn|]|[cn|] mm|[rn|]|b [tn|]|b [sn|]|[mn|] tv hb];
    [exfalso; apply Hroot; reflexivity | ..];
    destruct s as [[p|] [c|] [r|] [t|] [sp|] [m|]];
    cbn in Hinv; try discriminate Hinv;
    unfold save_check_scope, with_dc in *;
    cbn in Hcheck, Hslice |- *;
    try discriminate Hcheck;
    repeat match type of Hcheck with
           | context [attr_eqb ?x ?y] =>
               destruct (attr_eqb_spec x y); cbn in Hcheck;
               try discriminate Hcheck
           end;
    subst; injection Hcheck as <-; injection Hslice as <-; reflexivity.
Qed.

Lemma save_check_scope_root n s ps :
  class_of n = RootDataclass -> save_check_scope n s = Ok ps ->
  ps = ScopedLocation_empty /\ loc_slice s (class_of n) = Ok ScopedLocation_empty.
Proof.
  intros Hr. unfold save_check_scope. rewrite Hr. cbn.
  intros [= <-]. auto.
Qed.

Lemma class_not_root_depth cls : cls <> RootDataclass -> (0 < depth_of cls)%nat.
Proof. destruct cls; unfold depth_of; simpl; try lia. contradiction. Qed.

Lemma klass_eqb_false a b : a <> b -> klass_eqb a b = false.
Proof. intros H. destruct (klass_eqb_spec a b); [contradiction | reflexivity]. Qed.

(** The last statement of [save] for a dataclass below the root: when
    it returns, indexing the root by a location that goes through the
    address of the dataclass goes through the dataclass. *)
Lemma save_store_then_getitem repo n' s ps a x root' loc :
  well_typed RootDataclass (root repo) = true ->
  class_of n' <> RootDataclass ->
  (forall z, get_id n' = Some (AInt z) -> (0 <= z)%Z) ->
  save_check_scope n' s = Ok ps ->
  with_dc ps n' = Ok a ->
  loc_slice s (class_of n') = Ok a ->
  getitem_store (root repo) ps n' = (Ok x, root') ->
  (forall k, (depth_of k <= depth_of (class_of n'))%nat ->
             loc_getitem loc k = loc_getitem a k) ->
  getitem root' loc = getitem n' loc.
Proof.
  intros Hwt Hr Hnonneg Hcheck Hwith Hslice Hstore Hloc.
  destruct (save_scopes n' s ps a a Hr Hcheck Hwith Hslice)
    as [_ [v (Hid & Halast & Hpslast & Hsame & Hend & Hprefix)]].
  assert (Hnn : forall z, v = AInt z -> (0 <= z)%Z).
  { intros z ->. apply Hnonneg. exact Hid. }
  pose proof (class_not_root_depth _ Hr) as Hd.
  replace root' with (snd (getitem_store (root repo) ps n'))
    by (rewrite Hstore; reflexivity).
  apply (getitem_store_Ok_then_getitem loc ps n' v Hid Hnn) with
    (d := (depth_of (class_of n') - 1)%nat) (cls := RootDataclass) (x := x).
  - rewrite Hloc by lia. exact Halast.
  - exact Hpslast.
  - intros k Hk. rewrite Hloc by lia. apply Hsame. intros ->. lia.
  - intros k Hk. rewrite Hloc by lia. apply Hprefix. exact Hk.
  - unfold depth_of at 1. simpl. lia.
  - exact Hwt.
  - rewrite Hstore. reflexivity.
Qed.

(** X16.  In the in-memory repository, on a well-typed tree, after a
    [save] with [deep] that returns, of a dataclass whose id is not a
    negative integer under a scope without gap, [load] with [deep] at
    the address of the dataclass (the scope cut at its class) returns
    the dataclass, and indexing the root by any location that goes
    through that address gives what indexing the dataclass gives: the
    whole subtree is stored. *)
Theorem save_deep_then_load_returns_the_node :
  forall (now now' : datetime) (repo repo' : VanillaHyperparamsRepository)
         (n : BaseDataclass) (s a : ScopedLocation),
    well_typed RootDataclass (root repo) = true ->
    prefix_invariant s = true ->
    (forall z, get_id n = Some (AInt z) -> (0 <= z)%Z) ->
    save now repo n s true = (Ok tt, repo') ->
    loc_slice s (class_of n) = Ok a ->
    load now' repo' a true = Ok n
    /\ forall loc,
         (forall k, (depth_of k <= depth_of (class_of n))%nat ->
                    loc_getitem loc k = loc_getitem a k) ->
         getitem (root repo') loc = getitem n loc.
Proof.
  intros now now' repo repo' n s a Hwt Hinv Hnonneg Hsave Hslice.
  unfold save in Hsave.
  destruct (save_check_scope n s) as [ps|e] eqn:Hcheck; [|discriminate Hsave].
  cbn [negb] in Hsave.
  destruct (klass_eqb_spec (class_of n) RootDataclass) as [Hr|Hr].
  - injection Hsave as <-.
    destruct (save_check_scope_root n s ps Hr Hcheck) as [_ Ha].
    rewrite Ha in Hslice. injection Hslice as <-.
    split; [| intros loc _; reflexivity ].
    unfold load. cbn [root]. rewrite getitem_empty. reflexivity.
  - destruct (getitem_store (root repo) ps n) as [r0 root'] eqn:Hstore.
    destruct r0 as [x|e]; [|discriminate Hsave].
    injection Hsave as <-.
    pose proof (save_scopes_no_gap n s ps a Hr Hcheck Hinv Hslice) as Hwith.
    assert (G : forall loc,
               (forall k, (depth_of k <= depth_of (class_of n))%nat ->
                          loc_getitem loc k = loc_getitem a k) ->
               getitem root' loc = getitem n loc).
    { intros loc Hloc.
      apply (save_store_then_getitem repo n s ps a x root' loc
               Hwt Hr Hnonneg Hcheck Hwith Hslice Hstore Hloc). }
    split; [| exact G ].
    unfold load. cbn [root]. rewrite (G a) by reflexivity.
    destruct (save_scopes n s ps a a Hr Hcheck Hwith Hslice)
      as [_ [v (_ & _ & _ & _ & Hend & _)]].
    rewrite (getitem_stored_node a n Hend). reflexivity.
Qed.

Lemma save_deep_then_load_returns_the_node_witness :
  let repo := Vanilla_init "cache" in
  let trial := DC (TrialFields (mkTrialMixin (HyperparameterSamples []) SUCCESS
                                  1%Z 2%Z (Some 3%Z) "done")
                               (Some (AInt 0))) (PyList []) in
  let n := DC (RoundFields (Some (AInt 0))) (PyList [PyDC trial]) in
  let s := mkScopedLocation (Some (AStr DEFAULT_PROJECT)) (Some (AStr DEFAULT_CLIENT))
                            (Some (AInt 0)) None None None in
  let out := save 0%Z repo n s true in
  let below := mkScopedLocation (Some (AStr DEFAULT_PROJECT))
                                (Some (AStr DEFAULT_CLIENT))
                                (Some (AInt 0)) (Some (AInt 0)) None None in
  well_typed RootDataclass (root repo) = true
  /\ prefix_invariant s = true
  /\ save 0%Z repo n s true = (Ok tt, snd out)
  /\ loc_slice s (class_of n) = Ok s
  /\ load 5%Z (snd out) s true = Ok n
  /\ getitem (root (snd out)) below = Ok trial.
Proof.
  intros repo trial n s out below.
  split; [reflexivity|]. split; [reflexivity|].
  split; [reflexivity|]. split; [reflexivity|].
  assert (Hnonneg : forall z, get_id n = Some (AInt z) -> (0 <= z)%Z)
    by (intros z [= <-]; lia).
  destruct (save_deep_then_load_returns_the_node 0%Z 5%Z repo (snd out) n s s
              eq_refl eq_refl Hnonneg eq_refl eq_refl) as [H1 H2].
  split; [exact H1|].
  rewrite (H2 below); [reflexivity|].
  intros k Hk. destruct k; unfold depth_of in Hk; cbn in Hk; try lia; reflexivity.
Defined.

(** X17.  In the in-memory repository, on a well-typed tree, after a
    [save] without [deep] that returns, of a dataclass whose id is not a
    negative integer, [load] with [deep] at the address of the dataclass
    returns the own fields of the dataclass with the sublocation that
    [load] with [deep] returned at that address before the save: that of
    the record that was there, or of the new node built where there was
    none.  The children given with the dataclass are not stored. *)
Theorem save_shallow_then_load_returns_own_fields_and_old_children :
  forall (now now' : datetime) (repo repo' : VanillaHyperparamsRepository)
         (own : own_fields) (sub : sublocation BaseDataclass)
         (s a : ScopedLocation),
    well_typed RootDataclass (root repo) = true ->
    (forall z, get_id (DC own sub) = Some (AInt z) -> (0 <= z)%Z) ->
    save now repo (DC own sub) s false = (Ok tt, repo') ->
    loc_slice s (klass_of own) = Ok a ->
    exists prev,
      load now repo a true = Ok prev
      /\ load now' repo' a true = Ok (DC own (get_sublocation prev)).
Proof.
  intros now now' repo repo' own sub s a Hwt Hnonneg Hsave Hslice.
  unfold save in Hsave.
  destruct (save_check_scope (DC own sub) s) as [ps|e] eqn:Hcheck;
    [|discriminate Hsave].
  cbn [negb] in Hsave.
  destruct (save_reassign_sublocation now repo (DC own sub) ps) as [n'|e] eqn:Hre;
    [|discriminate Hsave].
  unfold save_reassign_sublocation in Hre. simpl class_of in *.
  destruct (klass_eqb_spec (klass_of own) RootDataclass) as [Hr|Hr].
  - cbn [bind] in Hre. unfold set_sublocation in Hre.
    destruct (_invariant _) in Hre; [|discriminate Hre].
    cbn [bind] in Hre. injection Hre as <-.
    simpl class_of in Hsave. rewrite Hr in Hsave. cbn in Hsave.
    injection Hsave as <-.
    destruct (save_check_scope_root (DC own sub) s ps Hr Hcheck) as [_ Ha].
    simpl class_of in Ha. rewrite Ha in Hslice. injection Hslice as <-.
    exists (root repo). unfold load. cbn [root]. rewrite !getitem_empty.
    split; reflexivity.
  - destruct (with_dc ps (DC own sub)) as [loc|e] eqn:Hwith; [|discriminate Hre].
    cbn [bind] in Hre.
    destruct (save_scopes (DC own sub) s ps loc a Hr Hcheck Hwith Hslice)
      as [-> _].
    destruct (load now repo a true) as [prev|e] eqn:Hload; [|discriminate Hre].
    cbn [bind] in Hre. unfold set_sublocation in Hre.
    destruct (_invariant _) in Hre; [|discriminate Hre].
    cbn [bind] in Hre. injection Hre as <-.
    exists prev. split; [reflexivity|].
    simpl class_of in Hsave. rewrite (klass_eqb_false _ _ Hr) in Hsave.
    destruct (getitem_store (root repo) ps (DC own (get_sublocation prev)))
      as [r0 root'] eqn:Hstore.
    destruct r0 as [x|e]; [|discriminate Hsave].
    injection Hsave as <-.
    unfold load at 1. cbn [root].
    rewrite (save_store_then_getitem repo (DC own (get_sublocation prev))
               s ps a x root' a Hwt Hr Hnonneg Hcheck Hwith Hslice Hstore)
      by reflexivity.
    destruct (save_scopes (DC own sub) s ps a a Hr Hcheck Hwith Hslice)
      as [_ [v (_ & _ & _ & _ & Hend & _)]].
    rewrite (getitem_stored_node a (DC own (get_sublocation prev)) Hend).
    reflexivity.
Qed.

Lemma save_shallow_then_load_returns_own_fields_and_old_children_witness :
  let repo := Vanilla_init "cache" in
  let own := ProjectFields (Some (AStr "other")) in
  let sub := OrderedDict [ (Some (AStr "mine"),
                            PyDC (ClientDataclass_init (Some (AStr "mine")))) ] in
  let s := mkScopedLocation (Some (AStr "other")) None None None None None in
  let out := save 0%Z repo (DC own sub) s false in
  well_typed RootDataclass (root repo) = true
  /\ save 0%Z repo (DC own sub) s false = (Ok tt, snd out)
  /\ loc_slice s (klass_of own) = Ok s
  /\ exists prev,
       load 0%Z repo s true = Ok prev
       /\ load 5%Z (snd out) s true = Ok (DC own (get_sublocation prev)).
Proof.
  intros repo own sub s out.
  split; [reflexivity|]. split; [reflexivity|]. split; [reflexivity|].
  apply (save_shallow_then_load_returns_own_fields_and_old_children
           0%Z 5%Z repo (snd out) own sub s s eq_refl);
    [intros z H; discriminate H | reflexivity | reflexivity].
Defined.

(** ** Saving below a node that raises *)

Section UpdateRaises.
Context {A B R : Type}.
Variable q : A -> bool.
Variable f : A -> result B.
Variable m : A -> result R * A.
Hypothesis Hfm : forall c e, q c = true -> f c = Raise e -> m c = (Raise e, c).

Lemma update_value_raises w e :
  pyval_all q w = true ->
  subscript_value f w = Raise e -> update_value m w = (Raise e, w).
Proof.
  destruct w as [|c|x]; simpl; intros Hq H.
  - injection H as <-. reflexivity.
  - rewrite (Hfm c e Hq H). reflexivity.
  - discriminate Hq.
Qed.

Lemma dict_update_raises items key e :
  forallb (fun kv => pyval_all q (snd kv)) items = true ->
  dict_subscript f items key = Raise e ->
  dict_update m items key = (Raise e, items).
Proof.
  induction items as [|[k w] items IH]; simpl.
  - intros _ [= <-]. reflexivity.
  - intros H. apply andb_prop in H. destruct H as [Hw Hrest].
    destruct (py_eqb k key).
    + intros Hs. rewrite (update_value_raises w e Hw Hs). reflexivity.
    + intros Hs. rewrite (IH Hrest Hs). reflexivity.
Qed.

Lemma list_update_at_raises items n e :
  forallb (pyval_all q) items = true ->
  list_subscript_at f items n = Raise e ->
  list_update_at m items n = (Raise e, items).
Proof.
  revert n. induction items as [|w items IH]; intros [|n]; simpl.
  - intros _ [= <-]. reflexivity.
  - intros _ [= <-]. reflexivity.
  - intros H. apply andb_prop in H. destruct H as [Hw _].
    intros Hs. rewrite (update_value_raises w e Hw Hs). reflexivity.
  - intros H. apply andb_prop in H. destruct H as [_ Hrest].
    intros Hs. rewrite (IH n Hrest Hs). reflexivity.
Qed.
End UpdateRaises.

(** Where [self[ps]] raises, [self[ps].store(dc)] raises the same
    exception and [self] is not mutated. *)
Lemma getitem_store_raises ps dc :
  forall (d : nat) (t : BaseDataclass) (cls : klass) (e : exn),
    (depth_of cls + d = 6)%nat ->
    well_typed cls t = true ->
    getitem t ps = Raise e ->
    getitem_store t ps dc = (Raise e, t).
Proof.
  induction d as [|d IH]; intros [own sub] cls e Hdepth Hwt Hget;
    pose proof Hwt as Hwt0;
    pose proof (well_typed_class _ _ Hwt) as Hcls; simpl in Hcls; subst cls;
    rewrite getitem_eq in Hget; rewrite getitem_store_eq;
    simpl class_of in *.
  - destruct own; unfold depth_of in Hdepth; simpl in Hdepth; try lia.
    simpl in Hget. discriminate Hget.
  - destruct (subdataclass (klass_of own)) as [k|] eqn:Hk; [|discriminate Hget].
    pose proof (subdataclass_depth _ _ Hk) as Hdk.
    destruct (loc_getitem ps k) as [key|]; [|discriminate Hget].
    destruct (get_sublocation_keys (DC own sub)) as [keys|e0];
      cbn [bind] in Hget; [| injection Hget as <-; reflexivity ].
    destruct (key_in (Some key) keys); cbn [negb] in *;
      [| rewrite (raise_KeyError_not_in_Raise _ _ Hget); reflexivity ].
    rewrite well_typed_eq, Hk in Hwt.
    apply andb_prop in Hwt. destruct Hwt as [_ Hwt].
    assert (Hm : forall c e0, well_typed k c = true ->
                   getitem c ps = Raise e0 ->
                   getitem_store c ps dc = (Raise e0, c)).
    { intros c e0 Hc He. apply (IH c k e0); [lia | exact Hc | exact He]. }
    simpl get_sublocation in *.
    unfold sublocation_subscript in Hget. unfold sublocation_update.
    destruct sub as [items|items]; apply andb_prop in Hwt;
      destruct Hwt as [_ Hall].
    + rewrite (dict_update_raises (well_typed k) _ _ Hm items (Some key) e Hall Hget).
      reflexivity.
    + destruct key as [x|i]; [injection Hget as <-; reflexivity|].
      destruct (list_position (List.length items) i) as [n|];
        [| injection Hget as <-; reflexivity ].
      rewrite (list_update_at_raises (well_typed k) _ _ Hm items n e Hall Hget).
      reflexivity.
Qed.

(** X18.  In the in-memory repository, on a well-typed tree, when
    indexing the root by the scope of the parent raises (no record at
    some coordinate: [KeyError]), [save] raises, with [deep] that same
    exception, and the repository is unchanged. *)
Theorem save_under_a_missing_parent_changes_nothing :
  forall (now : datetime) (repo : VanillaHyperparamsRepository)
         (n : BaseDataclass) (s ps : ScopedLocation) (deep : bool) (e : exn),
    well_typed RootDataclass (root repo) = true ->
    save_check_scope n s = Ok ps ->
    getitem (root repo) ps = Raise e ->
    (exists e', save now repo n s deep = (Raise e', repo))
    /\ save now repo n s true = (Raise e, repo).
Proof.
  intros now repo n s ps deep e Hwt Hcheck Hget.
  assert (Hr : class_of n <> RootDataclass).
  { intros Hr. destruct (save_check_scope_root n s ps Hr Hcheck) as [-> _].
    rewrite getitem_empty in Hget. discriminate Hget. }
  assert (Hrepo : {| cache_folder := cache_folder repo; root := root repo |} = repo)
    by (destruct repo; reflexivity).
  assert (Hlast : forall n', class_of n' = class_of n ->
            (if klass_eqb (class_of n') RootDataclass
             then (Ok tt, {| cache_folder := cache_folder repo; root := n' |})
             else
               let '(r, root') := getitem_store (root repo) ps n' in
               (_ <- r ;; Ok tt,
                {| cache_folder := cache_folder repo; root := root' |}))
            = (Raise e, repo)).
  { intros n' Hcls. rewrite Hcls, (klass_eqb_false _ _ Hr).
    rewrite (getitem_store_raises ps n' 6 (root repo) RootDataclass e eq_refl Hwt Hget).
    cbn [bind]. rewrite Hrepo. reflexivity. }
  assert (Hdeep : save now repo n s true = (Raise e, repo)).
  { unfold save. rewrite Hcheck. cbn [negb]. apply Hlast. reflexivity. }
  split; [|exact Hdeep].
  destruct deep; [exists e; exact Hdeep|].
  unfold save. rewrite Hcheck. cbn [negb].
  destruct (save_reassign_sublocation now repo n ps) as [n'|e'] eqn:Hre;
    [| exists e'; reflexivity ].
  exists e. apply Hlast.
  unfold save_reassign_sublocation in Hre.
  match type of Hre with
  | bind ?c _ = _ => destruct c as [prev|e']; [|discriminate Hre]
  end.
  cbn [bind] in Hre. apply set_sublocation_Ok in Hre. tauto.
Qed.

Lemma save_under_a_missing_parent_changes_nothing_witness :
  let repo := Vanilla_init "cache" in
  let n := RoundDataclass_init (Some (AInt 0)) in
  let s := mkScopedLocation (Some (AStr "other")) (Some (AStr DEFAULT_CLIENT))
                            (Some (AInt 0)) None None None in
  exists msg, save 0%Z repo n s true = (Raise (KeyError msg), repo).
Proof.
  intros repo n s. eexists.
  apply (proj2 (save_under_a_missing_parent_changes_nothing 0%Z repo n s
                  (mkScopedLocation (Some (AStr "other")) (Some (AStr DEFAULT_CLIENT))
                                    None None None None)
                  true _ eq_refl eq_refl eq_refl)).
Defined.

(** ** [from_root] *)

(** X19.  [from_root(root, cache_folder)] of a root dataclass returns a
    repository whose root is [root], from which [load] with [deep] of
    the empty scope returns [root]; of a dataclass of another class it
    raises a [ValueError]. *)
Theorem from_root_round_trip :
  forall (now now' : datetime) (r : BaseDataclass) (cache_folder : string),
    (class_of r = RootDataclass ->
     exists repo,
       from_root now r cache_folder = Ok repo
       /\ root repo = r
       /\ load now' repo ScopedLocation_empty true = Ok r)
    /\ (class_of r <> RootDataclass ->
        exists msg, from_root now r cache_folder = Raise (ValueError msg)).
Proof.
  intros now now' [own sub] cf. split.
  - intros Hr. simpl in Hr.
    destruct own; try discriminate Hr.
    eexists. split; [reflexivity|]. split; [reflexivity|].
    unfold load. cbn [root]. rewrite getitem_empty. reflexivity.
  - intros Hr. destruct own; try (exfalso; apply Hr; reflexivity);
      eexists; reflexivity.
Qed.

(** ** The class of what [load] returns *)

(** A scope without gap designates the class at the depth of its
    length. *)
Lemma scope_class s :
  prefix_invariant s = true ->
  exists cn,
    depth_of cn = ScopedLocation_len s
    /\ (forall k, subdataclass cn = Some k -> loc_getitem s k = None)
    /\ (forall k, (0 < depth_of k <= depth_of cn)%nat -> loc_getitem s k <> None).
Proof.
  destruct s as [[p|] [c|] [r|] [t|] [sp|] [m|]]; cbn; intros H;
    try discriminate H;
    [ exists MetricResultsDataclass | exists TrialSplitDataclass
    | exists TrialDataclass | exists RoundDataclass | exists ClientDataclass
    | exists ProjectDataclass | exists RootDataclass ];
    (split; [reflexivity|]);
    (split; [intros k Hk; destruct k; cbn in Hk; try discriminate Hk; reflexivity|]);
    intros k [Hk0 Hk1]; destruct k; unfold depth_of in Hk0, Hk1;
    cbn in Hk0, Hk1; try lia; discriminate.
Qed.

Lemma new_dataclass_from_id_typed now s r :
  new_dataclass_from_id now s = Ok r ->
  depth_of (class_of r) = ScopedLocation_len s
  /\ well_typed (class_of r) r = true.
Proof.
  destruct s as [[p|] [c|] [rn|] [t|] [sp|] [m|]]; cbn; intros H;
    try discriminate H; injection H as <-; split; reflexivity.
Qed.

Lemma forallb_placeholders_typed {A} (subcls : klass)
    (items : list (option ScopedLocationAttr * A)) :
  forallb (fun kv => child_well_typed subcls (snd kv))
          (map (fun kv => (fst kv, PyNone)) items) = true.
Proof. induction items as [|[k v] items IH]; simpl; auto. Qed.

Lemma forallb_repeat_placeholders (subcls : klass) n :
  forallb (child_well_typed subcls) (repeat PyNone n) = true.
Proof. induction n; simpl; auto. Qed.

Lemma shallow_well_typed cls t s :
  well_typed cls t = true -> shallow t = Ok s -> well_typed cls s = true.
Proof.
  destruct t as [own sub]. intros Hwt Hsh.
  pose proof (well_typed_class _ _ Hwt) as Hcls. simpl in Hcls.
  rewrite well_typed_eq in Hwt. apply andb_prop in Hwt. destruct Hwt as [Hk Hwt].
  unfold shallow, set_sublocation in Hsh. simpl class_of in Hsh.
  simpl get_sublocation in Hsh. rewrite Hcls in Hsh.
  destruct (has_ordered_dict_mixin cls) eqn:Hmix.
  - destruct sub as [items|items]; [|discriminate Hsh].
    cbv iota beta in Hsh.
    destruct (_invariant _) in Hsh; [|discriminate Hsh].
    cbn [bind] in Hsh. injection Hsh as <-.
    rewrite well_typed_eq, Hk. cbn [andb].
    destruct (subdataclass cls); [|reflexivity].
    rewrite Hmix. cbn [andb]. apply forallb_placeholders_typed.
  - cbv iota beta in Hsh.
    destruct (_invariant _) in Hsh; [|discriminate Hsh].
    cbn [bind] in Hsh. injection Hsh as <-.
    rewrite well_typed_eq, Hk. cbn [andb].
    destruct (subdataclass cls); [|reflexivity].
    rewrite Hmix. cbn [andb negb]. apply forallb_repeat_placeholders.
Qed.

Lemma _invariant_raises self e :
  _invariant self = Raise e -> exists msg, e = ValueError msg.
Proof.
  destruct self as [own sub]. unfold _invariant.
  destruct (has_ordered_dict_mixin (klass_of own)), sub as [items|items];
    try discriminate; try (intros [= <-]; eexists; reflexivity).
  destruct (negb _); [intros [= <-]; eexists; reflexivity|].
  destruct (negb _); [intros [= <-]; eexists; reflexivity | discriminate].
Qed.

Lemma shallow_raises t e :
  shallow t = Raise e ->
  (exists msg, e = ValueError msg) \/ (exists msg, e = AttributeError msg).
Proof.
  destruct t as [own sub]. unfold shallow, set_sublocation.
  simpl class_of. simpl get_sublocation.
  destruct (has_ordered_dict_mixin (klass_of own)).
  - destruct sub as [items|items];
      [| intros [= <-]; right; eexists; reflexivity ].
    cbv iota beta. destruct (_invariant _) eqn:H; [discriminate|].
    cbn [bind]. intros [= <-]. left. eapply _invariant_raises; eauto.
  - cbv iota beta. destruct (_invariant _) eqn:H; [discriminate|].
    cbn [bind]. intros [= <-]. left. eapply _invariant_raises; eauto.
Qed.

(** X20.  In the in-memory repository, on a well-typed tree, what
    [load] returns for a scope without gap is a well-typed dataclass of
    the class at the depth of the length of the scope, with or without
    [deep], whether a record was there or not. *)
Theorem load_returns_a_node_of_the_class_of_the_scope :
  forall (now : datetime) (repo : VanillaHyperparamsRepository)
         (s : ScopedLocation) (deep : bool) (r : BaseDataclass),
    well_typed RootDataclass (root repo) = true ->
    prefix_invariant s = true ->
    load now repo s deep = Ok r ->
    depth_of (class_of r) = ScopedLocation_len s
    /\ well_typed (class_of r) r = true.
Proof.
  intros now repo s deep r Hwt Hinv Hload.
  unfold load in Hload.
  destruct (getitem (root repo) s) as [old|e] eqn:Hget; cbn [bind] in Hload.
  - destruct (scope_class s Hinv) as [cn (Hdepth & Hend & Hprefix)].
    assert (Hold : well_typed cn old = true).
    { apply (getitem_well_typed s cn Hend Hprefix (depth_of cn) (root repo)
               RootDataclass old); auto. }
    assert (Hr : well_typed cn r = true).
    { destruct deep; cbn [negb] in Hload; cbv beta iota in Hload.
      - injection Hload as <-. exact Hold.
      - destruct (shallow old) as [sh|e] eqn:Hsh.
        + injection Hload as <-. apply (shallow_well_typed cn old sh Hold Hsh).
        + destruct (shallow_raises old e Hsh) as [[msg ->] | [msg ->]];
            discriminate Hload. }
    rewrite (well_typed_class _ _ Hr). split; [exact Hdepth | exact Hr].
  - destruct e; try discriminate Hload.
    apply (new_dataclass_from_id_typed now s r Hload).
Qed.

Lemma load_returns_a_node_of_the_class_of_the_scope_witness :
  let repo := Vanilla_init "cache" in
  let s := mkScopedLocation (Some (AStr DEFAULT_PROJECT)) (Some (AStr DEFAULT_CLIENT))
                            None None None None in
  let r := ClientDataclass_init (Some (AStr DEFAULT_CLIENT)) in
  well_typed RootDataclass (root repo) = true
  /\ prefix_invariant s = true
  /\ load 0%Z repo s false = Ok r
  /\ depth_of (class_of r) = ScopedLocation_len s
  /\ well_typed (class_of r) r = true.
Proof.
  intros repo s r.
  split; [reflexivity|]. split; [reflexivity|]. split; [reflexivity|].
  exact (load_returns_a_node_of_the_class_of_the_scope 0%Z repo s false r
           eq_refl eq_refl eq_refl).
Defined.

(** X21.  In the in-memory repository, on a well-typed tree, a [save]
    without [deep] of a dataclass whose id is not a negative integer
    loses no key of the whole tree and leaves the tree well typed,
    whatever the dataclass, the scope and the outcome of the save. *)
Theorem save_shallow_loses_no_key_of_a_well_typed_tree :
  forall (now : datetime) (repo repo' : VanillaHyperparamsRepository)
         (n : BaseDataclass) (s : ScopedLocation) (r : result unit),
    well_typed RootDataclass (root repo) = true ->
    (forall z, get_id n = Some (AInt z) -> (0 <= z)%Z) ->
    save now repo n s false = (r, repo') ->
    incl (descendant_keys (root repo)) (descendant_keys (root repo'))
    /\ well_typed RootDataclass (root repo') = true.
Proof.
  intros now repo repo' n s r Hwt Hnonneg Hsave. split.
  - apply (save_keeps_all_keys now repo n s r repo'); auto.
  - apply (save_well_typed now repo n s false r repo' Hwt); [|exact Hsave].
    intros H. discriminate H.
Qed.

Lemma save_shallow_loses_no_key_of_a_well_typed_tree_witness :
  let repo := Vanilla_init "cache" in
  let n := ProjectDataclass_init (Some (AStr "p")) in
  let s := mkScopedLocation (Some (AStr "p")) None None None None None in
  let out := save 0%Z repo n s false in
  well_typed RootDataclass (root repo) = true
  /\ fst out = Ok tt
  /\ incl (descendant_keys (root repo)) (descendant_keys (root (snd out)))
  /\ well_typed RootDataclass (root (snd out)) = true.
Proof.
  intros repo n s out.
  split; [reflexivity|]. split; [reflexivity|].
  apply (save_shallow_loses_no_key_of_a_well_typed_tree 0%Z repo (snd out) n s
           (fst out) eq_refl).
  - intros z H. discriminate H.
  - reflexivity.
Defined.

(** ** Folders and records of the on-disk repository *)

Lemma has_separator_segment (t : string) :
  has_separator (ON_DISK_DELIM ++ t)%string = has_separator t.
Proof. reflexivity. Qed.

Lemma no_separator_segments (l : list ScopedLocationAttr) :
  forallb (fun seg => negb (has_separator seg))
          (map (fun t => (ON_DISK_DELIM ++ t)%string) (map str l))
  = forallb (fun a => negb (has_separator (str a))) l.
Proof.
  induction l as [|a l IH]; [reflexivity|].
  cbn [map forallb]. rewrite IH, has_separator_segment. reflexivity.
Qed.

(** X22.  For a scope [s.with_id(x)] whose coordinates hold no path
    separator, the folder is the folder of [s] followed by the
    delimiter and [str(x)]: it lies directly in the folder of [s], under
    a name that starts with the delimiter; the folder has one segment
    for each coordinate of the scope, no segment holds a separator, and
    the log file of the scope lies in the folder of the scope. *)
Theorem child_scope_folder_is_in_parent_folder :
  forall (s s' : ScopedLocation) (x : ScopedLocationAttr),
    with_id s x = Ok s' ->
    no_separator s' = true ->
    get_folder_at_scope s' = get_folder_at_scope s ++ [(ON_DISK_DELIM ++ str x)%string]
    /\ dirname (get_folder_at_scope s') = get_folder_at_scope s
    /\ String.prefix ON_DISK_DELIM (ON_DISK_DELIM ++ str x)%string = true
    /\ List.length (get_folder_at_scope s') = ScopedLocation_len s'
    /\ forallb (fun seg => negb (has_separator seg)) (get_folder_at_scope s') = true
    /\ dirname (get_scoped_logger_path s') = get_folder_at_scope s'.
Proof.
  intros s s' x H Hsep.
  assert (Hlist : as_list s' = as_list s ++ [x]).
  { destruct s as [[a|] [b|] [c|] [d|] [e|] [f|]]; cbn in H;
      try discriminate H; injection H as <-; reflexivity. }
  assert (Hfolder : get_folder_at_scope s'
                    = get_folder_at_scope s ++ [(ON_DISK_DELIM ++ str x)%string]).
  { unfold get_folder_at_scope. rewrite Hlist, !map_app. reflexivity. }
  split; [exact Hfolder|].
  split; [rewrite Hfolder; apply dirname_file|].
  split; [unfold ON_DISK_DELIM; simpl; destruct (str x); reflexivity|].
  split.
  { unfold get_folder_at_scope, ScopedLocation_len.
    rewrite !length_map. reflexivity. }
  split.
  { unfold get_folder_at_scope. cbv zeta.
    rewrite no_separator_segments. exact Hsep. }
  unfold get_scoped_logger_path. apply dirname_file.
Qed.

Lemma child_scope_folder_is_in_parent_folder_witness :
  let s := mkScopedLocation (Some (AStr "default_project"))
                            (Some (AStr "default_client")) None None None None in
  let s' := mkScopedLocation (Some (AStr "default_project"))
                             (Some (AStr "default_client")) (Some (AInt 12))
                             None None None in
  with_id s (AInt 12) = Ok s'
  /\ no_separator s' = true
  /\ get_folder_at_scope s' = ["_default_project"; "_default_client"; "_12"].
Proof.
  intros s s'. split; [reflexivity|]. split; [reflexivity|].
  rewrite (proj1 (child_scope_folder_is_in_parent_folder s s' (AInt 12)
                    eq_refl eq_refl)).
  reflexivity.
Defined.

(** ** Records of the on-disk repository *)

Lemma path_eqb_spec p q : reflect (p = q) (path_eqb p q).
Proof.
  unfold path_eqb. destruct (list_eq_dec string_dec p q); constructor; assumption.
Qed.

Lemma is_dir_In fs p : is_dir fs p = true <-> In p (directories fs).
Proof.
  unfold is_dir. rewrite existsb_exists. split.
  - intros [q [Hq E]]. destruct (path_eqb_spec p q); [subst; exact Hq | discriminate].
  - intros H. exists p. split; [exact H|].
    destruct (path_eqb_spec p p); congruence.
Qed.

Lemma in_fold_add_dir ps : forall dirs q,
  In q (fold_left add_dir ps dirs) <-> In q dirs \/ In q ps.
Proof.
  induction ps as [|p ps IH]; intros dirs q; simpl.
  - tauto.
  - rewrite IH. unfold add_dir.
    destruct (existsb (path_eqb p) dirs) eqn:E.
    + apply existsb_exists in E. destruct E as [p' [Hp' E]].
      destruct (path_eqb_spec p p'); [subst p' | discriminate].
      split; [tauto|]. intros [H | [<- | H]]; auto.
    + rewrite in_app_iff. simpl. tauto.
Qed.

Lemma in_prefixes_self p : In p (prefixes p).
Proof.
  induction p as [|x p IH]; simpl; [left; reflexivity|].
  right. apply in_map. exact IH.
Qed.

Lemma prefixes_length p q : In q (prefixes p) -> (List.length q <= List.length p)%nat.
Proof.
  revert q. induction p as [|x p IH]; intros q; simpl.
  - intros [<- | []]. simpl. lia.
  - intros [<- | H]; [simpl; lia|].
    apply in_map_iff in H. destruct H as [q' [<- Hq']].
    simpl. specialize (IH q' Hq'). lia.
Qed.

Lemma not_in_prefixes_longer (folder : path) (name : string) :
  ~ In (folder ++ [name]) (prefixes folder).
Proof.
  intros H. apply prefixes_length in H. rewrite length_app in H. simpl in H. lia.
Qed.

Lemma file_content_set_file_same l p c : file_content (set_file l p c) p = Some c.
Proof.
  induction l as [|[q d] l IH]; simpl.
  - destruct (path_eqb_spec p p); congruence.
  - destruct (path_eqb q p) eqn:E; simpl; rewrite E; auto.
Qed.

Lemma file_content_set_file_other l p c q :
  q <> p -> file_content (set_file l p c) q = file_content l q.
Proof.
  intros Hne. induction l as [|[r d] l IH]; simpl.
  - destruct (path_eqb_spec p q); [congruence | reflexivity].
  - destruct (path_eqb_spec r p) as [->|Hr]; simpl.
    + destruct (path_eqb_spec p q); [congruence | reflexivity].
    + destruct (path_eqb r q); auto.
Qed.

(** The write of a record whose text cannot be computed changes no
    other file, whatever its outcome. *)
Lemma write_record_of_no_text_frame fs folder name e r fs' :
  write_record fs folder (folder ++ [name]) (Raise e) = (r, fs') ->
  forall p, p <> folder ++ [name] ->
            file_content (files fs') p = file_content (files fs) p.
Proof.
  unfold write_record, makedirs.
  destruct (existsb (is_file fs) (prefixes folder));
    [intros [= _ <-] p _; reflexivity|].
  unfold write_file. cbn [directories files].
  match goal with
  | |- context [is_dir ?f (folder ++ [name])] =>
      destruct (is_dir f (folder ++ [name]));
        [intros [= _ <-] p _; reflexivity|]
  end.
  match goal with
  | |- context [is_dir ?f (dirname (folder ++ [name]))] =>
      destruct (is_dir f (dirname (folder ++ [name]))); cbn [negb];
        [|intros [= _ <-] p _; reflexivity]
  end.
  intros [= _ <-] p Hp. cbn [files].
  apply file_content_set_file_other. exact Hp.
Qed.

(** Where the folder can be made and the record opened, the write of a
    record whose text cannot be computed leaves the record empty. *)
Lemma write_record_of_no_text_empties fs folder name e :
  existsb (is_file fs) (prefixes folder) = false ->
  is_dir fs (folder ++ [name]) = false ->
  exists fs',
    write_record fs folder (folder ++ [name]) (Raise e) = (Raise e, fs')
    /\ is_dir fs' folder = true
    /\ read_file fs' (folder ++ [name]) = Ok EmptyString.
Proof.
  intros Hfiles Hnd.
  set (fs1 := {| directories := fold_left add_dir (prefixes folder) (directories fs);
                 files := files fs |}).
  assert (Hd_file : is_dir fs1 (folder ++ [name]) = false).
  { destruct (is_dir fs1 (folder ++ [name])) eqn:E; [|reflexivity].
    apply is_dir_In in E. unfold fs1 in E. cbn [directories] in E.
    apply in_fold_add_dir in E. destruct E as [E | E].
    - apply is_dir_In in E. congruence.
    - exfalso. exact (not_in_prefixes_longer folder name E). }
  assert (Hd_folder : is_dir fs1 folder = true).
  { apply is_dir_In. unfold fs1. cbn [directories].
    apply in_fold_add_dir. right. apply in_prefixes_self. }
  exists {| directories := directories fs1;
            files := set_file (files fs1) (folder ++ [name]) EmptyString |}.
  split; [|split].
  - unfold write_record, makedirs. rewrite Hfiles. fold fs1.
    unfold write_file. rewrite Hd_file, dirname_file, Hd_folder. reflexivity.
  - exact Hd_folder.
  - unfold read_file. cbn [files]. rewrite file_content_set_file_same.
    reflexivity.
Qed.

(** X23.  With the methods as the source has them, no [save] of the
    on-disk repository returns, with or without [deep]: every call
    raises.  For a dataclass whose id is set it is the [AttributeError]
    of [scope.at_dc], raised before anything is written: the cache
    folder is left as it was.  In every case no file other than the
    record of the scope the call was given is changed.  (The scope holds
    no path separator, so that its folder is the list of its
    segments.) *)
Theorem OnDisk_save_never_returns :
  forall (has_sublocation_dataclasses : BaseDataclass -> bool)
         (to_json : BaseDataclass -> result string)
         (fs : FileSystem) (n : BaseDataclass) (s : ScopedLocation) (deep : bool),
    no_separator s = true ->
    exists (e : exn) (fs' : FileSystem),
      OnDisk_save ScopedLocation_at_dc has_sublocation_dataclasses
        (dump_empty_record to_json) fs n s deep
      = (Raise e, fs')
      /\ (get_id n <> None -> e = AttributeError "at_dc" /\ fs' = fs)
      /\ (forall p, p <> get_folder_at_scope s ++ ["metadata.json"] ->
                    file_content (files fs') p = file_content (files fs) p).
Proof.
  intros has_sub to_json fs n s deep _. unfold OnDisk_save.
  destruct (get_id n) as [v|] eqn:Hid.
  - exists (AttributeError "at_dc"), fs.
    split; [apply (_save_dc_with_id has_sub _ n s deep fs v Hid)|].
    split; [intros _; split; reflexivity|]. intros p _. reflexivity.
  - rewrite (_save_dc_no_id ScopedLocation_at_dc has_sub to_json n s deep fs Hid).
    destruct (write_record_of_no_text fs (get_folder_at_scope s)
                (get_folder_at_scope s ++ ["metadata.json"])
                (AttributeError "empty")) as [e [fs' Hw]].
    exists e, fs'. split; [exact Hw|].
    split; [intros H; exfalso; apply H; reflexivity|].
    exact (write_record_of_no_text_frame fs _ _ _ _ fs' Hw).
Qed.

Lemma OnDisk_save_never_returns_witness :
  let n := ProjectDataclass_init (Some (AStr "p")) in
  let s := mkScopedLocation (Some (AStr "p")) None None None None None in
  let fs := mkFS [[]] [(["metadata.json"], "{}")] in
  no_separator s = true
  /\ exists (e : exn) (fs' : FileSystem),
       OnDisk_save ScopedLocation_at_dc (fun _ => true)
         (dump_empty_record (fun _ => Ok "{}")) fs n s true
       = (Raise e, fs')
       /\ e = AttributeError "at_dc" /\ fs' = fs.
Proof.
  intros n s fs. split; [reflexivity|].
  destruct (OnDisk_save_never_returns (fun _ => true) (fun _ => Ok "{}")
              fs n s true eq_refl) as [e [fs' (Hsave & Hid & _)]].
  exists e, fs'. split; [exact Hsave|].
  apply Hid. discriminate.
Defined.

(** X24.  The [save] of a dataclass whose id is unset, such as the new
    root that the constructor of the on-disk repository saves, where the
    folder of the scope can be made and its record opened: the folder
    is made, the record is opened for writing, and the call raises the
    [AttributeError] of [_dataclass.empty()]; the record of the scope is
    left empty, whatever it held, and no other file is changed.  This
    holds with or without [deep], whatever [at_dc] does. *)
Theorem OnDisk_save_without_id_empties_the_record :
  forall (at_dc : ScopedLocation -> BaseDataclass -> result ScopedLocation)
         (has_sublocation_dataclasses : BaseDataclass -> bool)
         (to_json : BaseDataclass -> result string)
         (fs : FileSystem) (n : BaseDataclass) (s : ScopedLocation) (deep : bool),
    get_id n = None ->
    no_separator s = true ->
    existsb (is_file fs) (prefixes (get_folder_at_scope s)) = false ->
    is_dir fs (get_folder_at_scope s ++ ["metadata.json"]) = false ->
    exists fs' : FileSystem,
      OnDisk_save at_dc has_sublocation_dataclasses (dump_empty_record to_json)
        fs n s deep
      = (Raise (AttributeError "empty"), fs')
      /\ is_dir fs' (get_folder_at_scope s) = true
      /\ read_file fs' (get_folder_at_scope s ++ ["metadata.json"]) = Ok EmptyString
      /\ (forall p, p <> get_folder_at_scope s ++ ["metadata.json"] ->
                    file_content (files fs') p = file_content (files fs) p).
Proof.
  intros at_dc has_sub to_json fs n s deep Hid _ Hfiles Hnd.
  destruct (write_record_of_no_text_empties fs (get_folder_at_scope s)
              "metadata.json" (AttributeError "empty") Hfiles Hnd)
    as [fs' (Hw & Hdir & Hread)].
  exists fs'. unfold OnDisk_save.
  rewrite (_save_dc_no_id at_dc has_sub to_json n s deep fs Hid).
  split; [exact Hw|]. split; [exact Hdir|]. split; [exact Hread|].
  exact (write_record_of_no_text_frame fs _ _ _ _ fs' Hw).
Qed.

Lemma OnDisk_save_without_id_empties_the_record_witness :
  let fs := mkFS [[]; ["_p"]]
                 [(["metadata.json"], "{}"); (["_p"; "metadata.json"], "{}")] in
  get_id RootDataclass_init = None
  /\ read_file fs ["metadata.json"] = Ok "{}"
  /\ exists fs' : FileSystem,
       OnDisk_save ScopedLocation_at_dc (fun _ => true)
         (dump_empty_record (fun _ => Ok "{}")) fs RootDataclass_init
         ScopedLocation_empty true
       = (Raise (AttributeError "empty"), fs')
       /\ read_file fs' ["metadata.json"] = Ok EmptyString
       /\ read_file fs' ["_p"; "metadata.json"] = Ok "{}".
Proof.
  intros fs. split; [reflexivity|]. split; [reflexivity|].
  destruct (OnDisk_save_without_id_empties_the_record ScopedLocation_at_dc
              (fun _ => true) (fun _ => Ok "{}") fs RootDataclass_init
              ScopedLocation_empty true eq_refl eq_refl eq_refl eq_refl)
    as [fs' (Hsave & _ & Hread & Hother)].
  exists fs'. split; [exact Hsave|]. split; [exact Hread|].
  unfold read_file. rewrite (Hother ["_p"; "metadata.json"]); [reflexivity|].
  discriminate.
Defined.

(** ** Loading where no record is *)

(** X25.  Where the record file of a scope does not exist, [load] of
    the on-disk repository is [new_dataclass_from_id] of the scope,
    whatever [deep] and the methods absent from the source are; for the
    empty scope this is an [IndexError]. *)
Theorem OnDisk_load_absent_record_builds_a_new_node :
  forall (JSON : Type) (json_loads : string -> option JSON)
         (at_dc : ScopedLocation -> BaseDataclass -> result ScopedLocation)
         (has_sublocation_dataclasses : BaseDataclass -> bool)
         (set_sublocation_keys :
            BaseDataclass -> list (option ScopedLocationAttr) -> result BaseDataclass)
         (now : datetime) (fs : FileSystem) (scope : ScopedLocation) (deep : bool),
    path_exists fs (get_folder_at_scope scope ++ ["metadata.json"]) = false ->
    OnDisk_load json_loads at_dc has_sublocation_dataclasses set_sublocation_keys
      now fs scope deep
    = new_dataclass_from_id now scope
    /\ (as_list scope = [] ->
        exists msg,
          OnDisk_load json_loads at_dc has_sublocation_dataclasses
            set_sublocation_keys now fs scope deep
          = Raise (IndexError msg)).
Proof.
  intros JSON json_loads at_dc has_sub set_keys now fs scope deep Habsent.
  assert (E : OnDisk_load json_loads at_dc has_sub set_keys now fs scope deep
              = new_dataclass_from_id now scope).
  { unfold OnDisk_load. cbn [_load_dc _get_dataclass_filename_path
                             _patch_scope_for_dataclass bind].
    unfold _load_json_file. rewrite Habsent. reflexivity. }
  split; [exact E|].
  intros Hnil. rewrite E. unfold new_dataclass_from_id. rewrite Hnil.
  eexists. reflexivity.
Qed.

Lemma OnDisk_load_absent_record_builds_a_new_node_witness :
  let scope := mkScopedLocation (Some (AStr "p")) (Some (AStr "c")) (Some (AInt 4))
                                None None None in
  path_exists (mkFS [] []) (get_folder_at_scope scope ++ ["metadata.json"]) = false
  /\ OnDisk_load (fun _ : string => @None unit) spec_at_dc
       spec_has_sublocation_dataclasses spec_set_sublocation_keys
       0%Z (mkFS [] []) scope true
     = Ok (RoundDataclass_init (Some (AInt 4))).
Proof.
  intros scope. split; [reflexivity|].
  rewrite (proj1 (OnDisk_load_absent_record_builds_a_new_node unit
                    (fun _ => None) spec_at_dc spec_has_sublocation_dataclasses
                    spec_set_sublocation_keys 0%Z (mkFS [] []) scope true eq_refl)).
  reflexivity.
Defined.

(** ** Keys read back from the names of the folders *)

Lemma int_str_round_trip (i : Z) : int (str (AInt i)) = Ok i.
Proof.
  unfold int, str.
  assert (Hnorm : Decimal.norm (Z.to_int i) = Z.to_int i).
  { rewrite <- (DecimalZ.to_of (Z.to_int i)), DecimalZ.of_to. reflexivity. }
  rewrite NilZero.isi.
  - rewrite DecimalZ.of_to. reflexivity.
  - intros E. rewrite E in Hnorm. discriminate Hnorm.
  - intros E. rewrite E in Hnorm. discriminate Hnorm.
Qed.

Lemma map_int_str (ids : list Z) :
  map_int (map (fun i => str (AInt i)) ids) = Ok ids.
Proof.
  induction ids as [|i ids IH]; cbn [map map_int]; [reflexivity|].
  rewrite int_str_round_trip. cbn [bind]. rewrite IH. reflexivity.
Qed.

Lemma substring_all (s : string) : substring 0 (String.length s) s = s.
Proof. induction s as [|c s IH]; simpl; congruence. Qed.

Lemma strip_delim (s : string) :
  substring (String.length ON_DISK_DELIM)
            (String.length (ON_DISK_DELIM ++ s) - String.length ON_DISK_DELIM)
            (ON_DISK_DELIM ++ s) = s.
Proof.
  unfold ON_DISK_DELIM. simpl. rewrite Nat.sub_0_r. apply substring_all.
Qed.

Lemma prefix_delim (s : string) : String.prefix ON_DISK_DELIM (ON_DISK_DELIM ++ s) = true.
Proof. unfold ON_DISK_DELIM. simpl. destruct s; reflexivity. Qed.

Lemma filter_delim (names others : list string) :
  Forall (fun s => String.prefix ON_DISK_DELIM s = false) others ->
  filter (String.prefix ON_DISK_DELIM)
         (map (fun s => (ON_DISK_DELIM ++ s)%string) names ++ others)
  = map (fun s => (ON_DISK_DELIM ++ s)%string) names.
Proof.
  intros Hothers. rewrite filter_app.
  assert (H1 : filter (String.prefix ON_DISK_DELIM)
                      (map (fun s => (ON_DISK_DELIM ++ s)%string) names)
               = map (fun s => (ON_DISK_DELIM ++ s)%string) names).
  { induction names as [|x names IH]; cbn [map filter]; [reflexivity|].
    rewrite prefix_delim, IH. reflexivity. }
  assert (H2 : filter (String.prefix ON_DISK_DELIM) others = []).
  { induction Hothers as [|x others Hx _ IH]; simpl; [reflexivity|].
    rewrite Hx. exact IH. }
  rewrite H1, H2, app_nil_r. reflexivity.
Qed.

Lemma filter_Permutation {A} (f : A -> bool) (l l' : list A) :
  Permutation l l' -> Permutation (filter f l) (filter f l').
Proof.
  induction 1 as [|x l l' _ IH|x y l|l l' l'' _ IH1 _ IH2]; simpl.
  - constructor.
  - destruct (f x); [constructor|]; exact IH.
  - destruct (f x), (f y); try apply Permutation_refl. constructor.
  - eapply Permutation_trans; eauto.
Qed.

Lemma insert_sorted_Permutation x l : Permutation (insert_sorted x l) (x :: l).
Proof.
  induction l as [|y l IH]; simpl; [apply Permutation_refl|].
  destruct (String.leb x y); [apply Permutation_refl|].
  eapply Permutation_trans; [apply perm_skip; exact IH | apply perm_swap].
Qed.

Lemma sorted_Permutation l : Permutation (sorted l) l.
Proof.
  induction l as [|x l IH]; simpl; [constructor|].
  eapply Permutation_trans; [apply insert_sorted_Permutation|].
  constructor. exact IH.
Qed.

(** The names that [_load_dc_sublocation_keys] keeps of a listing that
    holds the folders of [names] and entries that do not start with the
    delimiter. *)
Lemma stripped_names_Permutation (names others listing : list string) :
  Forall (fun s => String.prefix ON_DISK_DELIM s = false) others ->
  Permutation listing (map (fun s => (ON_DISK_DELIM ++ s)%string) names ++ others) ->
  Permutation
    (sorted (map (fun s => substring (String.length ON_DISK_DELIM)
                                     (String.length s - String.length ON_DISK_DELIM) s)
                 (filter (String.prefix ON_DISK_DELIM) listing)))
    names.
Proof.
  intros Hothers Hperm.
  eapply Permutation_trans; [apply sorted_Permutation|].
  apply (filter_Permutation (String.prefix ON_DISK_DELIM)) in Hperm.
  rewrite (filter_delim names others Hothers) in Hperm.
  eapply Permutation_trans; [apply Permutation_map; exact Hperm|].
  rewrite map_map.
  rewrite (map_ext _ (fun s => s)) by (intros s; apply strip_delim).
  rewrite map_id. apply Permutation_refl.
Qed.

(** X26.  From a listing, in any order, made of the folders of some
    ids (the delimiter followed by [str] of the id) and of entries that
    do not start with the delimiter, [_load_dc_sublocation_keys]
    computes the ids and nothing else, in some order: the integers
    themselves for a list dataclass, the names for the others. *)
Theorem sublocation_keys_are_read_back_from_the_folder_names :
  (forall (ids : list Z) (others listing : list string),
      Forall (fun s => String.prefix ON_DISK_DELIM s = false) others ->
      Permutation listing
        (map (fun i => (ON_DISK_DELIM ++ str (AInt i))%string) ids ++ others) ->
      exists keys,
        sublocation_keys_of_listing true listing
        = Ok (map (fun i => Some (AInt i)) keys)
        /\ Permutation keys ids)
  /\
  (forall (names others listing : list string),
      Forall (fun s => String.prefix ON_DISK_DELIM s = false) others ->
      Permutation listing
        (map (fun s => (ON_DISK_DELIM ++ s)%string) names ++ others) ->
      exists keys,
        sublocation_keys_of_listing false listing
        = Ok (map (fun s => Some (AStr s)) keys)
        /\ Permutation keys names).
Proof.
  split.
  - intros ids others listing Hothers Hperm.
    assert (Hperm' : Permutation listing
                       (map (fun s => (ON_DISK_DELIM ++ s)%string)
                            (map (fun i => str (AInt i)) ids) ++ others))
      by (rewrite map_map; exact Hperm).
    pose proof (stripped_names_Permutation _ others listing Hothers Hperm') as Hs.
    apply Permutation_map_inv in Hs. destruct Hs as [keys [Hkeys Hp]].
    exists keys. split; [| apply Permutation_sym; exact Hp].
    unfold sublocation_keys_of_listing. rewrite Hkeys, map_int_str. reflexivity.
  - intros names others listing Hothers Hperm.
    pose proof (stripped_names_Permutation names others listing Hothers Hperm) as Hs.
    eexists. split; [reflexivity | exact Hs].
Qed.

Lemma sublocation_keys_are_read_back_from_the_folder_names_witness :
  let listing := ["_2"; "_10"; "_1"; "metadata.json"; "log.txt"] in
  Forall (fun s => String.prefix ON_DISK_DELIM s = false) ["metadata.json"; "log.txt"]
  /\ exists keys,
       sublocation_keys_of_listing true listing
       = Ok (map (fun i => Some (AInt i)) keys)
       /\ Permutation keys [2%Z; 10%Z; 1%Z].
Proof.
  intros listing.
  assert (H : Forall (fun s => String.prefix ON_DISK_DELIM s = false)
                     ["metadata.json"; "log.txt"])
    by (repeat constructor).
  split; [exact H|].
  apply (proj1 sublocation_keys_are_read_back_from_the_folder_names
           [2%Z; 10%Z; 1%Z] ["metadata.json"; "log.txt"] listing H).
  apply Permutation_refl.
Defined.
